(** * Smart-Expense-Visualizer: the chatbot's query handler and the loader

    A shallow embedding of [chatbot/query_handler.py] (the rule-based
    responder [_rule_based_answer], the grounding context [_load_context],
    the LLM wrapper [_llm_answer], the health check [test_ai_connectivity]
    and the entry point [handle_query]) and of [load_data] in
    [utils/helpers.py].

    Modelling conventions.
    - A Python [str] is the Rocq string of its UTF-8 encoding; text is cut
      into characters where Python works on characters ([strip], [int] and
      the regular expressions).  Whitespace is the set of [str.isspace] and
      of [\s].  The decimal digits beyond ASCII, and [lower] and [title] on
      text that is not ASCII, belong to the Unicode database of the
      interpreter: they are the class [Unicode], and every theorem holds for
      every such database.
    - [pandas] is a library: what the handler needs from it is collected in
      the class [Pandas] (float64 arithmetic and formatting, the rendering of
      a frame, the iteration order of a [set], date parsing).  Every theorem
      holds for every implementation of that interface; [RefPandas] is a
      small executable one on which examples are evaluated.
    - The frame is the one [utils.helpers.load_data] returns: [Date] holds
      timestamps ([NaT] for what did not parse), so that the handler's own
      [pd.to_datetime(..., errors="coerce")] leaves the column as it is;
      [Amount] holds float64 values ([NaN] when missing); [Category] and
      [Note] hold text or [NaN], and a [Category] column without any text
      is the float64 column [pd.read_csv] makes of it, which has no [.str]
      accessor.  The index is the row position, as [reset_index(drop=True)]
      leaves it.
    - Effects (reading the data files, calling the LLM) are recorded in a
      trace; exceptions are a sum type, caught where the source catches. *)

From Stdlib Require Import String Ascii List ZArith NArith Bool Lia Permutation Sorted.
Import ListNotations.
Local Open Scope string_scope.

(** ** Exceptions

    The outcome of a Python call: a value, or an exception with its [str(e)]. *)
Inductive result (A : Type) : Type :=
| Ok (a : A)
| Raise (msg : string).
Arguments Ok {A}.
Arguments Raise {A}.

(** ** Text

    What the string operations of the handler need of the Unicode character
    database beyond ASCII. *)
Class Unicode := {
  (** [unicodedata.decimal] on a code point above 127: the value of a
      decimal digit (category Nd), [None] for any other character *)
  decimal : N -> option N;
  (** [str.lower] and [str.title] on text that is not all ASCII *)
  lower_unicode : string -> string;
  title_unicode : string -> string;
  (** [repr(s)], which escapes the characters that are not printable *)
  repr : string -> string
}.

Module PyStr.

Definition code (c : ascii) : N := N_of_ascii c.

(** *** Characters of a UTF-8 string *)

(** A continuation byte, [10xxxxxx]. *)
Definition is_cont (c : ascii) : bool := (128 <=? code c)%N && (code c <? 192)%N.

(** The number of continuation bytes a first byte announces. *)
Definition trail (c : ascii) : nat :=
  let n := code c in
  if (n <? 192)%N then 0
  else if (n <? 224)%N then 1
  else if (n <? 240)%N then 2
  else if (n <? 248)%N then 3
  else 0.

(** The longest prefix of at most [k] continuation bytes, and the rest. *)
Fixpoint span_cont (k : nat) (s : string) : string * string :=
  match k, s with
  | S k', String c s' =>
      if is_cont c then let (t, r) := span_cont k' s' in (String c t, r)
      else (EmptyString, s)
  | _, _ => (EmptyString, s)
  end.

Fixpoint chars_fuel (fuel : nat) (s : string) : list string :=
  match fuel, s with
  | S fuel', String c s' =>
      let (t, r) := span_cont (trail c) s' in String c t :: chars_fuel fuel' r
  | _, _ => []
  end.

(** The characters of [s], each as the bytes that encode it. *)
Definition chars (s : string) : list string := chars_fuel (String.length s) s.

Definition join (l : list string) : string := fold_right append EmptyString l.

Definition not_a_character : N := 1114112.   (* 0x110000 *)

(** [ord(ch)] for one character. *)
Definition ord (ch : string) : N :=
  match ch with
  | String a EmptyString =>
      if (code a <? 128)%N then code a else not_a_character
  | String a (String b EmptyString) =>
      let n := ((code a - 192) * 64 + (code b - 128))%N in
      if (trail a =? 1)%nat && (128 <=? n)%N then n else not_a_character
  | String a (String b (String c EmptyString)) =>
      let n := ((code a - 224) * 4096 + (code b - 128) * 64 + (code c - 128))%N in
      if (trail a =? 2)%nat && (2048 <=? n)%N then n else not_a_character
  | String a (String b (String c (String d EmptyString))) =>
      let n := ((code a - 240) * 262144 + (code b - 128) * 4096
                + (code c - 128) * 64 + (code d - 128))%N in
      if (trail a =? 3)%nat && (65536 <=? n)%N && (n <? not_a_character)%N
      then n else not_a_character
  | _ => not_a_character
  end.

Definition between (lo hi n : N) : bool := ((lo <=? n) && (n <=? hi))%N.

(** [ch.isspace()], which is also the class [\s] of [re]. *)
Definition is_space (ch : string) : bool :=
  let n := ord ch in
  between 9 13 n || between 28 32 n || (n =? 133)%N || (n =? 160)%N
  || (n =? 5760)%N || between 8192 8202 n || (n =? 8232)%N || (n =? 8233)%N
  || (n =? 8239)%N || (n =? 8287)%N || (n =? 12288)%N.

(** [a-zA-Z] *)
Definition is_alpha (ch : string) : bool :=
  let n := ord ch in between 65 90 n || between 97 122 n.

Section WithUnicode.

Context {U : Unicode}.

(** The value of a decimal digit, the class [\d] of [re]. *)
Definition digit_value (ch : string) : option N :=
  let n := ord ch in
  if (n <? 128)%N then (if between 48 57 n then Some (n - 48)%N else None)
  else if (n <? not_a_character)%N then decimal n
  else None.

Definition is_digit (ch : string) : bool :=
  match digit_value ch with Some _ => true | None => false end.

End WithUnicode.

(** *** Case *)

Definition is_upper (c : ascii) : bool := between 65 90 (code c).
Definition is_lower (c : ascii) : bool := between 97 122 (code c).
Definition is_letter (c : ascii) : bool := is_upper c || is_lower c.

Definition lower_char (c : ascii) : ascii :=
  if is_upper c then ascii_of_N (code c + 32) else c.

Definition upper_char (c : ascii) : ascii :=
  if is_lower c then ascii_of_N (code c - 32) else c.

Fixpoint is_ascii (s : string) : bool :=
  match s with
  | EmptyString => true
  | String c s' => (code c <? 128)%N && is_ascii s'
  end.

(** [s.lower()] on ASCII text *)
Fixpoint ascii_lower (s : string) : string :=
  match s with
  | EmptyString => EmptyString
  | String c s' => String (lower_char c) (ascii_lower s')
  end.

(** [s.title()] on ASCII text: a letter is upper-cased when the previous
    character is not a letter, and lower-cased otherwise. *)
Fixpoint title_from (prev_cased : bool) (s : string) : string :=
  match s with
  | EmptyString => EmptyString
  | String c s' =>
      String (if prev_cased then lower_char c else upper_char c)
             (title_from (is_letter c) s')
  end.

Definition ascii_title (s : string) : string := title_from false s.

Section WithUnicode.

Context {U : Unicode}.

(** [s.lower()] *)
Definition lower (s : string) : string :=
  if is_ascii s then ascii_lower s else lower_unicode s.

(** [s.title()] *)
Definition title (s : string) : string :=
  if is_ascii s then ascii_title s else title_unicode s.

End WithUnicode.

(** *** Stripping *)

Fixpoint drop_spaces (l : list string) : list string :=
  match l with
  | [] => []
  | ch :: l' => if is_space ch then drop_spaces l' else l
  end.

Definition strip_chars (l : list string) : list string :=
  rev (drop_spaces (rev (drop_spaces l))).

(** [s.strip()] *)
Definition strip (s : string) : string := join (strip_chars (chars s)).

(** [s.startswith(p)] *)
Fixpoint startswith (s p : string) : bool :=
  match p, s with
  | EmptyString, _ => true
  | String _ _, EmptyString => false
  | String a p', String b s' => Ascii.eqb a b && startswith s' p'
  end.

(** [sub in s] *)
Fixpoint contains (sub s : string) : bool :=
  startswith s sub ||
  match s with
  | EmptyString => false
  | String _ s' => contains sub s'
  end.

Definition is_empty (s : string) : bool :=
  match s with EmptyString => true | _ => false end.

(** *** Numbers *)

Definition digit_char (d : N) : ascii := ascii_of_N (48 + d)%N.

Fixpoint str_pos_fuel (fuel : nat) (n : N) (acc : string) : string :=
  match fuel with
  | O => acc
  | S fuel' =>
      let acc' := String (digit_char (n mod 10)%N) acc in
      if (n <? 10)%N then acc' else str_pos_fuel fuel' (n / 10)%N acc'
  end.

(** [str(n)] for a non-negative integer. *)
Definition str_N (n : N) : string :=
  str_pos_fuel (S (N.to_nat (N.log2 n))) n EmptyString.

(** [sys.int_info.default_max_str_digits] *)
Definition max_str_digits : nat := 4300.

Definition exceeds_limit (digits : nat) : string :=
  "Exceeds the limit (4300 digits) for integer string conversion: value has "
  ++ str_N (N.of_nat digits)
  ++ " digits; use sys.set_int_max_str_digits() to increase the limit".

Section WithUnicode.

Context {U : Unicode}.

Fixpoint int_digits (acc : N) (l : list string) : option N :=
  match l with
  | [] => Some acc
  | ch :: l' =>
      match digit_value ch with
      | Some d => int_digits (10 * acc + d)%N l'
      | None => None
      end
  end.

(** [int(s)] for a run of decimal digits, which is what the groups [(\d+)]
    and [(\d{4})] hold: the number, or the [ValueError] of a run of more
    than 4300 digits.  (The signs, underscores and surrounding blanks that
    [int] also reads do not occur in such a group.) *)
Definition int (s : string) : result N :=
  let digits := chars s in
  match digits, int_digits 0 digits with
  | _ :: _, Some n =>
      if (length digits <=? max_str_digits)%nat then Ok n
      else Raise (exceeds_limit (length digits))
  | _, _ => Raise ("invalid literal for int() with base 10: " ++ repr s)
  end.

End WithUnicode.

End PyStr.

(** ** The regular expressions of the handler

    The patterns of the source are sequences of literals, greedy runs of one
    character class and counted repetitions, with unnested capturing groups.
    [search] is [re.search]: the leftmost start, and from it the first match
    in backtracking order; it returns the groups.  The subject is matched
    character by character. *)

Module Re.

Section WithUnicode.

Context {U : Unicode}.

Inductive cls := Space | Digit | Alpha | AlphaSpace.

Definition in_cls (k : cls) (ch : string) : bool :=
  match k with
  | Space => PyStr.is_space ch          (* \s *)
  | Digit => PyStr.is_digit ch          (* \d *)
  | Alpha => PyStr.is_alpha ch          (* [a-zA-Z] *)
  | AlphaSpace => PyStr.is_alpha ch || PyStr.is_space ch   (* [a-zA-Z\s] *)
  end.

Inductive item :=
| Lit (s : string)            (* literal text *)
| Plus (k : cls)              (* k+ , greedy *)
| Times (n : nat) (k : cls)   (* k{n} *)
| Open                        (* ( *)
| Close.                      (* ) *)

(** Characters consumed inside the open group, most recent first. *)
Definition push (ch : string) (cur : option (list string)) : option (list string) :=
  match cur with
  | Some t => Some (ch :: t)
  | None => None
  end.

Fixpoint eat_lit (l : list string) (cur : option (list string)) (s : list string)
  : option (option (list string) * list string) :=
  match l, s with
  | [], _ => Some (cur, s)
  | _ :: _, [] => None
  | a :: l', b :: s' =>
      if String.eqb a b then eat_lit l' (push b cur) s' else None
  end.

Fixpoint eat_times (n : nat) (k : cls) (cur : option (list string)) (s : list string)
  : option (option (list string) * list string) :=
  match n, s with
  | O, _ => Some (cur, s)
  | S _, [] => None
  | S n', ch :: s' =>
      if in_cls k ch then eat_times n' k (push ch cur) s' else None
  end.

(** [match_items p cur caps s]: match [p] at the start of [s]; [caps] are
    the groups closed so far, last one first. *)
Fixpoint match_items (p : list item) (cur : option (list string)) (caps : list string)
                     (s : list string) {struct p} : option (list string) :=
  match p with
  | [] => Some (rev caps)
  | Lit l :: rest =>
      match eat_lit (PyStr.chars l) cur s with
      | Some (cur', s') => match_items rest cur' caps s'
      | None => None
      end
  | Times n k :: rest =>
      match eat_times n k cur s with
      | Some (cur', s') => match_items rest cur' caps s'
      | None => None
      end
  | Open :: rest => match_items rest (Some []) caps s
  | Close :: rest =>
      match cur with
      | Some t => match_items rest None (PyStr.join (rev t) :: caps) s
      | None => None
      end
  | Plus k :: rest =>
      (fix plus (cur : option (list string)) (s : list string) {struct s}
         : option (list string) :=
         match s with
         | [] => None
         | ch :: s' =>
             if in_cls k ch then
               match plus (push ch cur) s' with
               | Some r => Some r
               | None => match_items rest (push ch cur) caps s'
               end
             else None
         end) cur s
  end.

(** The leftmost match in a list of characters. *)
Fixpoint search_chars (p : list item) (s : list string) : option (list string) :=
  match match_items p None [] s with
  | Some r => Some r
  | None =>
      match s with
      | [] => None
      | _ :: s' => search_chars p s'
      end
  end.

(** [re.search(p, s)]: the groups of the match. *)
Definition search (p : list item) (s : string) : option (list string) :=
  search_chars p (PyStr.chars s).

(** [m.group(n)] *)
Definition group (n : nat) (m : list string) : string := nth (n - 1) m EmptyString.

(** r"last\s+(\d+)\s+expenses" *)
Definition last_n_expenses : list item :=
  [Lit "last"; Plus Space; Open; Plus Digit; Close; Plus Space; Lit "expenses"].

(** r"compare\s+([a-zA-Z\s]+)\s+vs\s+([a-zA-Z\s]+)" *)
Definition compare_vs : list item :=
  [Lit "compare"; Plus Space; Open; Plus AlphaSpace; Close; Plus Space;
   Lit "vs"; Plus Space; Open; Plus AlphaSpace; Close].

(** r"monthly\s+total\s+for\s+([a-zA-Z]+)\s+(\d{4})" *)
Definition monthly_total_for : list item :=
  [Lit "monthly"; Plus Space; Lit "total"; Plus Space; Lit "for"; Plus Space;
   Open; Plus Alpha; Close; Plus Space; Open; Times 4 Digit; Close].

(** r"spend\s+in\s+([a-zA-Z]+)\s+(\d{4})" *)
Definition spend_in : list item :=
  [Lit "spend"; Plus Space; Lit "in"; Plus Space;
   Open; Plus Alpha; Close; Plus Space; Open; Times 4 Digit; Close].

Definition iso_date : list item :=
  [Open; Times 4 Digit; Lit "-"; Times 2 Digit; Lit "-"; Times 2 Digit; Close].

(** r"expenses\s+between\s+(\d{4}-\d{2}-\d{2})\s+and\s+(\d{4}-\d{2}-\d{2})" *)
Definition expenses_between : list item :=
  ([Lit "expenses"; Plus Space; Lit "between"; Plus Space] ++ iso_date ++
   [Plus Space; Lit "and"; Plus Space] ++ iso_date)%list.

(** r"summarize\s+last\s+(\d+)\s+expenses" *)
Definition summarize_last_n : list item :=
  [Lit "summarize"; Plus Space; Lit "last"; Plus Space; Open; Plus Digit; Close;
   Plus Space; Lit "expenses"].

End WithUnicode.

End Re.

Section TextExamples.

Context {U : Unicode}.

Example lower_ex : PyStr.lower "Compare Food VS Travel" = "compare food vs travel".
Proof. reflexivity. Qed.

Example title_ex : PyStr.title "food & dining" = "Food & Dining".
Proof. reflexivity. Qed.

Example strip_ex : PyStr.strip "   total spent  " = "total spent".
Proof. reflexivity. Qed.

(** A no-break space (U+00A0) before and an ideographic space (U+3000)
    after are stripped. *)
Example strip_unicode_ex :
  PyStr.strip (String "194" (String "160" (" x"
               ++ String "227" (String "128" (String "128" "")))))
  = "x".
Proof. reflexivity. Qed.

Example chars_ex : PyStr.chars "a₹b" = ["a"; "₹"; "b"] /\ PyStr.ord "₹" = 8377%N.
Proof. split; reflexivity. Qed.

Example str_N_ex : PyStr.str_N 2025%N = "2025" /\ PyStr.str_N 0%N = "0" /\ PyStr.str_N 10%N = "10".
Proof. repeat split; reflexivity. Qed.

Example int_ex : PyStr.int "0999" = Ok 999%N.
Proof. reflexivity. Qed.

Example re_last_ex :
  Re.search Re.last_n_expenses "show me the last  12 expenses please" = Some ["12"].
Proof. reflexivity. Qed.

Example re_compare_ex :
  Re.search Re.compare_vs "compare food vs travel" = Some ["food"; "travel"].
Proof. reflexivity. Qed.

Example re_compare_backtrack_ex :
  Re.search Re.compare_vs "compare a vs b vs c" = Some ["a vs b"; "c"].
Proof. reflexivity. Qed.

Example re_monthly_ex :
  Re.search Re.monthly_total_for "monthly total for august 2025" = Some ["august"; "2025"].
Proof. reflexivity. Qed.

Example re_between_ex :
  Re.search Re.expenses_between "expenses between 2025-01-01 and 2025-02-15"
  = Some ["2025-01-01"; "2025-02-15"].
Proof. reflexivity. Qed.

Example re_none_ex : Re.search Re.last_n_expenses "last expenses" = None.
Proof. reflexivity. Qed.

End TextExamples.

(** ** Data: timestamps, rows and frames *)

(** A [pandas.Timestamp] without time zone. *)
Record Timestamp := mkTimestamp {
  ts_year : Z;
  ts_month : Z;
  ts_day : Z;
  ts_nanos : Z   (* time of day, in nanoseconds *)
}.

Definition ts_key (t : Timestamp) : Z * Z * Z * Z :=
  (ts_year t, ts_month t, ts_day t, ts_nanos t).

(** [t1 <= t2] *)
Definition ts_leb (t1 t2 : Timestamp) : bool :=
  match (ts_year t1 ?= ts_year t2)%Z with
  | Lt => true
  | Gt => false
  | Eq =>
      match (ts_month t1 ?= ts_month t2)%Z with
      | Lt => true
      | Gt => false
      | Eq =>
          match (ts_day t1 ?= ts_day t2)%Z with
          | Lt => true
          | Gt => false
          | Eq => (ts_nanos t1 <=? ts_nanos t2)%Z
          end
      end
  end.

(** [t.date()] *)
Definition ts_date (t : Timestamp) : Z * Z * Z := (ts_year t, ts_month t, ts_day t).

Definition date_eqb (d1 d2 : Z * Z * Z) : bool :=
  let '(y1, m1, x1) := d1 in
  let '(y2, m2, x2) := d2 in
  ((y1 =? y2) && (m1 =? m2) && (x1 =? x2))%Z.

Definition date_leb (d1 d2 : Z * Z * Z) : bool :=
  let '(y1, m1, x1) := d1 in
  let '(y2, m2, x2) := d2 in
  ts_leb (mkTimestamp y1 m1 x1 0) (mkTimestamp y2 m2 x2 0).

Section Frames.

(** The float64 values of the [Amount] column, [NaN] included. *)
Variable float : Type.

(** One record of the expense table.  A cell of a column the frame does
    not have is never read. *)
Record Row := mkRow {
  Date : option Timestamp;      (* [None] is NaT *)
  Category : option string;     (* [None] is NaN *)
  Amount : float;
  Note : option string          (* [None] is NaN *)
}.

Record DataFrame := mkFrame {
  has_Date : bool;
  has_Category : bool;
  has_Amount : bool;
  has_Note : bool;
  other_columns : list string;  (* columns besides the four above *)
  rows : list Row
}.

Definition no_columns (df : DataFrame) : bool :=
  negb (has_Date df) && negb (has_Category df) && negb (has_Amount df)
  && negb (has_Note df)
  && match other_columns df with [] => true | _ => false end.

(** [df.empty]: no rows or no columns. *)
Definition empty (df : DataFrame) : bool :=
  match rows df with [] => true | _ => false end || no_columns df.

Definition lastn {A} (n : nat) (l : list A) : list A := skipn (length l - n) l.

(** [df.tail(n)] for [n >= 1] *)
Definition tail (n : nat) (df : DataFrame) : DataFrame :=
  mkFrame (has_Date df) (has_Category df) (has_Amount df) (has_Note df)
          (other_columns df) (lastn n (rows df)).

(** [df.head(n)] *)
Definition head (n : nat) (df : DataFrame) : DataFrame :=
  mkFrame (has_Date df) (has_Category df) (has_Amount df) (has_Note df)
          (other_columns df) (firstn n (rows df)).

(** [df[[c for c in ["Date", "Category", "Amount", "Note"] if c in df.columns]]] *)
Definition preview_cols (df : DataFrame) : DataFrame :=
  mkFrame (has_Date df) (has_Category df) (has_Amount df) (has_Note df)
          [] (rows df).

(** [df[mask]] *)
Definition select (mask : Row -> bool) (df : DataFrame) : DataFrame :=
  mkFrame (has_Date df) (has_Category df) (has_Amount df) (has_Note df)
          (other_columns df) (filter mask (rows df)).

(** [series.dropna()] on a text column *)
Fixpoint dropna {A} (l : list (option A)) : list A :=
  match l with
  | [] => []
  | Some a :: l' => a :: dropna l'
  | None :: l' => dropna l'
  end.

(** [series.unique()]: the distinct values, in order of first appearance. *)
Fixpoint unique (l : list string) : list string :=
  match l with
  | [] => []
  | a :: l' => a :: filter (fun b => negb (String.eqb a b)) (unique l')
  end.

(** Insertion of a key into a list of keys sorted by [leb]. *)
Fixpoint insert_key {K} (leb : K -> K -> bool) (k : K) (l : list K) : list K :=
  match l with
  | [] => [k]
  | k' :: l' => if leb k k' then k :: l else k' :: insert_key leb k l'
  end.

Fixpoint sort_keys {K} (leb : K -> K -> bool) (l : list K) : list K :=
  match l with
  | [] => []
  | k :: l' => insert_key leb k (sort_keys leb l')
  end.

Fixpoint distinct {K} (eqb : K -> K -> bool) (l : list K) : list K :=
  match l with
  | [] => []
  | a :: l' => a :: filter (fun b => negb (eqb a b)) (distinct eqb l')
  end.

End Frames.

Arguments mkRow {float}.
Arguments Date {float}.
Arguments Category {float}.
Arguments Amount {float}.
Arguments Note {float}.
Arguments mkFrame {float}.
Arguments has_Date {float}.
Arguments has_Category {float}.
Arguments has_Amount {float}.
Arguments has_Note {float}.
Arguments other_columns {float}.
Arguments rows {float}.
Arguments no_columns {float}.
Arguments empty {float}.
Arguments lastn {A}.
Arguments tail {float}.
Arguments head {float}.
Arguments preview_cols {float}.
Arguments select {float}.
Arguments dropna {A}.
Arguments insert_key {K}.
Arguments sort_keys {K}.
Arguments distinct {K}.

(** ** What the handler uses of pandas and of the Python runtime *)

Class Pandas := {
  float : Type;
  (** [0.0] *)
  zero : float;
  (** [math.isnan] *)
  isna : float -> bool;
  (** [x < y] and [x >= y] *)
  lt : float -> float -> bool;
  ge : float -> float -> bool;
  (** [Series.sum()] and [Series.mean()] of float64 values without NaN *)
  sum : list float -> float;
  mean : list float -> float;
  (** the format spec [:.2f] *)
  fmt2 : float -> string;
  (** [DataFrame.to_string(index=False)] *)
  to_string : DataFrame float -> string;
  (** the order in which a [set] holding these strings is iterated *)
  set_iter : list string -> list string;
  (** [Series.sort_values(ascending=False)] on a series indexed by label *)
  sort_values_desc : list (string * float) -> list (string * float);
  (** [str(t)] and [str(t.date())] *)
  str_timestamp : Timestamp -> string;
  str_date : Timestamp -> string;
  (** [pd.to_datetime(f"01 {name} {year}", dayfirst=True).month];
      [None] when the call raises *)
  month_of_name : string -> N -> option Z;
  (** [pd.to_datetime(text)]; [None] when the call raises *)
  to_datetime : string -> option Timestamp;
  (** [str(e)] of the [AttributeError] of [.str] on a column that holds no text *)
  str_accessor_error : string;

  isna_zero : isna zero = false;
  sum_nil : sum [] = zero;
  fmt2_zero : fmt2 zero = "0.00";
  (** [<] on float64: NaN compares false with everything, the other values
      are totally ordered. *)
  lt_irrefl : forall x, lt x x = false;
  lt_trans : forall x y z, lt x y = true -> lt y z = true -> lt x z = true;
  lt_cotrans : forall x y z,
      isna y = false -> lt x z = true -> lt x y = true \/ lt y z = true;
  set_iter_perm : forall l, Permutation (set_iter l) (nodup string_dec l);
  month_of_august_2025 : month_of_name "august" 2025%N = Some 8%Z
}.

(** ** Effects *)

(** The calls recorded in the trace of a computation. *)
Inductive event :=
| CallLoadData            (* utils.helpers.load_data() *)
| CallOpenAI              (* the [try] of [_llm_answer]: import, client, chat completion *)
| CallRuleBased.          (* _rule_based_answer(...) *)

(** A computation: its outcome and the calls it made, in order. *)
Definition M (A : Type) : Type := result A * list event.

Definition ret {A} (a : A) : M A := (Ok a, []).
Definition raise {A} (msg : string) : M A := (Raise msg, []).
Definition emit (e : event) : M unit := (Ok tt, [e]).
Definition lift {A} (r : result A) : M A := (r, []).

Definition bind {A B} (m : M A) (f : A -> M B) : M B :=
  match m with
  | (Ok a, t) => let (r, t') := f a in (r, (t ++ t')%list)
  | (Raise msg, t) => (Raise msg, t)
  end.

(** [try: m except Exception as e: h(str(e))] *)
Definition try_except {A} (m : M A) (h : string -> M A) : M A :=
  match m with
  | (Ok a, t) => (Ok a, t)
  | (Raise msg, t) => let (r, t') := h msg in (r, (t ++ t')%list)
  end.

Notation "x <- m ;; k" := (bind m (fun x => k))
  (at level 61, m at next level, right associativity).
Notation "m ;;; k" := (bind m (fun _ => k))
  (at level 61, right associativity).

(** The first rule that answers, in the order given. *)
Fixpoint first_match {A B} (rules : list (A -> option B)) (a : A) : option B :=
  match rules with
  | [] => None
  | r :: rest =>
      match r a with
      | Some b => Some b
      | None => first_match rest a
      end
  end.

Module QueryHandler.
Section WithPandas.

Context {U : Unicode} {P : Pandas}.

Local Abbreviation Frame := (DataFrame float).

(** The outcome of a chat completion. *)
Inductive llm_outcome :=
| Content (text : string)      (* resp.choices[0].message.content *)
| ImportError                  (* an [ImportError] *)
| CallError (msg : string).    (* any other exception *)

(** The outcome of [from openai import OpenAI; client = OpenAI(api_key=...)]. *)
Inductive client_outcome :=
| Client
| ClientImportError               (* the package is not installed *)
| ClientError (msg : string).     (* any other exception *)

(** The context handed to the model: the dictionary of [_load_context].
    The records of [rows_preview] have the columns of the frame as keys;
    [preview_has_Date] tells whether [Date] is one of them. *)
Record Context := mkContext {
  total_spent : float;
  top_categories : list (string * float);
  rows_preview : list (Row float);
  preview_has_Date : bool
}.

(** What the handler reads from outside. *)
Record World := mkWorld {
  (** [load_data()]: the frame it returns, or the exception it raises *)
  load_data_outcome : result (option Frame);
  (** [os.getenv("OPENAI_API_KEY")] *)
  env_key : option string;
  (** [st.secrets.get("OPENAI_API_KEY")], or the exception of the import or lookup *)
  secrets_key : result (option string);
  (** the import of the client and its construction for a key *)
  openai_client : string -> client_outcome;
  (** [json.dumps(context, ensure_ascii=False)] on a context that holds no
      timestamp: the text, or the exception *)
  json_text : Context -> result string;
  (** [str(e)] of the [TypeError] of [json.dumps] on a context whose records
      hold a timestamp, which is not JSON serializable *)
  json_error : Context -> string;
  (** [client.chat.completions.create(...)] for a key and the message of the
      user, and the content of the first choice *)
  chat : string -> string -> llm_outcome
}.

Variable w : World.

Definition load_data : M (option Frame) :=
  emit CallLoadData ;;; lift (load_data_outcome w).

(** *** Series helpers *)

(** [x.fillna(0)] on one value *)
Definition fillna0 (x : float) : float := if isna x then zero else x.

Definition notna (x : float) : bool := negb (isna x).

(** [float(series.fillna(0).sum())] over the [Amount] cells of [rs] *)
Definition amount_total (rs : list (Row float)) : float :=
  sum (map fillna0 (map Amount rs)).

(** [groupby(key)["Amount"].sum()]: one entry per distinct key, keys in
    ascending order, NaN amounts skipped. *)
Definition group_sums {K} (leb eqb : K -> K -> bool) (kvs : list (K * float))
  : list (K * float) :=
  map (fun k =>
         (k, sum (filter notna
                    (map snd (filter (fun kv => eqb k (fst kv)) kvs)))))
      (sort_keys leb (distinct eqb (map fst kvs))).

(** [str(cell)] for a text cell and for a date cell *)
Definition str_text (c : option string) : string :=
  match c with Some s => s | None => "nan" end.

Definition str_date_cell (c : option Timestamp) : string :=
  match c with Some t => str_timestamp t | None => "NaT" end.

(** [max(1, min(n, 50))] *)
Definition clamp (n : N) : nat := N.to_nat (N.max 1 (N.min n 50)).

(** The row has text in its [Category] cell. *)
Definition has_text (r : Row float) : bool :=
  match Category r with Some _ => true | None => false end.

(** First position of a best value, scanning left to right and replacing
    the candidate only by a strictly better one ([idxmax], [idxmin]). *)
Fixpoint arg_scan (better : float -> float -> bool) (best_i : nat) (best : float)
                  (i : nat) (l : list float) : nat :=
  match l with
  | [] => best_i
  | x :: l' =>
      if better x best then arg_scan better i x (S i) l'
      else arg_scan better best_i best (S i) l'
  end.

Definition arg_first (better : float -> float -> bool) (l : list float) : nat :=
  match l with
  | [] => 0
  | x :: l' => arg_scan better 0 x 1 l'
  end.

Definition idxmax (l : list float) : nat := arg_first (fun x best => lt best x) l.
Definition idxmin (l : list float) : nat := arg_first (fun x best => lt x best) l.

(** [df.iloc[idx]] *)
Definition iloc (idx : nat) (df : Frame) : result (Row float) :=
  match nth_error (rows df) idx with
  | Some r => Ok r
  | None => Raise "single positional indexer is out-of-bounds"
  end.

(** The sentence of the largest / smallest rules for one row. *)
Definition describe_row (label : string) (df : Frame) (row : Row float) : string :=
  let cat := if has_Category df then str_text (Category row) else "" in
  let date := if has_Date df then str_date_cell (Date row) else "" in
  let amt := Amount row in
  let note := PyStr.strip (if has_Note df then str_text (Note row) else "") in
  let note_part := if PyStr.is_empty note then "" else " Note: " ++ note ++ "." in
  label ++ " expense: ₹" ++ fmt2 amt ++ " on " ++ date ++ " (" ++ cat ++ ")." ++ note_part.

(** [tmp]: the rows whose date is not NaT. *)
Definition dated (df : Frame) : Frame :=
  select (fun r => match Date r with Some _ => true | None => false end) df.

Definition in_month (year month : Z) (r : Row float) : bool :=
  match Date r with
  | Some t => ((ts_year t =? year) && (ts_month t =? month))%Z
  | None => false
  end.

Definition in_range (start stop : Timestamp) (r : Row float) : bool :=
  match Date r with
  | Some t => ts_leb start t && ts_leb t stop
  | None => false
  end.

(** *** The rules of [_rule_based_answer], in the order of the source.

    A rule takes the frame and the lower-cased query; [None] means that
    its [if] did not fire and control reaches the next statement. *)

Definition Rule : Type := Frame * string -> option (result string).

Definition asks_total (low : string) : bool :=
  PyStr.contains "total spent" low
  || PyStr.contains "how much did i spend" low
  || PyStr.contains "total spend" low.

(** # Total spend *)
Definition rule_total : Rule := fun '(df, low) =>
  if asks_total low then
    Some (Ok ("You've spent a total of ₹" ++ fmt2 (amount_total (rows df)) ++ "."))
  else None.

(** # Show last N expenses *)
Definition rule_last_n : Rule := fun '(df, low) =>
  match Re.search Re.last_n_expenses low with
  | Some m =>
      Some match PyStr.int (Re.group 1 m) with
           | Ok n => Ok (to_string (preview_cols (tail (clamp n) df)))
           | Raise e => Raise e
           end
  | None => None
  end.

Definition rule_show_last_5 : Rule := fun '(df, low) =>
  if PyStr.contains "show last 5 expenses" low then
    Some (Ok (to_string (preview_cols (tail 5 df))))
  else None.

(** # Largest / Smallest expense *)
Definition rule_largest : Rule := fun '(df, low) =>
  if PyStr.contains "largest expense" low then
    let idx := idxmax (map fillna0 (map Amount (rows df))) in
    Some match iloc idx df with
         | Ok row => Ok (describe_row "Largest" df row)
         | Raise e => Raise e
         end
  else None.

Definition rule_smallest : Rule := fun '(df, low) =>
  if PyStr.contains "smallest expense" low then
    let idx := idxmin (map fillna0 (map Amount (rows df))) in
    Some match iloc idx df with
         | Ok row => Ok (describe_row "Smallest" df row)
         | Raise e => Raise e
         end
  else None.

(** # Average daily spend *)
Definition rule_average_daily : Rule := fun '(df, low) =>
  if PyStr.contains "average daily spend" low && has_Date df then
    let tmp := dated df in
    if empty tmp then Some (Ok "Dates are not parseable to compute daily average.")
    else
      let daily :=
        group_sums date_leb date_eqb
          (flat_map (fun r => match Date r with
                              | Some t => [(ts_date t, Amount r)]
                              | None => []
                              end) (rows tmp)) in
      match daily with
      | [] => Some (Ok "No daily data available.")
      | _ => Some (Ok ("Average daily spend: ₹" ++ fmt2 (mean (map snd daily)) ++ "."))
      end
  else None.

(** [known_cats], in the order the [for] loop visits the set. *)
Definition known_cats (df : Frame) : list string :=
  set_iter (map PyStr.lower (unique (dropna (map Category (rows df))))).

(** [category_series.str.lower() == matched_cat] *)
Definition category_is (cat : string) (r : Row float) : bool :=
  match Category r with
  | Some c => String.eqb (PyStr.lower c) cat
  | None => false
  end.

(** # Category-specific *)
Definition rule_category : Rule := fun '(df, low) =>
  if has_Category df then
    match find (fun cat => PyStr.contains cat low) (known_cats df) with
    | Some matched_cat =>
        if PyStr.is_empty matched_cat then None
        else
          let total := amount_total (rows (select (category_is matched_cat) df)) in
          Some (Ok ("You spent ₹" ++ fmt2 total ++ " on " ++ matched_cat ++ "."))
    | None => None
    end
  else None.

(** [category_series.astype(str).str.lower().str.contains(name.lower())] *)
Definition category_contains (name : string) (r : Row float) : bool :=
  PyStr.contains (PyStr.lower name) (PyStr.lower (str_text (Category r))).

Definition _sum_cat (df : Frame) (name : string) : float :=
  amount_total (rows (select (category_contains name) df)).

(** # Compare X vs Y categories *)
Definition rule_compare : Rule := fun '(df, low) =>
  match Re.search Re.compare_vs low with
  | Some cmp =>
      if has_Category df then
        let a := PyStr.strip (Re.group 1 cmp) in
        let b := PyStr.strip (Re.group 2 cmp) in
        let av := _sum_cat df a in
        let bv := _sum_cat df b in
        let winner := if ge av bv then a else b in
        Some (Ok (PyStr.title a ++ ": ₹" ++ fmt2 av ++ " vs " ++ PyStr.title b
                  ++ ": ₹" ++ fmt2 bv ++ " → Higher: " ++ PyStr.title winner ++ "."))
      else None
  | None => None
  end.

(** The body shared by the two month rules; [None] also when the month
    name does not parse (the [except Exception: pass]). *)
Definition month_rule (pattern : list Re.item) (label : string) : Rule := fun '(df, low) =>
  if has_Date df then
    let tmp := dated df in
    match Re.search pattern low with
    | Some m =>
        if empty tmp then None
        else
          let month_name := Re.group 1 m in
          match PyStr.int (Re.group 2 m) with
          | Ok year =>
              match month_of_name month_name year with
              | Some month_num =>
                  let total :=
                    amount_total (rows (select (in_month (Z.of_N year) month_num) tmp)) in
                  Some (Ok (label ++ " " ++ PyStr.title month_name ++ " "
                            ++ PyStr.str_N year ++ ": ₹" ++ fmt2 total ++ "."))
              | None => None
              end
          | Raise e => Some (Raise e)
          end
    | None => None
    end
  else None.

(** # monthly total for <Month Year> *)
Definition rule_monthly_total : Rule := month_rule Re.monthly_total_for "Total for".

(** # spend in <Month Year> *)
Definition rule_spend_in : Rule := month_rule Re.spend_in "Spend in".

(** # expenses between YYYY-MM-DD and YYYY-MM-DD *)
Definition rule_between : Rule := fun '(df, low) =>
  if has_Date df then
    let tmp := dated df in
    match Re.search Re.expenses_between low with
    | Some r =>
        if empty tmp then None
        else
          match to_datetime (Re.group 1 r), to_datetime (Re.group 2 r) with
          | Some start, Some stop =>
              let total := amount_total (rows (select (in_range start stop) tmp)) in
              Some (Ok ("Total between " ++ str_date start ++ " and " ++ str_date stop
                        ++ ": ₹" ++ fmt2 total ++ "."))
          | _, _ => None
          end
    | None => None
    end
  else None.

(** # Summarize last N expenses *)
Definition rule_summarize : Rule := fun '(df, low) =>
  if PyStr.contains "summarize last" low && PyStr.contains "expenses" low then
    Some match match Re.search Re.summarize_last_n low with
               | Some m => PyStr.int (Re.group 1 m)
               | None => Ok 10%N
               end with
         | Ok count =>
             let n := clamp count in
             let out := preview_cols (tail n df) in
             let total := if has_Amount out then amount_total (rows out) else zero in
             Ok ("Last " ++ PyStr.str_N (N.of_nat n) ++ " expenses (total ₹"
                 ++ fmt2 total ++ "):" ++ String "010" (to_string out))
         | Raise e => Raise e
         end
  else None.

Definition asks_top_category (low : string) : bool :=
  (PyStr.contains "top" low && PyStr.contains "category" low)
  || (PyStr.contains "highest" low && PyStr.contains "category" low).

(** # Top category *)
Definition rule_top_category : Rule := fun '(df, low) =>
  if asks_top_category low then
    if negb (has_Category df) then
      Some (Ok "Couldn't find the 'Category' column in your data.")
    else if negb (existsb has_text (rows df)) then
      (* [category_series.str] on a column without text *)
      Some (Raise str_accessor_error)
    else
      let grouped :=
        sort_values_desc
          (group_sums String.leb String.eqb
             (flat_map (fun r => match Category r with
                                 | Some c => [(PyStr.title c, Amount r)]
                                 | None => []
                                 end) (rows df))) in
      match grouped with
      | [] => Some (Ok "No categorized expenses found.")
      | (top_cat, top_val) :: _ =>
          Some (Ok ("Top category: " ++ top_cat ++ " with ₹" ++ fmt2 top_val ++ "."))
      end
  else None.

Definition rules : list Rule :=
  [ rule_total; rule_last_n; rule_show_last_5; rule_largest; rule_smallest;
    rule_average_daily; rule_category; rule_compare; rule_monthly_total;
    rule_spend_in; rule_between; rule_summarize; rule_top_category ].

Definition no_data : string := "No expense data available yet. Add some expenses first.".

Definition not_understood : string :=
  "Sorry, I didn’t understand that. Try asking things like 'total spent', 'food expenses', or 'top category'.".

(** The statements of [_rule_based_answer] after [df = load_data()]. *)
Definition answer_from (df : option Frame) (query : string) : result string :=
  match df with
  | None => Ok no_data
  | Some df =>
      if empty df then Ok no_data
      else if negb (has_Amount df) then
        Ok "Couldn't find the 'Amount' column in your data."
      else
        let low := PyStr.lower query in
        match first_match rules (df, low) with
        | Some r => r
        | None => Ok not_understood
        end
  end.

(** The body of the [try] of [_rule_based_answer]. *)
Definition _rule_based_body (query : string) : M string :=
  df <- load_data ;;
  lift (answer_from df query).

Definition _rule_based_answer (query : string) : M string :=
  emit CallRuleBased ;;;
  try_except (_rule_based_body query)
             (fun msg => ret ("Error processing query: " ++ msg)).

(** *** The LLM path *)

Definition empty_context : Context := mkContext zero [] [] false.

(** The statements of [_load_context] after [df = load_data()]; reading a
    column the frame does not have raises [KeyError]. *)
Definition context_from (df : option Frame) : result Context :=
  match df with
  | None => Ok empty_context
  | Some df =>
      if empty df then Ok empty_context
      else if negb (has_Amount df) then Raise "'Amount'"
      else if negb (has_Category df) then Raise "'Category'"
      else
        let total := amount_total (rows df) in
        let top :=
          firstn 5
            (sort_values_desc
               (group_sums String.leb String.eqb
                  (flat_map (fun r => match Category r with
                                      | Some c => [(c, Amount r)]
                                      | None => []
                                      end) (rows df)))) in
        Ok (mkContext total top (rows (head 10 df)) (has_Date df))
  end.

Definition _load_context : M Context :=
  try_except (df <- load_data ;; lift (context_from df))
             (fun _ => ret empty_context).

(** [_get_openai_key] *)
Definition _get_openai_key : option string :=
  match env_key w with
  | Some k => if PyStr.is_empty k then
                match secrets_key w with Ok k' => k' | Raise _ => None end
              else Some k
  | None => match secrets_key w with Ok k' => k' | Raise _ => None end
  end.

Definition not_configured : string :=
  "ChatGPT integration is not configured. Set OPENAI_API_KEY in your environment or .streamlit/secrets.toml to enable AI responses.".

Definition not_installed : string :=
  "The 'openai' package is not installed. Add 'openai' to requirements and run pip install.".

(** [json.dumps(context, ensure_ascii=False)]: a [Timestamp] or [NaT] in a
    record is not JSON serializable. *)
Definition json_dumps (context : Context) : result string :=
  match rows_preview context with
  | _ :: _ =>
      if preview_has_Date context then Raise (json_error w context)
      else json_text w context
  | [] => json_text w context
  end.

(** f"Context: {context_str}\n\nQuestion: {query}" *)
Definition user_message (context_str query : string) : string :=
  "Context: " ++ context_str ++ String "010" (String "010" ("Question: " ++ query)).

Definition _llm_answer (query : string) (context : Context) : M string :=
  match _get_openai_key with
  | None => ret not_configured
  | Some api_key =>
      if PyStr.is_empty api_key then ret not_configured
      else
        emit CallOpenAI ;;;
        match openai_client w api_key with
        | ClientImportError => ret not_installed
        | ClientError msg => ret ("AI response error: " ++ msg)
        | Client =>
            match json_dumps context with
            | Raise msg => ret ("AI response error: " ++ msg)
            | Ok context_str =>
                match chat w api_key (user_message context_str query) with
                | Content text => ret (PyStr.strip text)
                | ImportError => ret not_installed
                | CallError msg => ret ("AI response error: " ++ msg)
                end
            end
        end
  end.

(** The test of [handle_query] on the LLM answer. *)
Definition is_failure_answer (ai_answer : string) : bool :=
  PyStr.startswith ai_answer "ChatGPT integration is not configured"
  || PyStr.startswith ai_answer "The 'openai' package is not installed"
  || PyStr.startswith ai_answer "AI response error".

Definition handle_query (user_input : option string) : M string :=
  let query := PyStr.strip (match user_input with Some s => s | None => "" end) in
  if PyStr.is_empty query then ret "Please enter a question."
  else
    context <- _load_context ;;
    ai_answer <- _llm_answer query context ;;
    if is_failure_answer ai_answer then _rule_based_answer query
    else ret ai_answer.

End WithPandas.
End QueryHandler.

(** ** A reference implementation of the interfaces

    The decimal digits are those of Unicode 14.0, the database of
    CPython 3.11; [lower] and [title] change ASCII letters only and [repr]
    adds the quotes.  Amounts
    are decimals with two places, held as a number of hundredths ([None] is
    NaN); a frame is rendered one row per line.  It is used to evaluate the
    handler on concrete data. *)

Module Ref.

(** The code points of the digits zero of Unicode 14.0 above ASCII; the
    digits one to nine follow each of them. *)
Definition digit_zeros : list N :=
  [1632; 1776; 1984; 2406; 2534; 2662; 2790; 2918; 3046; 3174; 3302; 3430;
   3558; 3664; 3792; 3872; 4160; 4240; 6112; 6160; 6470; 6608; 6784; 6800;
   6992; 7088; 7232; 7248; 42528; 43216; 43264; 43472; 43504; 43600; 44016;
   65296; 66720; 68912; 69734; 69872; 69942; 70096; 70384; 70736; 70864;
   71248; 71360; 71472; 71904; 72016; 72784; 73040; 73120; 92768; 92864;
   93008; 120782; 120792; 120802; 120812; 120822; 123200; 123632; 125264;
   130032]%N.

Definition r_decimal (n : N) : option N :=
  match find (fun z => (z <=? n)%N && (n <? z + 10)%N) digit_zeros with
  | Some z => Some (n - z)%N
  | None => None
  end.

#[export] Instance RefUnicode : Unicode := {|
  decimal := r_decimal;
  lower_unicode := PyStr.ascii_lower;
  title_unicode := PyStr.ascii_title;
  repr := fun s => "'" ++ s ++ "'"
|}.

Definition amount : Type := option Z.

Definition of_hundredths (z : Z) : amount := Some z.
Definition rupees (z : Z) : amount := Some (100 * z)%Z.

Definition a_isna (x : amount) : bool :=
  match x with Some _ => false | None => true end.

Definition a_lt (x y : amount) : bool :=
  match x, y with
  | Some a, Some b => (a <? b)%Z
  | _, _ => false
  end.

Definition a_ge (x y : amount) : bool :=
  match x, y with
  | Some a, Some b => (b <=? a)%Z
  | _, _ => false
  end.

Definition a_add (x y : amount) : amount :=
  match x, y with
  | Some a, Some b => Some (a + b)%Z
  | _, _ => None
  end.

Definition a_sum (l : list amount) : amount := fold_left a_add l (Some 0%Z).

Definition a_mean (l : list amount) : amount :=
  match l, a_sum l with
  | _ :: _, Some s => Some (s / Z.of_nat (length l))%Z
  | _, _ => None
  end.

Definition pad2 (n : N) : string :=
  if (n <? 10)%N then "0" ++ PyStr.str_N n else PyStr.str_N n.

Definition pad4 (n : N) : string :=
  if (n <? 10)%N then "000" ++ PyStr.str_N n
  else if (n <? 100)%N then "00" ++ PyStr.str_N n
  else if (n <? 1000)%N then "0" ++ PyStr.str_N n
  else PyStr.str_N n.

Definition a_fmt2 (x : amount) : string :=
  match x with
  | None => "nan"
  | Some z =>
      let a := Z.to_N (Z.abs z) in
      (if (z <? 0)%Z then "-" else "")
      ++ PyStr.str_N (a / 100)%N ++ "." ++ pad2 (a mod 100)%N
  end.

Definition r_str_date (t : Timestamp) : string :=
  pad4 (Z.to_N (ts_year t)) ++ "-" ++ pad2 (Z.to_N (ts_month t)) ++ "-"
  ++ pad2 (Z.to_N (ts_day t)).

Definition r_str_timestamp (t : Timestamp) : string :=
  let secs := Z.to_N (ts_nanos t / 1000000000) in
  r_str_date t ++ " " ++ pad2 (secs / 3600)%N ++ ":" ++ pad2 ((secs / 60) mod 60)%N
  ++ ":" ++ pad2 (secs mod 60)%N.

Definition text_cell (c : option string) : string :=
  match c with Some s => s | None => "NaN" end.

Definition date_cell (c : option Timestamp) : string :=
  match c with Some t => r_str_date t | None => "NaT" end.

Definition render_row (df : DataFrame amount) (r : Row amount) : string :=
  (if has_Date df then date_cell (Date r) ++ " " else "")
  ++ (if has_Category df then text_cell (Category r) ++ " " else "")
  ++ (if has_Amount df then a_fmt2 (Amount r) ++ " " else "")
  ++ (if has_Note df then text_cell (Note r) else "").

Definition render_header (df : DataFrame amount) : string :=
  (if has_Date df then "Date " else "")
  ++ (if has_Category df then "Category " else "")
  ++ (if has_Amount df then "Amount " else "")
  ++ (if has_Note df then "Note" else "").

Definition r_to_string (df : DataFrame amount) : string :=
  fold_left (fun acc r => acc ++ String "010" (render_row df r)) (rows df)
            (render_header df).

Fixpoint insert_desc (kv : string * amount) (l : list (string * amount))
  : list (string * amount) :=
  match l with
  | [] => [kv]
  | kv' :: l' => if a_lt (snd kv) (snd kv') then kv' :: insert_desc kv l' else kv :: l
  end.

Definition r_sort_values_desc (l : list (string * amount)) : list (string * amount) :=
  fold_right insert_desc [] l.

Definition month_names : list (string * Z) :=
  [ ("january", 1); ("february", 2); ("march", 3); ("april", 4); ("may", 5);
    ("june", 6); ("july", 7); ("august", 8); ("september", 9); ("october", 10);
    ("november", 11); ("december", 12);
    ("jan", 1); ("feb", 2); ("mar", 3); ("apr", 4); ("jun", 6); ("jul", 7);
    ("aug", 8); ("sep", 9); ("sept", 9); ("oct", 10); ("nov", 11); ("dec", 12) ]%Z.

Definition r_month_of_name (name : string) (year : N) : option Z :=
  if ((1678 <=? year) && (year <=? 2261))%N then
    match find (fun kv => String.eqb (fst kv) (PyStr.lower name)) month_names with
    | Some kv => Some (snd kv)
    | None => None
    end
  else None.

(** ISO dates [YYYY-MM-DD] only. *)
Definition r_to_datetime (text : string) : option Timestamp :=
  match Re.match_items Re.iso_date None [] (PyStr.chars text) with
  | Some [d] =>
      match PyStr.int (substring 0 4 d), PyStr.int (substring 5 2 d),
            PyStr.int (substring 8 2 d) with
      | Ok y, Ok m, Ok x =>
          if (String.length text =? 10)%nat
             && (1678 <=? y)%N && (y <=? 2261)%N && (1 <=? m)%N && (m <=? 12)%N
             && (1 <=? x)%N && (x <=? 28)%N
          then Some (mkTimestamp (Z.of_N y) (Z.of_N m) (Z.of_N x) 0) else None
      | _, _, _ => None
      end
  | _ => None
  end.

Lemma a_lt_irrefl : forall x, a_lt x x = false.
Proof. intros [a|]; simpl; [apply Z.ltb_irrefl | reflexivity]. Qed.

Lemma a_lt_trans : forall x y z, a_lt x y = true -> a_lt y z = true -> a_lt x z = true.
Proof.
  intros [a|] [b|] [c|]; simpl; try discriminate.
  rewrite !Z.ltb_lt. lia.
Qed.

Lemma a_lt_cotrans : forall x y z,
    a_isna y = false -> a_lt x z = true -> a_lt x y = true \/ a_lt y z = true.
Proof.
  intros [a|] [b|] [c|]; simpl; try discriminate.
  intros _. rewrite !Z.ltb_lt. lia.
Qed.

#[export] Instance RefPandas : Pandas := {|
  float := amount;
  zero := Some 0%Z;
  isna := a_isna;
  lt := a_lt;
  ge := a_ge;
  sum := a_sum;
  mean := a_mean;
  fmt2 := a_fmt2;
  to_string := r_to_string;
  set_iter := nodup string_dec;
  sort_values_desc := r_sort_values_desc;
  str_timestamp := r_str_timestamp;
  str_date := r_str_date;
  month_of_name := r_month_of_name;
  to_datetime := r_to_datetime;
  str_accessor_error := "Can only use .str accessor with string values!";
  isna_zero := eq_refl;
  sum_nil := eq_refl;
  fmt2_zero := eq_refl;
  lt_irrefl := a_lt_irrefl;
  lt_trans := a_lt_trans;
  lt_cotrans := a_lt_cotrans;
  set_iter_perm := fun l => Permutation_refl _;
  month_of_august_2025 := eq_refl
|}.

Definition day (y m d : Z) : option Timestamp := Some (mkTimestamp y m d 0).

Definition expense (d : option Timestamp) (c : string) (a : Z) (n : string)
  : Row amount :=
  mkRow d (Some c) (rupees a) (Some n).

(** A frame with the four columns, as [load_data] builds it. *)
Definition frame (rs : list (Row amount)) : DataFrame amount :=
  mkFrame true true true true [] rs.

Definition quoted (s : string) : string := String "034" s ++ String "034" "".

(** [json.dumps] of a context without rows. *)
Definition r_json_text (context : QueryHandler.Context) : result string :=
  Ok ("{" ++ quoted "total_spent" ++ ": "
      ++ match QueryHandler.total_spent context with
         | Some 0%Z => "0.0"
         | x => a_fmt2 x
         end
      ++ ", " ++ quoted "top_categories" ++ ": {}, " ++ quoted "rows_preview" ++ ": []}").

Definition r_json_error (context : QueryHandler.Context) : string :=
  match QueryHandler.rows_preview context with
  | r :: _ =>
      match Date r with
      | Some _ => "Object of type Timestamp is not JSON serializable"
      | None => "Object of type NaTType is not JSON serializable"
      end
  | [] => ""
  end.

(** A world in which the data files hold [rs] and no API key is configured. *)
Definition offline (rs : list (Row amount)) : QueryHandler.World :=
  QueryHandler.mkWorld (Ok (Some (frame rs))) None (Ok None)
                       (fun _ => QueryHandler.ClientImportError)
                       r_json_text r_json_error
                       (fun _ _ => QueryHandler.ImportError).

End Ref.


(** ** Chronological order, in the words of the specification *)

Section Chronology.

Context {float : Type}.

(** [r1] is not later than [r2]; a row without a date is not later than
    any row. *)
Definition row_date_leb (r1 r2 : Row float) : bool :=
  match Date r1, Date r2 with
  | None, _ => true
  | Some _, None => false
  | Some t1, Some t2 => ts_leb t1 t2
  end.

(** The rows in ascending order of date. *)
Definition by_date (rs : list (Row float)) : list (Row float) :=
  sort_keys row_date_leb rs.

(** "the n chronologically-latest rows" *)
Definition chronologically_latest (n : nat) (rs : list (Row float)) : list (Row float) :=
  lastn n (by_date rs).

(** The rows are already in ascending order of date. *)
Definition date_ordered (rs : list (Row float)) : Prop :=
  Sorted (fun r1 r2 => row_date_leb r1 r2 = true) rs.

(** The order of [combined_data.sort_values('Date')] in
    [utils.helpers.load_data]: ascending, NaT last. *)
Definition load_order_leb (r1 r2 : Row float) : bool :=
  match Date r1, Date r2 with
  | Some t1, Some t2 => ts_leb t1 t2
  | Some _, None => true
  | None, Some _ => false
  | None, None => true
  end.

Definition load_ordered (rs : list (Row float)) : Prop :=
  Sorted (fun r1 r2 => load_order_leb r1 r2 = true) rs.

End Chronology.

(** ** Characters and bytes *)

Section Characters.

Import PyStr.

Fixpoint all_cont (t : string) : bool :=
  match t with
  | EmptyString => true
  | String c t' => is_cont c && all_cont t'
  end.

(** [r] does not begin with a continuation byte. *)
Definition nocont (r : string) : bool :=
  match r with
  | EmptyString => true
  | String c _ => negb (is_cont c)
  end.

Lemma span_cont_app (t r : string) : forall k,
  all_cont t = true ->
  String.length t <= k ->
  String.length t = k \/ nocont r = true ->
  span_cont k (t ++ r) = (t, r).
Proof.
  induction t as [| c t IH]; intros k Ht Hk Hr; simpl in *.
  - destruct k as [| k]; [reflexivity |].
    destruct Hr as [Hr | Hr]; [discriminate |].
    destruct r as [| c r]; [reflexivity |]. simpl in *.
    destruct (is_cont c); [discriminate | reflexivity].
  - apply andb_prop in Ht. destruct Ht as [Hc Ht].
    destruct k as [| k]; [lia |]. simpl. rewrite Hc.
    rewrite (IH k Ht); [reflexivity | lia |].
    destruct Hr as [Hr | Hr]; [left; lia | right; assumption].
Qed.

Lemma span_cont_inv : forall k s t r,
  span_cont k s = (t, r) ->
  s = t ++ r /\ all_cont t = true /\ String.length t <= k
  /\ (String.length t = k \/ nocont r = true).
Proof.
  induction k as [| k IH]; intros s t r H; simpl in H.
  - destruct s; injection H as <- <-; simpl; auto with arith.
  - destruct s as [| c s]; [injection H as <- <-; simpl; auto with arith |].
    destruct (is_cont c) eqn:Hc.
    + destruct (span_cont k s) as [t' r'] eqn:E. injection H as <- <-.
      destruct (IH _ _ _ E) as (-> & Ht & Hl & Hr). simpl. rewrite Hc, Ht.
      repeat split; [lia |]. destruct Hr; [left; lia | right; assumption].
    + injection H as <- <-. simpl. rewrite Hc. repeat split; auto with arith.
Qed.

Lemma length_append (a b : string) :
  String.length (a ++ b) = String.length a + String.length b.
Proof. induction a as [| c a IH]; simpl; [reflexivity | rewrite IH; reflexivity]. Qed.

Lemma chars_fuel_enough : forall n m s,
  String.length s <= n -> String.length s <= m -> chars_fuel n s = chars_fuel m s.
Proof.
  induction n as [| n IH]; intros m s Hn Hm.
  - destruct s; [| simpl in Hn; lia]. destruct m; reflexivity.
  - destruct s as [| c s]; [destruct m; reflexivity |].
    destruct m as [| m]; [simpl in Hm; lia |]. simpl in *.
    destruct (span_cont (trail c) s) as [t r] eqn:E.
    destruct (span_cont_inv _ _ _ _ E) as (-> & _). rewrite length_append in *.
    f_equal. apply IH; lia.
Qed.

Lemma chars_step (c : ascii) (t r : string) :
  all_cont t = true ->
  String.length t <= trail c ->
  String.length t = trail c \/ nocont r = true ->
  chars (String c (t ++ r)) = String c t :: chars r.
Proof.
  intros Ht Hl Hr. unfold chars. simpl.
  rewrite (span_cont_app t r _ Ht Hl Hr). f_equal.
  apply chars_fuel_enough; rewrite ?length_append; lia.
Qed.

(** An ASCII character is a character of its own. *)
Lemma chars_cons (c : ascii) (s : string) :
  trail c = 0 -> chars (String c s) = String c "" :: chars s.
Proof.
  intros H. apply (chars_step c "" s); [reflexivity | simpl; lia | left; simpl; lia].
Qed.

(** [ch], followed by [next], is one character of the text. *)
Definition closed (ch next : string) : Prop :=
  exists c t, ch = String c t /\ all_cont t = true /\ String.length t <= trail c
              /\ (String.length t = trail c \/ nocont next = true).

Inductive good : list string -> Prop :=
| good_nil : good []
| good_cons ch l : closed ch (join l) -> good l -> good (ch :: l).

Lemma append_assoc (a b c : string) : (a ++ b) ++ c = a ++ (b ++ c).
Proof. induction a as [| x a IH]; simpl; [reflexivity | rewrite IH; reflexivity]. Qed.

Lemma join_app (l1 l2 : list string) : join (l1 ++ l2) = join l1 ++ join l2.
Proof.
  induction l1 as [| a l1 IH]; simpl; [reflexivity |].
  rewrite IH. symmetry. apply append_assoc.
Qed.

Lemma chars_join (l : list string) : good l -> chars (join l) = l.
Proof.
  induction 1 as [| ch l (c & t & -> & Ht & Hl & Hr) Hg IH]; [reflexivity |].
  simpl. rewrite (chars_step c t (join l) Ht Hl Hr), IH. reflexivity.
Qed.

Lemma nocont_chars_fuel (r : string) (n : nat) :
  nocont r = true -> nocont (join (chars_fuel n r)) = true.
Proof.
  destruct n as [| n], r as [| c r]; try reflexivity. simpl.
  destruct (span_cont (trail c) r). simpl. trivial.
Qed.

Lemma good_chars_fuel : forall n s, good (chars_fuel n s).
Proof.
  induction n as [| n IH]; intros s; [constructor |].
  destruct s as [| c s]; [constructor |]. simpl.
  destruct (span_cont (trail c) s) as [t r] eqn:E.
  destruct (span_cont_inv _ _ _ _ E) as (_ & Ht & Hl & Hr).
  constructor; [| apply IH]. exists c, t. repeat split; try assumption.
  destruct Hr as [Hr | Hr]; [left; assumption | right].
  apply nocont_chars_fuel, Hr.
Qed.

Lemma good_chars (s : string) : good (chars s).
Proof. apply good_chars_fuel. Qed.

Lemma join_chars_fuel : forall n s, String.length s <= n -> join (chars_fuel n s) = s.
Proof.
  induction n as [| n IH]; intros s H.
  - destruct s; [reflexivity | simpl in H; lia].
  - destruct s as [| c s]; [reflexivity |]. simpl in *.
    destruct (span_cont (trail c) s) as [t r] eqn:E.
    destruct (span_cont_inv _ _ _ _ E) as (-> & _). rewrite length_append in H.
    simpl. rewrite IH by lia. reflexivity.
Qed.

Lemma join_chars (s : string) : join (chars s) = s.
Proof. apply join_chars_fuel. lia. Qed.

Lemma nocont_join_app (ch : string) (l l2 : list string) (next : string) :
  closed ch next -> nocont (join ((ch :: l) ++ l2)) = nocont (join (ch :: l)).
Proof. intros (c & t & -> & _). reflexivity. Qed.

Lemma good_app_l (l1 l2 : list string) : good (l1 ++ l2) -> good l1.
Proof.
  induction l1 as [| ch l1 IH]; intros H; [constructor |].
  inversion H as [| ? ? Hc Hg]; subst. constructor; [| apply IH, Hg].
  destruct Hc as (c & t & -> & Ht & Hl & Hr). exists c, t. repeat split; try assumption.
  destruct Hr as [Hr | Hr]; [left; assumption | right].
  destruct l1 as [| ch' l1]; [reflexivity |].
  inversion Hg as [| ? ? Hc' _]; subst.
  rewrite <- (nocont_join_app ch' l1 l2 _ Hc'). assumption.
Qed.

Lemma good_app_r (l1 l2 : list string) : good (l1 ++ l2) -> good l2.
Proof.
  induction l1 as [| ch l1 IH]; intros H; [assumption |].
  inversion H; subst. auto.
Qed.

Lemma good_app (l1 l2 : list string) :
  good l1 -> good l2 -> nocont (join l2) = true -> good (l1 ++ l2).
Proof.
  intros H1 H2 Hn. induction H1 as [| ch l1 Hc Hg IH]; [assumption |].
  simpl. constructor; [| assumption].
  destruct Hc as (c & t & -> & Ht & Hl & Hr). exists c, t. repeat split; try assumption.
  destruct Hr as [Hr | Hr]; [left; assumption | right].
  destruct l1 as [| ch' l1]; [assumption |].
  inversion Hg as [| ? ? Hc' _]; subst.
  rewrite (nocont_join_app ch' l1 l2 _ Hc'). assumption.
Qed.

(** A byte that is not a continuation byte starts a character. *)
Lemma chars_app (a b : string) :
  nocont b = true -> chars (a ++ b) = (chars a ++ chars b)%list.
Proof.
  intros H.
  rewrite <- (join_chars a) at 1. rewrite <- (join_chars b) at 1.
  rewrite <- join_app. apply chars_join.
  apply good_app; try apply good_chars. rewrite join_chars. assumption.
Qed.

(** *** Stripping *)

Lemma drop_spaces_suffix (l : list string) : exists pre, l = (pre ++ drop_spaces l)%list.
Proof.
  induction l as [| ch l (pre & IH)]; [exists []; reflexivity |]. simpl.
  destruct (is_space ch); [| exists []; reflexivity].
  exists (ch :: pre). simpl. rewrite <- IH. reflexivity.
Qed.

(** The list is empty or begins with a character that is not whitespace. *)
Definition trimmed (l : list string) : Prop :=
  match l with
  | [] => True
  | ch :: _ => is_space ch = false
  end.

Lemma drop_spaces_trimmed (l : list string) : trimmed (drop_spaces l).
Proof.
  induction l as [| ch l IH]; simpl; [exact I |].
  destruct (is_space ch) eqn:E; [assumption | exact E].
Qed.

Lemma drop_spaces_fixed (l : list string) : trimmed l -> drop_spaces l = l.
Proof. destruct l as [| ch l]; simpl; [reflexivity | intros ->; reflexivity]. Qed.

Definition rdrop (l : list string) : list string := rev (drop_spaces (rev l)).

Lemma rdrop_prefix (l : list string) : exists suf, l = (rdrop l ++ suf)%list.
Proof.
  destruct (drop_spaces_suffix (rev l)) as (pre & H). exists (rev pre).
  unfold rdrop. rewrite <- rev_app_distr, <- H, rev_involutive. reflexivity.
Qed.

Lemma rdrop_trimmed (l : list string) : trimmed l -> trimmed (rdrop l).
Proof.
  intros H. destruct (rdrop_prefix l) as (suf & E).
  destruct (rdrop l) as [| ch r]; [exact I |].
  rewrite E in H. exact H.
Qed.

Lemma rdrop_idempotent (l : list string) : rdrop (rdrop l) = rdrop l.
Proof.
  unfold rdrop. rewrite rev_involutive.
  rewrite (drop_spaces_fixed _ (drop_spaces_trimmed _)). reflexivity.
Qed.

Lemma strip_chars_idempotent (l : list string) :
  strip_chars (strip_chars l) = strip_chars l.
Proof.
  unfold strip_chars. fold (rdrop (drop_spaces l)).
  rewrite (drop_spaces_fixed (rdrop (drop_spaces l)))
    by apply rdrop_trimmed, drop_spaces_trimmed.
  apply rdrop_idempotent.
Qed.

Lemma good_strip_chars (l : list string) : good l -> good (strip_chars l).
Proof.
  intros H. destruct (drop_spaces_suffix l) as (pre & E).
  rewrite E in H. apply good_app_r in H.
  unfold strip_chars. fold (rdrop (drop_spaces l)).
  destruct (rdrop_prefix (drop_spaces l)) as (suf & E').
  rewrite E' in H. apply good_app_l in H. exact H.
Qed.

Lemma strip_idempotent (s : string) : strip (strip s) = strip s.
Proof.
  unfold strip.
  rewrite (chars_join _ (good_strip_chars _ (good_chars s))).
  rewrite strip_chars_idempotent. reflexivity.
Qed.

(** Every character of the text is whitespace. *)
Definition all_space (s : string) : bool := forallb is_space (chars s).

Lemma drop_spaces_all (l : list string) : forallb is_space l = true -> drop_spaces l = [].
Proof.
  induction l as [| ch l IH]; simpl; [reflexivity |].
  intros H. apply andb_prop in H. destruct H as [-> H]. auto.
Qed.

Lemma drop_spaces_nil (l : list string) : drop_spaces l = [] -> forallb is_space l = true.
Proof.
  induction l as [| ch l IH]; simpl; [reflexivity |].
  destruct (is_space ch); [auto | discriminate].
Qed.

Lemma forallb_rev_true {A} (f : A -> bool) (l : list A) :
  forallb f (rev l) = true -> forallb f l = true.
Proof.
  rewrite !forallb_forall. intros H x Hx. apply H. apply in_rev in Hx. exact Hx.
Qed.

Lemma join_nil (l : list string) : good l -> join l = "" -> l = [].
Proof.
  intros H. destruct H as [| ch l (c & t & -> & _) _]; [reflexivity | discriminate].
Qed.

Lemma strip_empty (s : string) : strip s = "" <-> all_space s = true.
Proof.
  unfold strip, all_space. split.
  - intros H. apply join_nil in H; [| apply good_strip_chars, good_chars].
    unfold strip_chars in H.
    assert (H' : drop_spaces (rev (drop_spaces (chars s))) = []).
    { destruct (drop_spaces (rev (drop_spaces (chars s)))) as [| a l]; [reflexivity |].
      simpl in H. destruct (rev l); discriminate. }
    apply drop_spaces_nil, forallb_rev_true in H'.
    pose proof (drop_spaces_trimmed (chars s)) as T.
    destruct (drop_spaces (chars s)) as [| ch l] eqn:E.
    + apply drop_spaces_nil, E.
    + simpl in T, H'. rewrite T in H'. discriminate.
  - intros H. unfold strip_chars. rewrite (drop_spaces_all _ H). reflexivity.
Qed.

End Characters.


(** ** Properties of the handler *)

Section Properties.

Context {U : Unicode} {P : Pandas}.

Import QueryHandler.

Local Abbreviation Frame := (DataFrame float).

(** The string a computation returns, when it returns one. *)
Definition returned {A} (m : M A) : result A := fst m.

(** What [except Exception as e] of [_rule_based_answer] makes of an outcome. *)
Definition caught (r : result string) : string :=
  match r with
  | Ok s => s
  | Raise msg => "Error processing query: " ++ msg
  end.

Lemma rule_based_run (w : World) (query : string) :
  _rule_based_answer w query
  = (Ok (caught match load_data_outcome w with
                | Ok df => answer_from df query
                | Raise msg => Raise msg
                end),
     [CallRuleBased; CallLoadData]).
Proof.
  unfold _rule_based_answer, _rule_based_body, load_data, try_except, bind, emit, lift, ret.
  destruct (load_data_outcome w) as [df | msg]; simpl.
  - destruct (answer_from df query); reflexivity.
  - reflexivity.
Qed.

Lemma rule_based_loaded (w : World) (df : option Frame) (query : string) :
  load_data_outcome w = Ok df ->
  returned (_rule_based_answer w query) = Ok (caught (answer_from df query)).
Proof. intros H. rewrite rule_based_run, H. reflexivity. Qed.

(** A frame on which the rules are tried: it has rows and an [Amount] column. *)
Definition usable (df : Frame) : Prop := empty df = false /\ has_Amount df = true.

Lemma answer_from_usable (df : Frame) (query : string) :
  usable df ->
  answer_from (Some df) query
  = match first_match rules (df, PyStr.lower query) with
    | Some r => r
    | None => Ok not_understood
    end.
Proof. intros [He Ha]. unfold answer_from. rewrite He, Ha. reflexivity. Qed.

(** *** Dispatch: which rule answers *)

Lemma first_match_skip (r : Rule) (rest : list Rule) a :
  r a = None -> first_match (r :: rest) a = first_match rest a.
Proof. intros H. simpl. rewrite H. reflexivity. Qed.

Lemma first_match_fire (r : Rule) (rest : list Rule) a b :
  r a = Some b -> first_match (r :: rest) a = Some b.
Proof. intros H. simpl. rewrite H. reflexivity. Qed.

Lemma rule_total_skip df low : asks_total low = false -> rule_total (df, low) = None.
Proof. intros H. unfold rule_total. rewrite H. reflexivity. Qed.

Lemma rule_last_n_skip df low :
  Re.search Re.last_n_expenses low = None -> rule_last_n (df, low) = None.
Proof. intros H. unfold rule_last_n. rewrite H. reflexivity. Qed.

Lemma rule_show_last_5_skip df low :
  PyStr.contains "show last 5 expenses" low = false -> rule_show_last_5 (df, low) = None.
Proof. intros H. unfold rule_show_last_5. rewrite H. reflexivity. Qed.

Lemma rule_largest_skip df low :
  PyStr.contains "largest expense" low = false -> rule_largest (df, low) = None.
Proof. intros H. unfold rule_largest. rewrite H. reflexivity. Qed.

Lemma rule_smallest_skip df low :
  PyStr.contains "smallest expense" low = false -> rule_smallest (df, low) = None.
Proof. intros H. unfold rule_smallest. rewrite H. reflexivity. Qed.

Lemma rule_average_daily_skip df low :
  PyStr.contains "average daily spend" low = false -> rule_average_daily (df, low) = None.
Proof. intros H. unfold rule_average_daily. rewrite H. reflexivity. Qed.

Lemma rule_compare_skip df low :
  Re.search Re.compare_vs low = None -> rule_compare (df, low) = None.
Proof. intros H. unfold rule_compare. rewrite H. reflexivity. Qed.

Lemma month_rule_skip pattern label df low :
  Re.search pattern low = None -> month_rule pattern label (df, low) = None.
Proof.
  intros H. unfold month_rule. rewrite H. destruct (has_Date df); reflexivity.
Qed.

Lemma rule_between_skip df low :
  Re.search Re.expenses_between low = None -> rule_between (df, low) = None.
Proof.
  intros H. unfold rule_between. rewrite H. destruct (has_Date df); reflexivity.
Qed.

Lemma rule_summarize_skip df low :
  PyStr.contains "summarize last" low && PyStr.contains "expenses" low = false ->
  rule_summarize (df, low) = None.
Proof. intros H. unfold rule_summarize. rewrite H. reflexivity. Qed.

Lemma rule_top_category_skip df low :
  asks_top_category low = false -> rule_top_category (df, low) = None.
Proof. intros H. unfold rule_top_category. rewrite H. reflexivity. Qed.

(** The category rule is silent when no label of the frame, lower-cased
    and not empty, occurs in the query. *)
Definition no_category_in (df : Frame) (low : string) : Prop :=
  forall c, In (Some c) (map Category (rows df)) ->
            PyStr.lower c <> "" -> PyStr.contains (PyStr.lower c) low = false.

Lemma In_dropna {A} (a : A) (l : list (option A)) : In a (dropna l) <-> In (Some a) l.
Proof.
  induction l as [| [b|] l IH]; simpl.
  - tauto.
  - rewrite IH. split; intros [H|H]; auto; left; congruence.
  - rewrite IH. split; [auto | intros [H|H]; [discriminate | auto]].
Qed.

Lemma In_unique (a : string) (l : list string) : In a (unique l) <-> In a l.
Proof.
  induction l as [| b l IH]; simpl; [tauto |].
  rewrite filter_In, IH. split.
  - intros [H | [H _]]; auto.
  - intros [H | H]; auto.
    destruct (String.eqb b a) eqn:E.
    + left. now apply String.eqb_eq.
    + right. split; [assumption | reflexivity].
Qed.

Lemma In_known_cats (df : Frame) (cat : string) :
  In cat (known_cats df)
  <-> exists c, In (Some c) (map Category (rows df)) /\ cat = PyStr.lower c.
Proof.
  unfold known_cats. split.
  - intros H. apply (Permutation_in _ (set_iter_perm _)) in H.
    apply nodup_In, in_map_iff in H. destruct H as (c & Hc & H).
    apply In_unique, In_dropna in H. eauto.
  - intros (c & H & ->).
    apply (Permutation_in _ (Permutation_sym (set_iter_perm _))).
    apply nodup_In, in_map. now apply In_unique, In_dropna.
Qed.

Lemma rule_category_skip df low :
  no_category_in df low -> rule_category (df, low) = None.
Proof.
  intros H. unfold rule_category. destruct (has_Category df); [| reflexivity].
  destruct (find _ (known_cats df)) as [cat|] eqn:F; [| reflexivity].
  apply find_some in F. destruct F as [Hin Hsub].
  apply In_known_cats in Hin. destruct Hin as (c & Hc & ->).
  destruct (PyStr.lower c) as [| a s] eqn:E; [reflexivity |].
  rewrite <- E in Hsub. rewrite (H c Hc) in Hsub; [discriminate |].
  rewrite E. discriminate.
Qed.

Ltac skip L := rewrite first_match_skip by (apply L; first [reflexivity | assumption]).

(** *** Empty data *)

(** [df is None or df.empty] *)
Definition no_rows (df : option Frame) : bool :=
  match df with
  | None => true
  | Some d => empty d
  end.

(** C2. Whatever the query, when [load_data] gives no frame or an empty
    one, the rule-based responder returns the fixed sentence
    "No expense data available yet. Add some expenses first."; it does not
    fail. *)
Theorem empty_dataset_message (w : World) (df : option Frame) (query : string) :
  load_data_outcome w = Ok df ->
  no_rows df = true ->
  returned (_rule_based_answer w query)
  = Ok "No expense data available yet. Add some expenses first.".
Proof.
  intros Hload Hempty. rewrite (rule_based_loaded _ _ _ Hload).
  destruct df as [d |]; simpl in *.
  - rewrite Hempty. reflexivity.
  - reflexivity.
Qed.

(** *** Total spend *)

Lemma total_rule_answers (df : Frame) (query : string) :
  usable df ->
  asks_total (PyStr.lower query) = true ->
  answer_from (Some df) query
  = Ok ("You've spent a total of ₹" ++ fmt2 (amount_total (rows df)) ++ ".").
Proof.
  intros Hu T. rewrite (answer_from_usable _ _ Hu). unfold rules.
  erewrite first_match_fire; [reflexivity |].
  unfold rule_total. rewrite T. reflexivity.
Qed.

(** C3, amended. For every dataset that has rows and an [Amount] column,
    "total spent" is answered with the sum of the [Amount] values, a
    missing amount counting as 0, printed with two decimals. *)
Theorem total_spent_is_sum (w : World) (df : Frame) :
  load_data_outcome w = Ok (Some df) ->
  empty df = false ->
  has_Amount df = true ->
  returned (_rule_based_answer w "total spent")
  = Ok ("You've spent a total of ₹"
        ++ fmt2 (sum (map (fun x => if isna x then zero else x) (map Amount (rows df))))
        ++ ".").
Proof.
  intros Hload He Ha. rewrite (rule_based_loaded _ _ _ Hload).
  rewrite total_rule_answers; [reflexivity | split; assumption | reflexivity].
Qed.

(** *** Last N expenses *)

Lemma last_n_rule_fires (df : Frame) (query : string) (m : list string) :
  usable df ->
  asks_total (PyStr.lower query) = false ->
  Re.search Re.last_n_expenses (PyStr.lower query) = Some m ->
  answer_from (Some df) query
  = match PyStr.int (Re.group 1 m) with
    | Ok n => Ok (to_string (preview_cols (tail (clamp n) df)))
    | Raise e => Raise e
    end.
Proof.
  intros Hu T S. rewrite (answer_from_usable _ _ Hu). unfold rules.
  skip rule_total_skip.
  erewrite first_match_fire; [reflexivity |].
  unfold rule_last_n. rewrite S. reflexivity.
Qed.

Lemma last_n_rule_answers (df : Frame) (query : string) (m : list string) (n : N) :
  usable df ->
  asks_total (PyStr.lower query) = false ->
  Re.search Re.last_n_expenses (PyStr.lower query) = Some m ->
  PyStr.int (Re.group 1 m) = Ok n ->
  answer_from (Some df) query = Ok (to_string (preview_cols (tail (clamp n) df))).
Proof.
  intros Hu T S I. rewrite (last_n_rule_fires df query m Hu T S), I. reflexivity.
Qed.

Lemma lastn_suffix {A} (n : nat) (l : list A) :
  l = (firstn (length l - n) l ++ lastn n l)%list.
Proof. unfold lastn. symmetry. apply firstn_skipn. Qed.

Lemma lastn_length {A} (n : nat) (l : list A) :
  length (lastn n l) = Nat.min n (length l).
Proof. unfold lastn. rewrite length_skipn. lia. Qed.

Lemma sort_keys_ordered {K} (leb : K -> K -> bool) (l : list K) :
  Sorted (fun a b => leb a b = true) l -> sort_keys leb l = l.
Proof.
  induction 1 as [| k l HS IH Hd]; simpl; [reflexivity |].
  rewrite IH. destruct Hd as [| k' l' Hk]; simpl; [reflexivity |].
  rewrite Hk. reflexivity.
Qed.

Lemma load_ordered_dated (rs : list (Row float)) :
  load_ordered rs ->
  (forall r, In r rs -> Date r <> None) ->
  date_ordered rs.
Proof.
  induction 1 as [| a l HS IH Hd]; intros Hdated; constructor.
  - apply IH. intros r Hr. apply Hdated. right. assumption.
  - destruct Hd as [| b l Hab]; constructor.
    unfold load_order_leb in Hab. unfold row_date_leb.
    pose proof (Hdated a (or_introl eq_refl)) as Ha.
    pose proof (Hdated b (or_intror (or_introl eq_refl))) as Hb.
    destruct (Date a), (Date b); congruence.
Qed.


(** *** Largest and smallest expense *)

Section ArgScan.

Variable better : float -> float -> bool.
Hypothesis better_irrefl : forall x, better x x = false.
Hypothesis better_trans :
  forall x y z, better x y = true -> better y z = true -> better x z = true.
Hypothesis better_cotrans :
  forall x y z, isna y = false -> better x z = true ->
                better x y = true \/ better y z = true.

Lemma arg_scan_spec (l : list float) : forall pre bi b,
  Forall (fun x => isna x = false) (pre ++ l) ->
  nth_error pre bi = Some b ->
  (forall u, In u pre -> better u b = false) ->
  (forall j u, j < bi -> nth_error pre j = Some u -> better b u = true) ->
  exists v,
    nth_error (pre ++ l) (arg_scan better bi b (length pre) l) = Some v
    /\ (forall u, In u (pre ++ l) -> better u v = false)
    /\ (forall j u, j < arg_scan better bi b (length pre) l ->
                    nth_error (pre ++ l) j = Some u -> better v u = true).
Proof.
  induction l as [| x l IH]; intros pre bi b Hna Hb Hmax Hfirst.
  - simpl. rewrite app_nil_r. exists b. auto.
  - assert (Hbi : bi < length pre) by (apply nth_error_Some; congruence).
    replace (pre ++ x :: l)%list with ((pre ++ [x]) ++ l)%list in *
      by (rewrite <- app_assoc; reflexivity).
    simpl arg_scan.
    replace (S (length pre)) with (length (pre ++ [x]))
      by (rewrite length_app; simpl; lia).
    destruct (better x b) eqn:Hx.
    + apply IH; try assumption.
      * rewrite nth_error_app2, Nat.sub_diag by lia. reflexivity.
      * intros u Hu. apply in_app_or in Hu. destruct Hu as [Hu | [<- | []]].
        -- destruct (better u x) eqn:Hux; [| reflexivity].
           rewrite <- (Hmax u Hu). symmetry. eapply better_trans; eassumption.
        -- apply better_irrefl.
      * intros j u Hj Hu. rewrite nth_error_app1 in Hu by assumption.
        assert (Hin : In u pre) by (eapply nth_error_In; eassumption).
        assert (Hnu : isna u = false).
        { rewrite Forall_forall in Hna. apply Hna.
          apply in_or_app. left. apply in_or_app. left. assumption. }
        destruct (better_cotrans x u b Hnu Hx) as [H | H]; [assumption |].
        rewrite (Hmax u Hin) in H. discriminate.
    + apply IH; try assumption.
      * rewrite nth_error_app1 by assumption. assumption.
      * intros u Hu. apply in_app_or in Hu. destruct Hu as [Hu | [<- | []]]; auto.
      * intros j u Hj Hu. rewrite nth_error_app1 in Hu by lia. eauto.
Qed.

Lemma arg_first_spec (l : list float) :
  l <> [] ->
  Forall (fun x => isna x = false) l ->
  exists v,
    nth_error l (arg_first better l) = Some v
    /\ (forall u, In u l -> better u v = false)
    /\ (forall j u, j < arg_first better l -> nth_error l j = Some u ->
                    better v u = true).
Proof.
  destruct l as [| x l]; [congruence |]. intros _ Hna.
  apply (arg_scan_spec l [x] 0 x); simpl; auto.
  - intros u [<- | []]. apply better_irrefl.
  - intros j u Hj. lia.
Qed.

End ArgScan.

Lemma fillna0_notna (l : list float) : Forall (fun x => isna x = false) (map fillna0 l).
Proof.
  apply Forall_forall. intros y Hy. apply in_map_iff in Hy.
  destruct Hy as (x & <- & _). unfold fillna0.
  destruct (isna x) eqn:E; [apply isna_zero | assumption].
Qed.

Lemma usable_rows (df : Frame) : usable df -> rows df <> [].
Proof.
  intros [He _] Hr. unfold empty in He. rewrite Hr in He. discriminate.
Qed.

Definition filled (r : Row float) : float := fillna0 (Amount r).

Lemma largest_rule_answers (df : Frame) :
  usable df ->
  answer_from (Some df) "largest expense"
  = match iloc (idxmax (map fillna0 (map Amount (rows df)))) df with
    | Ok row => Ok (describe_row "Largest" df row)
    | Raise e => Raise e
    end.
Proof.
  intros Hu. rewrite (answer_from_usable _ _ Hu).
  change (PyStr.lower "largest expense") with "largest expense". unfold rules.
  skip rule_total_skip. skip rule_last_n_skip. skip rule_show_last_5_skip.
  erewrite first_match_fire; reflexivity.
Qed.

Lemma smallest_rule_answers (df : Frame) :
  usable df ->
  answer_from (Some df) "smallest expense"
  = match iloc (idxmin (map fillna0 (map Amount (rows df)))) df with
    | Ok row => Ok (describe_row "Smallest" df row)
    | Raise e => Raise e
    end.
Proof.
  intros Hu. rewrite (answer_from_usable _ _ Hu).
  change (PyStr.lower "smallest expense") with "smallest expense". unfold rules.
  skip rule_total_skip. skip rule_last_n_skip. skip rule_show_last_5_skip.
  skip rule_largest_skip.
  erewrite first_match_fire; reflexivity.
Qed.

(** The row picked by a scan of the filled amounts. *)
Lemma arg_first_row (better : float -> float -> bool) (df : Frame) :
  (forall x, better x x = false) ->
  (forall x y z, better x y = true -> better y z = true -> better x z = true) ->
  (forall x y z, isna y = false -> better x z = true ->
                 better x y = true \/ better y z = true) ->
  usable df ->
  exists row,
    iloc (arg_first better (map fillna0 (map Amount (rows df)))) df = Ok row
    /\ (forall r, In r (rows df) -> better (filled r) (filled row) = false)
    /\ (forall j r, j < arg_first better (map fillna0 (map Amount (rows df))) ->
                    nth_error (rows df) j = Some r ->
                    better (filled row) (filled r) = true).
Proof.
  intros Hi Ht Hc Hu.
  destruct (arg_first_spec better Hi Ht Hc (map fillna0 (map Amount (rows df))))
    as (v & Hv & Hmax & Hfirst).
  - intros E. apply (usable_rows df Hu).
    destruct (rows df); [reflexivity | discriminate].
  - apply fillna0_notna.
  - rewrite map_map in *. rewrite nth_error_map in Hv.
    unfold iloc.
    destruct (nth_error (rows df) _) as [row |] eqn:Hrow; [| discriminate].
    injection Hv as <-. exists row. repeat split.
    + intros r Hr. apply Hmax. apply (in_map (fun x => fillna0 (Amount x))), Hr.
    + intros j r Hj Hr. apply (Hfirst j); [assumption |].
      rewrite nth_error_map, Hr. reflexivity.
Qed.

(** A row that beats every earlier row comes no later than any row that
    nothing beats. *)
Lemma first_of_extremes (better : float -> float -> bool) (rs : list (Row float))
      (i : nat) (row : Row float) :
  nth_error rs i = Some row ->
  (forall j r, j < i -> nth_error rs j = Some r ->
               better (filled row) (filled r) = true) ->
  forall j r, nth_error rs j = Some r ->
              (forall r', In r' rs -> better (filled r') (filled r) = false) ->
              i <= j.
Proof.
  intros Hrow Hfirst j r Hr Hbest.
  destruct (Nat.le_gt_cases i j) as [Hle | Hgt]; [assumption |].
  pose proof (Hfirst j r Hgt Hr) as H1.
  rewrite (Hbest row (nth_error_In _ _ Hrow)) in H1. discriminate.
Qed.

(** The sentence of the two rules, written out. *)
Lemma describe_row_text (label : string) (df : Frame) (row : Row float) :
  describe_row label df row
  = label ++ " expense: ₹" ++ fmt2 (Amount row) ++ " on "
    ++ (if has_Date df
        then match Date row with Some t => str_timestamp t | None => "NaT" end
        else "")
    ++ " ("
    ++ (if has_Category df
        then match Category row with Some c => c | None => "nan" end
        else "")
    ++ ")."
    ++ match PyStr.strip (if has_Note df
                          then match Note row with Some n => n | None => "nan" end
                          else "") with
       | EmptyString => ""
       | note => " Note: " ++ note ++ "."
       end.
Proof.
  unfold describe_row, str_text, str_date_cell.
  destruct (PyStr.strip _); reflexivity.
Qed.

(** C5, amended. On every dataset with rows and an [Amount] column,
    "largest expense" reports, with its amount, date, category and note,
    the row at the first position holding the maximal amount, a missing
    amount counting as 0: no row has a greater amount, and every earlier
    row has a strictly smaller one; "smallest expense" does the same for
    the minimal amount.  So among rows that share the extreme amount, the
    first in the frame's order is reported. *)
Theorem extreme_expense_is_first_occurrence (w : World) (df : Frame) :
  load_data_outcome w = Ok (Some df) ->
  empty df = false ->
  has_Amount df = true ->
  (exists i row,
      nth_error (rows df) i = Some row
      /\ returned (_rule_based_answer w "largest expense")
         = Ok ("Largest expense: ₹" ++ fmt2 (Amount row) ++ " on "
               ++ (if has_Date df
                   then match Date row with Some t => str_timestamp t | None => "NaT" end
                   else "")
               ++ " ("
               ++ (if has_Category df
                   then match Category row with Some c => c | None => "nan" end
                   else "")
               ++ ")."
               ++ match PyStr.strip
                          (if has_Note df
                           then match Note row with Some n => n | None => "nan" end
                           else "") with
                  | EmptyString => ""
                  | note => " Note: " ++ note ++ "."
                  end)
      /\ (forall r, In r (rows df) -> lt (filled row) (filled r) = false)
      /\ (forall j r, j < i -> nth_error (rows df) j = Some r ->
                      lt (filled r) (filled row) = true)
      /\ (forall j r, nth_error (rows df) j = Some r ->
                      (forall r', In r' (rows df) -> lt (filled r) (filled r') = false) ->
                      i <= j))
  /\ (exists i row,
      nth_error (rows df) i = Some row
      /\ returned (_rule_based_answer w "smallest expense")
         = Ok ("Smallest expense: ₹" ++ fmt2 (Amount row) ++ " on "
               ++ (if has_Date df
                   then match Date row with Some t => str_timestamp t | None => "NaT" end
                   else "")
               ++ " ("
               ++ (if has_Category df
                   then match Category row with Some c => c | None => "nan" end
                   else "")
               ++ ")."
               ++ match PyStr.strip
                          (if has_Note df
                           then match Note row with Some n => n | None => "nan" end
                           else "") with
                  | EmptyString => ""
                  | note => " Note: " ++ note ++ "."
                  end)
      /\ (forall r, In r (rows df) -> lt (filled r) (filled row) = false)
      /\ (forall j r, j < i -> nth_error (rows df) j = Some r ->
                      lt (filled row) (filled r) = true)
      /\ (forall j r, nth_error (rows df) j = Some r ->
                      (forall r', In r' (rows df) -> lt (filled r') (filled r) = false) ->
                      i <= j)).
Proof.
  intros Hload He Ha. assert (Hu : usable df) by (split; assumption).
  rewrite !(rule_based_loaded _ _ _ Hload).
  rewrite (largest_rule_answers df Hu), (smallest_rule_answers df Hu).
  split.
  - destruct (arg_first_row (fun x best => lt best x) df) as (row & Hrow & Hmax & Hfirst);
      try assumption.
    + intros x. apply lt_irrefl.
    + intros x y z Hxy Hyz. eapply lt_trans; eassumption.
    + intros x y z Hy Hxz. destruct (lt_cotrans z y x Hy Hxz); auto.
    + exists (idxmax (map fillna0 (map Amount (rows df)))), row.
      unfold idxmax. rewrite Hrow. unfold iloc in Hrow.
      destruct (nth_error (rows df) _) eqn:E; [| discriminate].
      injection Hrow as ->. rewrite describe_row_text.
      split; [reflexivity |]. split; [reflexivity |].
      split; [assumption |]. split; [assumption |].
      intros j r Hr Hbest.
      exact (first_of_extremes (fun x best => lt best x) _ _ _ E Hfirst j r Hr Hbest).
  - destruct (arg_first_row (fun x best => lt x best) df) as (row & Hrow & Hmin & Hfirst);
      try assumption.
    + intros x. apply lt_irrefl.
    + intros x y z Hxy Hyz. eapply lt_trans; eassumption.
    + intros x y z Hy Hxz. apply lt_cotrans; assumption.
    + exists (idxmin (map fillna0 (map Amount (rows df)))), row.
      unfold idxmin. rewrite Hrow. unfold iloc in Hrow.
      destruct (nth_error (rows df) _) eqn:E; [| discriminate].
      injection Hrow as ->. rewrite describe_row_text.
      split; [reflexivity |]. split; [reflexivity |].
      split; [assumption |]. split; [assumption |].
      intros j r Hr Hbest.
      exact (first_of_extremes (fun x best => lt x best) _ _ _ E Hfirst j r Hr Hbest).
Qed.

(** *** A category named in the query *)

Definition category_total (df : Frame) (cat : string) : float :=
  amount_total (rows (select (category_is cat) df)).

(** C1. A frame whose labels are Food and Travel, both present, asked
    "compare food vs travel": the category rule, which comes first,
    answers with the total of one of the two labels (which one depends on
    the iteration order of the set), so the comparison is never reported. *)
Theorem compare_food_vs_travel_is_shadowed (w : World) (df : Frame) :
  load_data_outcome w = Ok (Some df) ->
  empty df = false ->
  has_Amount df = true ->
  has_Category df = true ->
  (forall c, In (Some c) (map Category (rows df)) -> c = "Food" \/ c = "Travel") ->
  In (Some "Food") (map Category (rows df)) ->
  In (Some "Travel") (map Category (rows df)) ->
  (returned (_rule_based_answer w "compare food vs travel")
   = Ok ("You spent ₹" ++ fmt2 (category_total df "food") ++ " on food.")
   \/ returned (_rule_based_answer w "compare food vs travel")
      = Ok ("You spent ₹" ++ fmt2 (category_total df "travel") ++ " on travel."))
  /\ returned (_rule_based_answer w "compare food vs travel")
     <> Ok "Food: ₹100.00 vs Travel: ₹150.00 → Higher: Travel.".
Proof.
  intros Hload He Ha Hc Hcats Hfood Htravel.
  assert (Hu : usable df) by (split; assumption).
  rewrite !(rule_based_loaded _ _ _ Hload), (answer_from_usable _ _ Hu).
  change (PyStr.lower "compare food vs travel") with "compare food vs travel".
  unfold rules.
  skip rule_total_skip. skip rule_last_n_skip. skip rule_show_last_5_skip.
  skip rule_largest_skip. skip rule_smallest_skip. skip rule_average_daily_skip.
  assert (F : rule_category (df, "compare food vs travel")
              = Some (Ok ("You spent ₹" ++ fmt2 (category_total df "food") ++ " on food."))
              \/ rule_category (df, "compare food vs travel")
                 = Some (Ok ("You spent ₹" ++ fmt2 (category_total df "travel")
                             ++ " on travel."))).
  { unfold rule_category. rewrite Hc.
    destruct (find _ (known_cats df)) as [cat |] eqn:F.
    - apply find_some in F. destruct F as [Hin _].
      apply In_known_cats in Hin. destruct Hin as (c & Hin & ->).
      destruct (Hcats c Hin) as [-> | ->]; [left | right]; reflexivity.
    - exfalso.
      assert (Hin : In "food" (known_cats df)).
      { apply In_known_cats. exists "Food". split; [assumption | reflexivity]. }
      apply (find_none _ _ F) in Hin. discriminate. }
  destruct F as [F | F]; rewrite (first_match_fire _ _ _ _ F); simpl caught;
    (split; [auto | discriminate]).
Qed.

(** *** Monthly total *)

Lemma dated_not_empty (df : Frame) :
  has_Amount df = true ->
  (exists r, In r (rows df) /\ Date r <> None) ->
  empty (dated df) = false.
Proof.
  intros Ha (r & Hr & Hd). unfold empty, no_columns, dated, select. simpl.
  rewrite Ha. simpl. rewrite andb_false_r. simpl. rewrite orb_false_r.
  destruct (filter _ (rows df)) eqn:E; [| reflexivity].
  exfalso. assert (Hin : In r (filter (fun r0 : Row float =>
                               match Date r0 with Some _ => true | None => false end)
                               (rows df))).
  { apply filter_In. split; [assumption |]. destruct (Date r); congruence. }
  rewrite E in Hin. destruct Hin.
Qed.

Lemma in_month_dated (y m : Z) (rs : list (Row float)) :
  filter (in_month y m)
         (filter (fun r => match Date r with Some _ => true | None => false end) rs)
  = filter (in_month y m) rs.
Proof.
  induction rs as [| r rs IH]; simpl; [reflexivity |].
  unfold in_month at 2. destruct (Date r) eqn:E; simpl.
  - unfold in_month at 1. rewrite E, IH. reflexivity.
  - assumption.
Qed.

Lemma filter_nothing {A} (f : A -> bool) (l : list A) :
  (forall a, In a l -> f a = false) -> filter f l = [].
Proof.
  induction l as [| a l IH]; intros H; simpl; [reflexivity |].
  rewrite (H a (or_introl eq_refl)). apply IH.
  intros b Hb. apply H. right. assumption.
Qed.

(** C6, amended. On a dataset with rows, an [Amount] and a [Date] column,
    at least one parsed date, and no category label occurring in the
    query, "monthly total for august 2025" is answered with the sum of the
    amounts (missing ones as 0) of exactly the rows dated in August 2025;
    when no row is, the total printed is 0.00. *)
Theorem monthly_total_august_2025 (w : World) (df : Frame) :
  load_data_outcome w = Ok (Some df) ->
  empty df = false ->
  has_Amount df = true ->
  has_Date df = true ->
  (exists r, In r (rows df) /\ Date r <> None) ->
  no_category_in df "monthly total for august 2025" ->
  returned (_rule_based_answer w "monthly total for august 2025")
  = Ok ("Total for August 2025: ₹"
        ++ fmt2 (sum (map fillna0 (map Amount (filter (in_month 2025 8) (rows df)))))
        ++ ".")
  /\ ((forall r, In r (rows df) -> in_month 2025 8 r = false) ->
      returned (_rule_based_answer w "monthly total for august 2025")
      = Ok "Total for August 2025: ₹0.00.").
Proof.
  intros Hload He Ha Hd Hdated Hcat.
  assert (Hu : usable df) by (split; assumption).
  assert (E : returned (_rule_based_answer w "monthly total for august 2025")
              = Ok ("Total for August 2025: ₹"
                    ++ fmt2 (sum (map fillna0
                                    (map Amount (filter (in_month 2025 8) (rows df)))))
                    ++ ".")).
  { rewrite (rule_based_loaded _ _ _ Hload), (answer_from_usable _ _ Hu).
    change (PyStr.lower "monthly total for august 2025")
      with "monthly total for august 2025".
    unfold rules.
    skip rule_total_skip. skip rule_last_n_skip. skip rule_show_last_5_skip.
    skip rule_largest_skip. skip rule_smallest_skip. skip rule_average_daily_skip.
    skip rule_category_skip. skip rule_compare_skip.
    erewrite first_match_fire; cycle 1.
    { unfold rule_monthly_total, month_rule. rewrite Hd.
      change (Re.search Re.monthly_total_for "monthly total for august 2025")
        with (Some ["august"; "2025"]).
      rewrite (dated_not_empty df Ha Hdated).
      change (PyStr.int (Re.group 2 ["august"; "2025"])) with (Ok 2025%N).
      change (Re.group 1 ["august"; "2025"]) with "august".
      cbv iota beta zeta. rewrite month_of_august_2025.
      unfold amount_total, dated, select. simpl rows.
      rewrite in_month_dated. reflexivity. }
    reflexivity. }
  split; [exact E |].
  intros Hnone. rewrite E.
  replace (filter (in_month 2025 8) (rows df)) with (@nil (Row float)).
  - simpl. rewrite sum_nil, fmt2_zero. reflexivity.
  - symmetry. apply filter_nothing. assumption.
Qed.

(** *** Summarize last N expenses *)

Lemma eat_lit_None (l : list string) : forall s cur' s',
  Re.eat_lit l None s = Some (cur', s') -> cur' = None /\ s = (l ++ s')%list.
Proof.
  induction l as [| a l IH]; intros s cur' s' H; simpl in H.
  - injection H as <- <-. split; reflexivity.
  - destruct s as [| b s]; [discriminate |].
    destruct (String.eqb a b) eqn:E; [| discriminate].
    apply String.eqb_eq in E. subst b. simpl in H.
    destruct (IH _ _ _ H) as [-> ->]. split; reflexivity.
Qed.

Lemma match_items_lit (l : string) rest cur caps s :
  Re.match_items (Re.Lit l :: rest) cur caps s
  = match Re.eat_lit (PyStr.chars l) cur s with
    | Some (cur', s') => Re.match_items rest cur' caps s'
    | None => None
    end.
Proof. reflexivity. Qed.

Lemma plus_None (k : Re.cls) (rest : list Re.item) (caps m : list string) : forall s,
  Re.match_items (Re.Plus k :: rest) None caps s = Some m ->
  exists pre s', s = (pre ++ s')%list /\ Re.match_items rest None caps s' = Some m.
Proof.
  induction s as [| c s IH]; intros H; simpl in H; [discriminate |].
  destruct (Re.in_cls k c); [| discriminate].
  match type of H with
  | match ?X with Some _ => _ | None => _ end = _ => destruct X as [r |] eqn:E
  end.
  - injection H as ->. destruct (IH E) as (pre & s' & -> & Hm).
    exists (c :: pre), s'. split; [reflexivity | assumption].
  - exists [c], s. split; [reflexivity | assumption].
Qed.

Lemma search_chars_sound (p : list Re.item) (m : list string) : forall s,
  Re.search_chars p s = Some m ->
  exists pre s', s = (pre ++ s')%list /\ Re.match_items p None [] s' = Some m.
Proof.
  induction s as [| c s IH]; intros H; simpl in H.
  - destruct (Re.match_items p None [] []) eqn:E; [| discriminate].
    injection H as ->. exists [], []. split; [reflexivity | assumption].
  - destruct (Re.match_items p None [] (c :: s)) eqn:E.
    + injection H as ->. exists [], (c :: s). split; [reflexivity | assumption].
    + destruct (IH H) as (pre & s' & -> & Hm).
      exists (c :: pre), s'. split; [reflexivity | assumption].
Qed.

(** The pattern matches somewhere in the characters [s]. *)
Definition found_in (p : list Re.item) (s : list string) : Prop :=
  exists m, Re.search_chars p s = Some m.

(** [re.search(p, s)] is not [None]. *)
Definition found (p : list Re.item) (s : string) : Prop :=
  exists m, Re.search p s = Some m.

Lemma found_here (p : list Re.item) (m : list string) (s : list string) :
  Re.match_items p None [] s = Some m -> found_in p s.
Proof. intros H. exists m. destruct s; simpl; rewrite H; reflexivity. Qed.

Lemma found_later (p : list Re.item) (s : list string) : forall pre,
  found_in p s -> found_in p (pre ++ s).
Proof.
  induction pre as [| c pre IH]; intros H; simpl; [assumption |].
  destruct (IH H) as (m & Hm). unfold found_in. simpl.
  destruct (Re.match_items p None [] (c :: pre ++ s)); eauto.
Qed.

(** Every query the summarize pattern matches is matched by the pattern
    of the last-N rule, which is tried before it. *)
Lemma summarize_implies_last_n (low : string) (m : list string) :
  Re.search Re.summarize_last_n low = Some m -> found Re.last_n_expenses low.
Proof.
  unfold found, Re.search. intros H.
  apply search_chars_sound in H. destruct H as (pre & s & -> & H).
  apply found_later.
  change Re.summarize_last_n
    with (Re.Lit "summarize" :: Re.Plus Re.Space :: Re.last_n_expenses) in H.
  rewrite match_items_lit in H.
  destruct (Re.eat_lit (PyStr.chars "summarize") None s) as [[cur' s1] |] eqn:E;
    [| discriminate].
  apply eat_lit_None in E. destruct E as [-> ->].
  apply plus_None in H. destruct H as (pre1 & s2 & -> & H).
  apply (found_later _ _ (PyStr.chars "summarize")), found_later.
  eapply found_here, H.
Qed.

(** "the total of the last N amounts plus the same tabular preview" *)
Definition summary_of (n : nat) (df : Frame) : string :=
  "Last " ++ PyStr.str_N (N.of_nat n) ++ " expenses (total ₹"
  ++ fmt2 (amount_total (rows (tail n df))) ++ "):"
  ++ String "010" (to_string (preview_cols (tail n df))).

Lemma summary_is_longer (n : nat) (df : Frame) :
  to_string (preview_cols (tail n df)) <> summary_of n df.
Proof.
  intros H. apply (f_equal String.length) in H. unfold summary_of in H.
  rewrite !length_append in H. simpl in H. rewrite ?length_append in H.
  simpl in H. lia.
Qed.

(** C7. The summary is not what a query with a count gets: whenever the
    pattern of the summarize rule matches, an earlier rule answers, with
    the total spend, with the bare table of the last-N rule, or with the
    error text for a count that [int] refuses.  For "summarize last 5
    expenses" the answer is that table, without the line giving the total. *)
Theorem summarize_with_count_is_shadowed (w : World) (df : Frame) :
  load_data_outcome w = Ok (Some df) ->
  empty df = false ->
  has_Amount df = true ->
  (forall query m,
      Re.search Re.summarize_last_n (PyStr.lower query) = Some m ->
      returned (_rule_based_answer w query)
      = Ok ("You've spent a total of ₹" ++ fmt2 (amount_total (rows df)) ++ ".")
      \/ exists m',
           Re.search Re.last_n_expenses (PyStr.lower query) = Some m'
           /\ ((exists n,
                   PyStr.int (Re.group 1 m') = Ok n
                   /\ returned (_rule_based_answer w query)
                      = Ok (to_string (preview_cols (tail (clamp n) df))))
               \/ (exists e,
                      PyStr.int (Re.group 1 m') = Raise e
                      /\ returned (_rule_based_answer w query)
                         = Ok ("Error processing query: " ++ e))))
  /\ returned (_rule_based_answer w "summarize last 5 expenses")
     = Ok (to_string (preview_cols (tail 5 df)))
  /\ returned (_rule_based_answer w "summarize last 5 expenses")
     <> Ok (summary_of 5 df).
Proof.
  intros Hload He Ha. assert (Hu : usable df) by (split; assumption).
  assert (E5 : returned (_rule_based_answer w "summarize last 5 expenses")
               = Ok (to_string (preview_cols (tail 5 df)))).
  { rewrite (rule_based_loaded _ _ _ Hload).
    rewrite (last_n_rule_answers df "summarize last 5 expenses" ["5"] 5
               Hu eq_refl eq_refl eq_refl).
    reflexivity. }
  split; [| split].
  - intros query m Hm. rewrite (rule_based_loaded _ _ _ Hload).
    destruct (asks_total (PyStr.lower query)) eqn:T.
    + left. rewrite (total_rule_answers df query Hu T). reflexivity.
    + right. destruct (summarize_implies_last_n _ _ Hm) as (m' & Hm').
      exists m'. split; [assumption |].
      rewrite (last_n_rule_fires df query m' Hu T Hm').
      destruct (PyStr.int (Re.group 1 m')) as [n | e]; [left | right]; eauto.
  - exact E5.
  - rewrite E5. intros H. injection H as H. exact (summary_is_longer 5 df H).
Qed.

(** Without a count the summarize rule does answer, with ten rows. *)
Lemma summarize_default_count (df : Frame) :
  usable df ->
  no_category_in df "summarize last expenses" ->
  answer_from (Some df) "summarize last expenses" = Ok (summary_of 10 df).
Proof.
  intros Hu Hcat. rewrite (answer_from_usable _ _ Hu).
  change (PyStr.lower "summarize last expenses") with "summarize last expenses".
  unfold rules.
  skip rule_total_skip. skip rule_last_n_skip. skip rule_show_last_5_skip.
  skip rule_largest_skip. skip rule_smallest_skip. skip rule_average_daily_skip.
  skip rule_category_skip. skip rule_compare_skip.
  rewrite first_match_skip by (apply month_rule_skip; reflexivity).
  rewrite first_match_skip by (apply month_rule_skip; reflexivity).
  skip rule_between_skip.
  erewrite first_match_fire; cycle 1.
  { unfold rule_summarize.
    change (PyStr.contains "summarize last" "summarize last expenses"
            && PyStr.contains "expenses" "summarize last expenses") with true.
    change (Re.search Re.summarize_last_n "summarize last expenses")
      with (@None (list string)).
    cbv iota beta zeta. destruct Hu as [_ Ha]. simpl has_Amount. rewrite Ha.
    reflexivity. }
  reflexivity.
Qed.

(** *** The outer [except] *)

(** The rules that can raise: [int] on a count of more than 4300 digits,
    and [.str] on a [Category] column that holds no text. *)
Lemma set_iter_nil : set_iter [] = [].
Proof. apply Permutation_nil, Permutation_sym, (set_iter_perm []). Qed.

Lemma no_labels (rs : list (Row float)) :
  (forall r, In r rs -> Category r = None) ->
  dropna (map Category rs) = [] /\ existsb has_text rs = false.
Proof.
  induction rs as [| r rs IH]; intros H; [split; reflexivity |].
  destruct (IH (fun r' Hr' => H r' (or_intror Hr'))) as [E1 E2].
  simpl. unfold has_text at 1. rewrite (H r (or_introl eq_refl)). auto.
Qed.

Lemma top_category_without_text (df : Frame) :
  usable df ->
  has_Category df = true ->
  (forall r, In r (rows df) -> Category r = None) ->
  answer_from (Some df) "top category" = Raise str_accessor_error.
Proof.
  intros Hu Hc Hnone. rewrite (answer_from_usable _ _ Hu).
  destruct (no_labels _ Hnone) as [Hd Ht].
  change (PyStr.lower "top category") with "top category". unfold rules.
  skip rule_total_skip. skip rule_last_n_skip. skip rule_show_last_5_skip.
  skip rule_largest_skip. skip rule_smallest_skip. skip rule_average_daily_skip.
  rewrite first_match_skip; cycle 1.
  { unfold rule_category, known_cats. rewrite Hc, Hd. simpl. rewrite set_iter_nil.
    reflexivity. }
  skip rule_compare_skip.
  rewrite first_match_skip by (apply month_rule_skip; reflexivity).
  rewrite first_match_skip by (apply month_rule_skip; reflexivity).
  skip rule_between_skip. skip rule_summarize_skip.
  erewrite first_match_fire; cycle 1.
  { unfold rule_top_category.
    change (asks_top_category "top category") with true.
    rewrite Hc, Ht. reflexivity. }
  reflexivity.
Qed.

(** C8. [_rule_based_answer] always returns a string and never raises:
    whatever raises inside its [try], the loader or a rule, comes back as
    the text "Error processing query: " followed by the message of the
    exception, and what the body returns is returned as it is.  So it is
    for a count that [int] refuses in the last-N rule. *)
Theorem exceptions_become_error_text (w : World) (query : string) :
  (exists s, _rule_based_answer w query = (Ok s, [CallRuleBased; CallLoadData]))
  /\ (forall msg,
        returned (_rule_based_body w query) = Raise msg ->
        returned (_rule_based_answer w query) = Ok ("Error processing query: " ++ msg))
  /\ (forall s,
        returned (_rule_based_body w query) = Ok s ->
        returned (_rule_based_answer w query) = Ok s)
  /\ (forall msg,
        load_data_outcome w = Raise msg ->
        returned (_rule_based_answer w query) = Ok ("Error processing query: " ++ msg))
  /\ (forall df msg,
        load_data_outcome w = Ok df ->
        answer_from df query = Raise msg ->
        returned (_rule_based_answer w query) = Ok ("Error processing query: " ++ msg))
  /\ (forall df s,
        load_data_outcome w = Ok df ->
        answer_from df query = Ok s ->
        returned (_rule_based_answer w query) = Ok s)
  /\ (forall df m msg,
        load_data_outcome w = Ok (Some df) ->
        empty df = false ->
        has_Amount df = true ->
        asks_total (PyStr.lower query) = false ->
        Re.search Re.last_n_expenses (PyStr.lower query) = Some m ->
        PyStr.int (Re.group 1 m) = Raise msg ->
        returned (_rule_based_answer w query) = Ok ("Error processing query: " ++ msg)).
Proof.
  rewrite rule_based_run.
  unfold _rule_based_body, load_data, bind, emit, lift, returned.
  split; [eauto |].
  destruct (load_data_outcome w) as [df | e]; simpl.
  - destruct (answer_from df query) as [s | msg] eqn:E; simpl.
    + split; [discriminate |]. split; [intros s' H; injection H as <-; reflexivity |].
      split; [discriminate |]. split; [intros df' msg H; injection H as <-; congruence |].
      split; [intros df' s' H; injection H as <-; congruence |].
      intros df' m msg H He Ha T S I. injection H as ->.
      rewrite (last_n_rule_fires df' query m (conj He Ha) T S), I in E. discriminate.
    + split; [intros msg' H; injection H as <-; reflexivity |].
      split; [discriminate |]. split; [discriminate |].
      split; [intros df' msg' H; injection H as <-; congruence |].
      split; [intros df' s' H; injection H as <-; congruence |].
      intros df' m msg' H He Ha T S I. injection H as ->.
      rewrite (last_n_rule_fires df' query m (conj He Ha) T S), I in E.
      injection E as <-. reflexivity.
  - split; [intros msg H; injection H as <-; reflexivity |].
    split; [discriminate |].
    split; [intros msg H; injection H as <-; reflexivity |].
    repeat split; discriminate.
Qed.

(** *** The entry point *)

Lemma load_context_returns (w : World) :
  exists context, _load_context w = (Ok context, [CallLoadData]).
Proof.
  unfold _load_context, load_data, try_except, bind, emit, lift, ret.
  destruct (load_data_outcome w) as [df | e]; simpl.
  - destruct (context_from df); simpl; eauto.
  - eauto.
Qed.

Lemma llm_answer_returns (w : World) (query : string) (context : Context) :
  exists ai_answer t, _llm_answer w query context = (Ok ai_answer, t).
Proof.
  unfold _llm_answer. destruct (_get_openai_key w) as [k |]; [| unfold ret; eauto].
  destruct (PyStr.is_empty k); [unfold ret; eauto |].
  unfold bind, emit, ret. destruct (openai_client w k); simpl; eauto.
  destruct (json_dumps w context); simpl; eauto.
  destruct (chat w k _); simpl; eauto.
Qed.

(** [(user_input or "").strip()] *)
Definition query_of (user_input : option string) : string :=
  PyStr.strip (match user_input with Some s => s | None => "" end).

Lemma handle_query_routes (w : World) (user_input : option string)
      (context : Context) (ai_answer : string) :
  PyStr.is_empty (query_of user_input) = false ->
  returned (_load_context w) = Ok context ->
  returned (_llm_answer w (query_of user_input) context) = Ok ai_answer ->
  returned (handle_query w user_input)
  = if is_failure_answer ai_answer
    then returned (_rule_based_answer w (query_of user_input))
    else Ok ai_answer.
Proof.
  intros Hq Hc Hai.
  destruct (load_context_returns w) as (context' & Hc').
  rewrite Hc' in Hc. injection Hc as ->.
  destruct (llm_answer_returns w (query_of user_input) context) as (ai & t & Hai').
  rewrite Hai' in Hai. injection Hai as ->.
  unfold handle_query. fold (query_of user_input).
  rewrite Hq. unfold bind. rewrite Hc', Hai'.
  destruct (is_failure_answer ai_answer); [| reflexivity].
  destruct (_rule_based_answer w (query_of user_input)). reflexivity.
Qed.

(** C9. For a query that is not blank, [handle_query] has a context and an
    LLM answer, and it returns the answer of the rule-based responder when
    the LLM answer starts with one of the three failure prefixes, and the
    LLM answer itself otherwise.  The test is on the text alone, so that a
    reply of the model that begins like a failure is replaced too. *)
Theorem fallback_on_failure_prefix (w : World) (user_input : option string) :
  PyStr.is_empty (query_of user_input) = false ->
  (exists context ai_answer,
      returned (_load_context w) = Ok context
      /\ returned (_llm_answer w (query_of user_input) context) = Ok ai_answer)
  /\ (forall context ai_answer,
        returned (_load_context w) = Ok context ->
        returned (_llm_answer w (query_of user_input) context) = Ok ai_answer ->
        returned (handle_query w user_input)
        = if PyStr.startswith ai_answer "ChatGPT integration is not configured"
             || PyStr.startswith ai_answer "The 'openai' package is not installed"
             || PyStr.startswith ai_answer "AI response error"
          then returned (_rule_based_answer w (query_of user_input))
          else Ok ai_answer).
Proof.
  intros Hq. split.
  - destruct (load_context_returns w) as (context & Hc).
    destruct (llm_answer_returns w (query_of user_input) context) as (ai & t & Hai).
    exists context, ai. rewrite Hc, Hai. split; reflexivity.
  - intros context ai_answer Hc Hai.
    apply (handle_query_routes w user_input context ai_answer Hq Hc Hai).
Qed.

(** The failures of [_llm_answer] produce answers with those prefixes. *)
Lemma llm_failures_are_recognised (w : World) (query : string) (context : Context) :
  (_get_openai_key w = None ->
   returned (_llm_answer w query context) = Ok not_configured)
  /\ (forall k, _get_openai_key w = Some k -> PyStr.is_empty k = false ->
       openai_client w k = ClientImportError ->
       returned (_llm_answer w query context) = Ok not_installed)
  /\ (forall k msg, _get_openai_key w = Some k -> PyStr.is_empty k = false ->
       openai_client w k = ClientError msg ->
       returned (_llm_answer w query context) = Ok ("AI response error: " ++ msg))
  /\ (forall k msg, _get_openai_key w = Some k -> PyStr.is_empty k = false ->
       openai_client w k = Client ->
       json_dumps w context = Raise msg ->
       returned (_llm_answer w query context) = Ok ("AI response error: " ++ msg))
  /\ is_failure_answer not_configured = true
  /\ is_failure_answer not_installed = true
  /\ (forall msg, is_failure_answer ("AI response error: " ++ msg) = true).
Proof.
  unfold _llm_answer, returned. repeat split.
  - intros ->. reflexivity.
  - intros k -> -> ->. reflexivity.
  - intros k msg -> -> ->. reflexivity.
  - intros k msg -> -> -> ->. reflexivity.
Qed.

(** The input is [None], empty, or made of whitespace characters only. *)
Definition blank (user_input : option string) : bool :=
  match user_input with
  | None => true
  | Some s => all_space s
  end.

Lemma query_of_blank (user_input : option string) :
  query_of user_input = "" <-> blank user_input = true.
Proof.
  destruct user_input as [s |]; simpl.
  - apply strip_empty.
  - split; reflexivity.
Qed.

(** C10. For an input that is empty or only whitespace, [handle_query]
    returns "Please enter a question." and makes no call: the data is not
    loaded, the LLM is not called, the rule-based responder is not entered. *)
Theorem blank_input_is_refused (w : World) (user_input : option string) :
  blank user_input = true ->
  handle_query w user_input = (Ok "Please enter a question.", []).
Proof.
  intros H. unfold handle_query. fold (query_of user_input).
  rewrite (proj2 (query_of_blank _) H). reflexivity.
Qed.

End Properties.

Section EmptyData.

Import Ref.

(** C2 at a concrete input: no rows, the query "total spent". *)
Lemma empty_dataset_message_witness :
  returned (QueryHandler._rule_based_answer (Ref.offline []) "total spent")
  = Ok "No expense data available yet. Add some expenses first.".
Proof.
  apply (empty_dataset_message (Ref.offline []) (Some (Ref.frame [])) "total spent");
    reflexivity.
Defined.

(** C3 as stated fails on the empty dataset: the answer is the sentence for
    missing data, and the sum of no amounts, 0.00, does not occur in it. *)
Lemma total_spent_empty_counterexample :
  returned (QueryHandler._rule_based_answer (Ref.offline []) "total spent")
  = Ok "No expense data available yet. Add some expenses first."
  /\ @fmt2 Ref.RefPandas (@sum Ref.RefPandas (map Amount (rows (Ref.frame [])))) = "0.00"
  /\ PyStr.contains "0.00" "No expense data available yet. Add some expenses first." = false
  /\ returned (QueryHandler._rule_based_answer (Ref.offline []) "total spent")
     <> Ok "You've spent a total of ₹0.00.".
Proof. repeat split; try reflexivity. discriminate. Qed.

Lemma total_spent_is_sum_witness :
  returned (QueryHandler._rule_based_answer
              (Ref.offline [Ref.expense (Ref.day 2025 1 1) "Food" 100 "";
                            Ref.expense (Ref.day 2025 8 2) "Travel" 150 "cab"])
              "total spent")
  = Ok "You've spent a total of ₹250.00.".
Proof.
  apply (total_spent_is_sum
           (Ref.offline [Ref.expense (Ref.day 2025 1 1) "Food" 100 "";
                         Ref.expense (Ref.day 2025 8 2) "Travel" 150 "cab"])
           (Ref.frame [Ref.expense (Ref.day 2025 1 1) "Food" 100 "";
                       Ref.expense (Ref.day 2025 8 2) "Travel" 150 "cab"]));
    reflexivity.
Defined.

End EmptyData.

(** ** The handler on concrete data *)

Module Examples.

Import Ref QueryHandler.

Definition food : Row amount := expense (day 2025 1 1) "Food" 100 "".
Definition travel : Row amount := expense (day 2025 8 2) "Travel" 150 "cab".

(** Food totals 100 and Travel totals 150. *)
Definition food_and_travel : list (Row amount) := [food; travel].

(** The same amounts under labels that contain, but are not, the words of
    the query. *)
Definition longer_labels : list (Row amount) :=
  [ expense (day 2025 1 1) "Food & Dining" 100 "";
    expense (day 2025 8 2) "Travel Costs" 150 "cab" ].

Definition jan1 : Row amount := expense (day 2025 1 1) "Food" 100 "".
Definition jan2 : Row amount := expense (day 2025 1 2) "Travel" 150 "".
Definition jan3 : Row amount := expense (day 2025 1 3) "Food" 50 "".
Definition undated : Row amount := expense None "Misc" 5 "".


(** Rows in ascending order of date with the undated row last, the order
    in which [load_data] leaves them. *)
Definition with_undated : list (Row amount) := [jan1; jan2; jan3; undated].

(** Two rows share the largest amount, and two the smallest. *)
Definition ties : list (Row amount) :=
  [ expense (day 2025 1 1) "Food" 40 "";
    expense (day 2025 1 2) "Travel" 150 "cab";
    expense (day 2025 1 3) "Rent" 150 "";
    expense (day 2025 1 4) "Snacks" 40 "" ].

(** A row whose amount is missing, before two rows that share the
    smallest amount. *)
Definition no_amount : Row amount := mkRow (day 2025 1 2) (Some "Travel") None (Some "").
Definition fifty : Row amount := expense (day 2025 1 3) "Food" 50 "".

Definition missing_amount : list (Row amount) :=
  [ expense (day 2025 1 1) "Rent" 100 ""; no_amount; fifty;
    expense (day 2025 1 4) "Snacks" 50 "" ].

(** Rows without a category, as a file with an empty [Category] column gives. *)
Definition unlabelled : list (Row amount) :=
  [ mkRow (day 2025 1 1) None (rupees 100) (Some "");
    mkRow (day 2025 1 2) None (rupees 150) (Some "cab") ].

Definition only_undated : list (Row amount) := [undated].

Definition labelled_total : list (Row amount) :=
  [expense (day 2025 8 5) "Total" 10 ""].

Definition july_and_august : list (Row amount) :=
  [ expense (day 2025 7 30) "Food" 60 "";
    expense (day 2025 8 2) "Travel" 150 "cab";
    expense (day 2025 8 9) "Food" 25 "";
    expense (day 2024 8 9) "Rent" 900 "" ].

(** A world with an API key in the environment, a client that can be
    built, and a model that replies [reply] to every question. *)
Definition online (rs : list (Row amount)) (reply : llm_outcome) : World :=
  mkWorld (Ok (Some (frame rs))) (Some "sk-test") (Ok None)
          (fun _ => Client) r_json_text r_json_error (fun _ _ => reply).

(** A world whose loader raises, as [drop_duplicates] does on a file
    without a [Category] column. *)
Definition broken_loader : World :=
  mkWorld (Raise "Index(['Category'], dtype='object')") None (Ok None)
          (fun _ => ClientImportError) r_json_text r_json_error
          (fun _ _ => QueryHandler.ImportError).

(** The context [_load_context] makes of the rows [rs]. *)
Definition loaded_context (rs : list (Row amount)) : Context :=
  match context_from (Some (frame rs)) with
  | Ok context => context
  | Raise _ => empty_context
  end.

(** [n] times the text [s]. *)
Fixpoint times (n : nat) (s : string) : string :=
  match n with
  | O => EmptyString
  | S n' => s ++ times n' s
  end.

(** U+00A0, U+0085, U+3000 and U+FF13 (the fullwidth digit three) *)
Definition nbsp : string := String "194" (String "160" "").
Definition nel : string := String "194" (String "133" "").
Definition ideographic_space : string := String "227" (String "128" (String "128" "")).
Definition fullwidth_3 : string := String "239" (String "188" (String "147" "")).

End Examples.

Section Evaluation.

Import Ref QueryHandler Examples.

Example compare_food_vs_travel_evaluated :
  returned (_rule_based_answer (offline food_and_travel) "compare food vs travel")
  = Ok "You spent ₹100.00 on food.".
Proof. reflexivity. Qed.

(** The compare rule answers when no label of the frame occurs in the query. *)
Example compare_without_exact_label :
  returned (_rule_based_answer (offline longer_labels) "compare food vs travel")
  = Ok "Food: ₹100.00 vs Travel: ₹150.00 → Higher: Travel.".
Proof. reflexivity. Qed.

Example largest_of_ties :
  returned (_rule_based_answer (offline ties) "largest expense")
  = Ok "Largest expense: ₹150.00 on 2025-01-02 00:00:00 (Travel). Note: cab."
  /\ returned (_rule_based_answer (offline ties) "smallest expense")
     = Ok "Smallest expense: ₹40.00 on 2025-01-01 00:00:00 (Food).".
Proof. split; reflexivity. Qed.

Example august_total_evaluated :
  returned (_rule_based_answer (offline july_and_august) "monthly total for august 2025")
  = Ok "Total for August 2025: ₹175.00.".
Proof. reflexivity. Qed.

Example unrecognised_query :
  returned (_rule_based_answer (offline food_and_travel) "asdkjasd")
  = Ok "Sorry, I didn’t understand that. Try asking things like 'total spent', 'food expenses', or 'top category'.".
Proof. reflexivity. Qed.

(** The patterns read the whitespace and the digits of Unicode: a no-break
    space and a fullwidth digit three. *)
Example unicode_count_evaluated :
  Re.search Re.last_n_expenses ("last" ++ nbsp ++ fullwidth_3 ++ " expenses")
  = Some [fullwidth_3]
  /\ PyStr.int fullwidth_3 = Ok 3%N
  /\ returned (_rule_based_answer (offline with_undated)
                 ("last " ++ fullwidth_3 ++ " expenses last 1 expenses"))
     = Ok (to_string (frame [jan2; jan3; undated])).
Proof. repeat split; reflexivity. Qed.

(** The three exceptions the outer [except] turns into text: of the
    loader, of [int] on a count of 4301 digits, and of [.str] on a
    [Category] column without text. *)
Example loader_failure_evaluated :
  _rule_based_answer broken_loader "total spent"
  = (Ok "Error processing query: Index(['Category'], dtype='object')",
     [CallRuleBased; CallLoadData]).
Proof. reflexivity. Qed.

Example long_count_evaluated :
  returned (_rule_based_answer (offline food_and_travel)
              ("last " ++ times 4301 "9" ++ " expenses"))
  = Ok "Error processing query: Exceeds the limit (4300 digits) for integer string conversion: value has 4301 digits; use sys.set_int_max_str_digits() to increase the limit"
  /\ returned (_rule_based_answer (offline food_and_travel)
                 ("last " ++ times 4300 "9" ++ " expenses"))
     = Ok (to_string (frame food_and_travel)).
Proof. split; vm_compute; reflexivity. Qed.

Example unlabelled_top_category_evaluated :
  returned (_rule_based_answer (offline unlabelled) "top category")
  = Ok "Error processing query: Can only use .str accessor with string values!".
Proof. reflexivity. Qed.

(** Without data the context holds no timestamp, and the reply of the
    model is returned. *)
Example model_reply_is_returned :
  handle_query (online [] (Content " You have no expenses yet. ")) (Some "how much?")
  = (Ok "You have no expenses yet.", [CallLoadData; CallOpenAI]).
Proof. reflexivity. Qed.

(** With data the context holds the timestamps of the first rows:
    [json.dumps] raises, the model is not asked and the rules answer. *)
Example model_is_not_asked :
  returned (_llm_answer (online food_and_travel (Content "250"))
                        "total spent"
                        (loaded_context food_and_travel))
  = Ok "AI response error: Object of type Timestamp is not JSON serializable"
  /\ handle_query (online food_and_travel (Content "250")) (Some "total spent")
     = (Ok "You've spent a total of ₹250.00.",
        [CallLoadData; CallOpenAI; CallRuleBased; CallLoadData]).
Proof. split; reflexivity. Qed.

(** A reply of the model that begins like a failure is replaced by the
    rule-based answer. *)
Example model_reply_is_misrouted :
  handle_query (online [] (Content "AI response error codes are listed in the docs."))
               (Some "total spent")
  = (Ok "No expense data available yet. Add some expenses first.",
     [CallLoadData; CallOpenAI; CallRuleBased; CallLoadData]).
Proof. reflexivity. Qed.

End Evaluation.

(** ** The theorems at concrete inputs *)

Section Witnesses.

Import Ref QueryHandler Examples.

Lemma compare_food_vs_travel_is_shadowed_witness :
  (returned (_rule_based_answer (offline food_and_travel) "compare food vs travel")
   = Ok ("You spent ₹" ++ fmt2 (category_total (frame food_and_travel) "food")
         ++ " on food.")
   \/ returned (_rule_based_answer (offline food_and_travel) "compare food vs travel")
      = Ok ("You spent ₹" ++ fmt2 (category_total (frame food_and_travel) "travel")
            ++ " on travel."))
  /\ returned (_rule_based_answer (offline food_and_travel) "compare food vs travel")
     <> Ok "Food: ₹100.00 vs Travel: ₹150.00 → Higher: Travel.".
Proof.
  apply (compare_food_vs_travel_is_shadowed
           (offline food_and_travel) (frame food_and_travel)); try reflexivity.
  - intros c [H | [H | []]]; injection H as <-; auto.
  - simpl; auto.
  - simpl; auto.
Defined.



(** C5 as stated fails when an amount is missing.  Two rows share the
    smallest amount, 50, and no row has a smaller one; the answer to
    "smallest expense" is neither of them but the row without an amount,
    which comes before them and counts as 0. *)
Lemma smallest_expense_counterexample :
  nth_error missing_amount 2 = Some fifty
  /\ (forall r, In r missing_amount -> lt (Amount r) (Amount fifty) = false)
  /\ (forall j r, j < 2 -> nth_error missing_amount j = Some r ->
                  Amount r <> Amount fifty)
  /\ returned (_rule_based_answer (offline missing_amount) "smallest expense")
     = Ok "Smallest expense: ₹nan on 2025-01-02 00:00:00 (Travel)."
  /\ returned (_rule_based_answer (offline missing_amount) "smallest expense")
     <> Ok "Smallest expense: ₹50.00 on 2025-01-03 00:00:00 (Food).".
Proof.
  split; [reflexivity |]. split.
  { intros r [<- | [<- | [<- | [<- | []]]]]; reflexivity. }
  split.
  { intros [| [| j]] r Hj Hr; [| | lia]; injection Hr as <-; discriminate. }
  split; [reflexivity | discriminate].
Qed.

Lemma extreme_expense_is_first_occurrence_witness :
  (exists i row,
      nth_error ties i = Some row
      /\ returned (_rule_based_answer (offline ties) "largest expense")
         = Ok ("Largest expense: ₹" ++ fmt2 (Amount row) ++ " on "
               ++ match Date row with Some t => str_timestamp t | None => "NaT" end
               ++ " (" ++ match Category row with Some c => c | None => "nan" end ++ ")."
               ++ match PyStr.strip match Note row with Some n => n | None => "nan" end with
                  | EmptyString => ""
                  | note => " Note: " ++ note ++ "."
                  end)
      /\ (forall r, In r ties -> lt (filled row) (filled r) = false)
      /\ (forall j r, j < i -> nth_error ties j = Some r ->
                      lt (filled r) (filled row) = true)
      /\ (forall j r, nth_error ties j = Some r ->
                      (forall r', In r' ties -> lt (filled r) (filled r') = false) ->
                      i <= j))
  /\ returned (_rule_based_answer (offline ties) "largest expense")
     = Ok "Largest expense: ₹150.00 on 2025-01-02 00:00:00 (Travel). Note: cab.".
Proof.
  split; [| reflexivity].
  exact (proj1 (extreme_expense_is_first_occurrence
                  (offline ties) (frame ties) eq_refl eq_refl eq_refl)).
Defined.

(** C6 as stated fails.  When no date of the frame parses, the answer is
    the sentence for an unrecognised query, not a total of 0.00; and a
    category label that occurs in the query is answered first. *)
Lemma monthly_total_counterexample :
  (forall r, In r only_undated -> in_month 2025 8 r = false)
  /\ returned (_rule_based_answer (offline only_undated) "monthly total for august 2025")
     = Ok "Sorry, I didn’t understand that. Try asking things like 'total spent', 'food expenses', or 'top category'."
  /\ returned (_rule_based_answer (offline labelled_total) "monthly total for august 2025")
     = Ok "You spent ₹10.00 on total.".
Proof.
  repeat split; try reflexivity.
  intros r [<- | []]. reflexivity.
Qed.

Lemma monthly_total_august_2025_witness :
  returned (_rule_based_answer (offline july_and_august) "monthly total for august 2025")
  = Ok ("Total for August 2025: ₹"
        ++ fmt2 (sum (map fillna0 (map Amount (filter (in_month 2025 8) july_and_august))))
        ++ ".").
Proof.
  refine (proj1 (monthly_total_august_2025
                   (offline july_and_august) (frame july_and_august)
                   eq_refl eq_refl eq_refl eq_refl _ _)).
  - exists (expense (day 2025 7 30) "Food" 60 ""). split; [simpl; auto | discriminate].
  - intros c Hc _. simpl in Hc.
    destruct Hc as [H | [H | [H | [H | []]]]]; injection H as <-; reflexivity.
Defined.

Lemma summarize_with_count_is_shadowed_witness :
  returned (_rule_based_answer (offline food_and_travel) "summarize last 5 expenses")
  = Ok (to_string (preview_cols (tail 5 (frame food_and_travel))))
  /\ returned (_rule_based_answer (offline food_and_travel) "summarize last 5 expenses")
     <> Ok (summary_of 5 (frame food_and_travel)).
Proof.
  exact (proj2 (summarize_with_count_is_shadowed
                  (offline food_and_travel) (frame food_and_travel)
                  eq_refl eq_refl eq_refl)).
Defined.

(** C9 at three inputs: without a key the rules answer; a reply of the
    model is returned stripped; a reply that begins like a failure is
    replaced by the answer of the rules. *)
Lemma fallback_on_failure_prefix_witness :
  returned (handle_query (offline food_and_travel) (Some " total spent "))
  = Ok "You've spent a total of ₹250.00."
  /\ returned (handle_query (online [] (Content " You have no expenses yet. "))
                            (Some "how much?"))
     = Ok "You have no expenses yet."
  /\ returned (handle_query
                 (online [] (Content "AI response error codes are listed in the docs."))
                 (Some "total spent"))
     = Ok "No expense data available yet. Add some expenses first.".
Proof.
  split; [| split].
  - exact (proj2 (fallback_on_failure_prefix
                    (offline food_and_travel) (Some " total spent ") eq_refl)
                 (loaded_context food_and_travel) not_configured
                 eq_refl eq_refl).
  - exact (proj2 (fallback_on_failure_prefix
                    (online [] (Content " You have no expenses yet. "))
                    (Some "how much?") eq_refl)
                 empty_context "You have no expenses yet." eq_refl eq_refl).
  - exact (proj2 (fallback_on_failure_prefix
                    (online [] (Content "AI response error codes are listed in the docs."))
                    (Some "total spent") eq_refl)
                 empty_context "AI response error codes are listed in the docs."
                 eq_refl eq_refl).
Defined.

(** C10 at an input made of a space, a no-break space, a tab, a next-line
    character and an ideographic space. *)
Lemma blank_input_is_refused_witness :
  handle_query (offline food_and_travel)
               (Some (" " ++ nbsp ++ String "009" nel ++ ideographic_space))
  = (Ok "Please enter a question.", []).
Proof.
  exact (blank_input_is_refused
           (offline food_and_travel)
           (Some (" " ++ nbsp ++ String "009" nel ++ ideographic_space)) eq_refl).
Defined.

End Witnesses.

(** ** Further properties of the rule-based responder *)

Section Dispatch.

Context {U : Unicode} {P : Pandas}.

Import QueryHandler.

Local Abbreviation Frame := (DataFrame float).

(** The first [k] rules are silent on a frame and a lower-cased query, so
    that control reaches rule [k + 1]. *)
Definition silent_before (k : nat) (df : Frame) (low : string) : Prop :=
  first_match (firstn k rules) (df, low) = None.

Lemma first_match_app (l1 l2 : list Rule) (a : Frame * string) :
  first_match (l1 ++ l2) a
  = match first_match l1 a with
    | Some b => Some b
    | None => first_match l2 a
    end.
Proof.
  induction l1 as [| r l1 IH]; simpl; [reflexivity |].
  destruct (r a); [reflexivity | apply IH].
Qed.

Lemma reach (k : nat) (df : Frame) (low : string) :
  silent_before k df low ->
  first_match rules (df, low) = first_match (skipn k rules) (df, low).
Proof.
  intros H. rewrite <- (firstn_skipn k rules) at 1.
  rewrite first_match_app. unfold silent_before in H. rewrite H. reflexivity.
Qed.

Lemma answer_loaded_usable (w : World) (df : Frame) (query : string) :
  load_data_outcome w = Ok (Some df) ->
  empty df = false ->
  has_Amount df = true ->
  returned (_rule_based_answer w query)
  = Ok (caught match first_match rules (df, PyStr.lower query) with
               | Some r => r
               | None => Ok not_understood
               end).
Proof.
  intros Hload He Ha. rewrite (rule_based_loaded _ _ _ Hload).
  rewrite answer_from_usable by (split; assumption). reflexivity.
Qed.

(** *** The total rule comes first *)

(** X1. A query that contains "total spent", "how much did i spend" or
    "total spend", in any letter case, is answered with the total of the
    whole frame, whatever else it names (a category, a count, a month). *)
Theorem total_phrase_wins (w : World) (df : Frame) (query : string) :
  load_data_outcome w = Ok (Some df) ->
  empty df = false ->
  has_Amount df = true ->
  PyStr.contains "total spent" (PyStr.lower query)
  || PyStr.contains "how much did i spend" (PyStr.lower query)
  || PyStr.contains "total spend" (PyStr.lower query) = true ->
  returned (_rule_based_answer w query)
  = Ok ("You've spent a total of ₹"
        ++ fmt2 (sum (map fillna0 (map Amount (rows df)))) ++ ".").
Proof.
  intros Hload He Ha T. rewrite (rule_based_loaded _ _ _ Hload).
  rewrite total_rule_answers; [reflexivity | split; assumption | exact T].
Qed.

(** *** Letter case *)







(** *** Surrounding whitespace *)

(** X3. [handle_query] sees its input only through [(user_input or "").strip()]:
    stripping the input beforehand changes neither the answer nor the calls
    made, and [None] is treated as the empty string. *)
Theorem surrounding_whitespace_is_ignored (w : World) :
  (forall s, handle_query w (Some (PyStr.strip s)) = handle_query w (Some s))
  /\ handle_query w None = handle_query w (Some "").
Proof.
  split; [| reflexivity].
  intros s. unfold handle_query. rewrite strip_idempotent. reflexivity.
Qed.

(** *** The last-N rule: bounds *)

Lemma clamp_bounds (n : N) : 1 <= clamp n <= 50.
Proof. unfold clamp. lia. Qed.

(** X4. Whenever the last-N rule answers with a count that [int] reads,
    the table holds the last [n] rows of the frame for a count [n] between
    1 and 50: at least one row, at most fifty, never more than the frame
    has, and always a final segment of the frame.  A count of 0 gives one
    row. *)
Theorem last_n_table_is_bounded (w : World) (df : Frame) (query : string)
        (m : list string) (count : N) :
  load_data_outcome w = Ok (Some df) ->
  empty df = false ->
  has_Amount df = true ->
  asks_total (PyStr.lower query) = false ->
  Re.search Re.last_n_expenses (PyStr.lower query) = Some m ->
  PyStr.int (Re.group 1 m) = Ok count ->
  exists n,
    n = Nat.max 1 (Nat.min (N.to_nat count) 50)
    /\ returned (_rule_based_answer w query) = Ok (to_string (preview_cols (tail n df)))
    /\ (exists before, rows df = (before ++ rows (tail n df))%list)
    /\ length (rows (tail n df)) = Nat.min n (length (rows df))
    /\ 1 <= length (rows (tail n df)) <= 50.
Proof.
  intros Hload He Ha T S I. assert (Hu : usable df) by (split; assumption).
  exists (clamp count).
  pose proof (clamp_bounds count) as B.
  assert (Hr : 1 <= length (rows df)).
  { pose proof (usable_rows df Hu). destruct (rows df); [congruence | simpl; lia]. }
  split; [unfold clamp; lia |].
  split.
  { rewrite (rule_based_loaded _ _ _ Hload).
    rewrite (last_n_rule_answers df query m count Hu T S I). reflexivity. }
  split; [eexists; apply lastn_suffix |].
  simpl rows. rewrite lastn_length. lia.
Qed.

(** *** The alias "show last 5 expenses" *)

Lemma startswith_split (p : string) : forall s,
  PyStr.startswith s p = true -> exists post, s = p ++ post.
Proof.
  induction p as [| a p IH]; intros s H.
  - exists s. reflexivity.
  - destruct s as [| b s]; simpl in H; [discriminate |].
    apply andb_prop in H. destruct H as [Hab Hs].
    apply Ascii.eqb_eq in Hab. subst b.
    destruct (IH s Hs) as (post & ->). exists post. reflexivity.
Qed.

Lemma contains_unfold (sub s : string) :
  PyStr.contains sub s
  = PyStr.startswith s sub
    || match s with
       | EmptyString => false
       | String _ s' => PyStr.contains sub s'
       end.
Proof. destruct s; reflexivity. Qed.

Lemma contains_split (sub : string) : forall s,
  PyStr.contains sub s = true -> exists pre post, s = pre ++ (sub ++ post).
Proof.
  induction s as [| c s IH]; intros H; rewrite contains_unfold in H.
  - rewrite orb_false_r in H. apply startswith_split in H.
    destruct H as (post & H). exists "", post. exact H.
  - apply orb_prop in H. destruct H as [H | H].
    + apply startswith_split in H. destruct H as (post & H). exists "", post. exact H.
    + destruct (IH H) as (pre & post & ->). exists (String c pre), post. reflexivity.
Qed.

Lemma show_last_5_matches_last_n (low : string) :
  PyStr.contains "show last 5 expenses" low = true ->
  found Re.last_n_expenses low.
Proof.
  intros H. apply contains_split in H. destruct H as (pre & post & ->).
  unfold found, Re.search. rewrite chars_app by reflexivity.
  apply found_later.
  change ("show last 5 expenses" ++ post)
    with ("show " ++ String "l" ("ast 5 expenses" ++ post)).
  rewrite chars_app by reflexivity. apply found_later.
  change (String "l" ("ast 5 expenses" ++ post))
    with ("last 5 expenses" ++ post).
  repeat (rewrite chars_cons by reflexivity; cbn [append]).
  apply (found_here _ ["5"]). reflexivity.
Qed.

(** X5. The branch for the literal "show last 5 expenses" is never taken:
    every query that contains the phrase matches the pattern of the last-N
    rule, which is tried just before.  So the query is answered by the
    total rule or by the last-N rule: with a table of 1 to 50 rows, or
    with the error text for a count that [int] refuses. *)
Theorem show_last_5_branch_is_dead (w : World) (df : Frame) :
  (forall low, rule_last_n (df, low) = None -> rule_show_last_5 (df, low) = None)
  /\ (load_data_outcome w = Ok (Some df) ->
      empty df = false ->
      has_Amount df = true ->
      forall query,
        PyStr.contains "show last 5 expenses" (PyStr.lower query) = true ->
        returned (_rule_based_answer w query)
        = Ok ("You've spent a total of ₹" ++ fmt2 (amount_total (rows df)) ++ ".")
        \/ (exists n, 1 <= n <= 50
                      /\ returned (_rule_based_answer w query)
                         = Ok (to_string (preview_cols (tail n df))))
        \/ (exists m e,
               Re.search Re.last_n_expenses (PyStr.lower query) = Some m
               /\ PyStr.int (Re.group 1 m) = Raise e
               /\ returned (_rule_based_answer w query)
                  = Ok ("Error processing query: " ++ e))).
Proof.
  split.
  - intros low Hn. unfold rule_show_last_5.
    destruct (PyStr.contains "show last 5 expenses" low) eqn:E; [| reflexivity].
    destruct (show_last_5_matches_last_n low E) as (m & Hm).
    unfold rule_last_n in Hn. rewrite Hm in Hn. discriminate.
  - intros Hload He Ha query Hq. assert (Hu : usable df) by (split; assumption).
    rewrite (rule_based_loaded _ _ _ Hload).
    destruct (asks_total (PyStr.lower query)) eqn:T.
    + left. rewrite (total_rule_answers df query Hu T). reflexivity.
    + right. destruct (show_last_5_matches_last_n _ Hq) as (m & Hm).
      rewrite (last_n_rule_fires df query m Hu T Hm).
      destruct (PyStr.int (Re.group 1 m)) as [n | e] eqn:I.
      * left. exists (clamp n). split; [apply clamp_bounds | reflexivity].
      * right. exists m, e. auto.
Qed.

(** *** Average daily spend *)

(** [tmp.groupby(tmp["_dt"].dt.date)["Amount"].sum()] *)
Definition daily_sums (df : Frame) : list (Z * Z * Z * float) :=
  group_sums date_leb date_eqb
    (flat_map (fun r => match Date r with
                        | Some t => [(ts_date t, Amount r)]
                        | None => []
                        end) (rows (dated df))).

Definition has_date (r : Row float) : bool :=
  match Date r with Some _ => true | None => false end.

Lemma empty_dated (df : Frame) :
  has_Amount df = true ->
  empty (dated df) = match filter has_date (rows df) with [] => true | _ => false end.
Proof.
  intros Ha. unfold empty, no_columns, dated, select. simpl.
  rewrite Ha. simpl. rewrite andb_false_r. simpl. rewrite orb_false_r. reflexivity.
Qed.

Lemma insert_key_not_nil {K} (leb : K -> K -> bool) (k : K) (l : list K) :
  insert_key leb k l <> [].
Proof. destruct l as [| k' l]; simpl; [| destruct (leb k k')]; discriminate. Qed.

Lemma group_sums_not_nil {K} (leb eqb : K -> K -> bool) (kvs : list (K * float)) :
  kvs <> [] -> group_sums leb eqb kvs <> [].
Proof.
  destruct kvs as [| kv kvs]; [congruence |]. intros _. unfold group_sums. simpl.
  intros H. apply map_eq_nil in H. exact (insert_key_not_nil _ _ _ H).
Qed.

Lemma daily_sums_not_nil (df : Frame) :
  filter has_date (rows df) <> [] -> daily_sums df <> [].
Proof.
  intros H. apply group_sums_not_nil. unfold dated, select. simpl rows.
  fold has_date. destruct (filter has_date (rows df)) as [| r rs] eqn:E; [congruence |].
  assert (Hr : has_date r = true).
  { assert (Hin : In r (filter has_date (rows df))) by (rewrite E; left; reflexivity).
    apply filter_In in Hin. apply Hin. }
  simpl. unfold has_date in Hr. destruct (Date r); [discriminate | discriminate].
Qed.

Lemma undated_or_dated (rs : list (Row float)) :
  (forall r, In r rs -> Date r = None) \/ (exists r, In r rs /\ Date r <> None).
Proof.
  induction rs as [| r rs IH]; [left; intros r [] |].
  destruct (Date r) eqn:E.
  - right. exists r. split; [left; reflexivity | congruence].
  - destruct IH as [IH | (r' & Hr' & Hd')].
    + left. intros r' [<- | Hr']; auto.
    + right. exists r'. split; [right; assumption | assumption].
Qed.

(** X6. When control reaches the average rule on a frame with a [Date]
    column, a query containing "average daily spend" gets one of two
    answers: the sentence about unparseable dates when no row has a date,
    and otherwise the mean of the per-day sums, of which there is at least
    one.  The branch "No daily data available." is never taken. *)
Theorem average_daily_spend_cases (w : World) (df : Frame) (query : string) :
  load_data_outcome w = Ok (Some df) ->
  empty df = false ->
  has_Amount df = true ->
  has_Date df = true ->
  silent_before 5 df (PyStr.lower query) ->
  PyStr.contains "average daily spend" (PyStr.lower query) = true ->
  ((forall r, In r (rows df) -> Date r = None) ->
   returned (_rule_based_answer w query)
   = Ok "Dates are not parseable to compute daily average.")
  /\ ((exists r, In r (rows df) /\ Date r <> None) ->
      daily_sums df <> []
      /\ returned (_rule_based_answer w query)
         = Ok ("Average daily spend: ₹" ++ fmt2 (mean (map snd (daily_sums df))) ++ "."))
  /\ returned (_rule_based_answer w query) <> Ok "No daily data available.".
Proof.
  intros Hload He Ha Hd Hs Hq.
  rewrite (answer_loaded_usable _ _ _ Hload He Ha), (reach 5 _ _ Hs).
  change (skipn 5 rules)
    with (rule_average_daily
            :: [rule_category; rule_compare; rule_monthly_total; rule_spend_in;
                rule_between; rule_summarize; rule_top_category]).
  assert (Hnone : (forall r, In r (rows df) -> Date r = None) ->
                  rule_average_daily (df, PyStr.lower query)
                  = Some (Ok "Dates are not parseable to compute daily average.")).
  { intros Hall. unfold rule_average_daily. rewrite Hq, Hd. simpl andb.
    cbv zeta. rewrite (empty_dated df Ha).
    rewrite filter_nothing; [reflexivity |].
    intros r Hr. unfold has_date. rewrite (Hall r Hr). reflexivity. }
  assert (Hsome : (exists r, In r (rows df) /\ Date r <> None) ->
                  daily_sums df <> []
                  /\ rule_average_daily (df, PyStr.lower query)
                     = Some (Ok ("Average daily spend: ₹"
                                 ++ fmt2 (mean (map snd (daily_sums df))) ++ "."))).
  { intros (r & Hr & Hdate).
    assert (Hf : filter has_date (rows df) <> []).
    { intros E. assert (Hin : In r (filter has_date (rows df))).
      { apply filter_In. split; [assumption |]. unfold has_date.
        destruct (Date r); congruence. }
      rewrite E in Hin. destruct Hin. }
    pose proof (daily_sums_not_nil df Hf) as Hdaily.
    split; [assumption |].
    unfold rule_average_daily. rewrite Hq, Hd. simpl andb. cbv zeta.
    rewrite (empty_dated df Ha).
    destruct (filter has_date (rows df)) eqn:E; [congruence |].
    fold (daily_sums df). destruct (daily_sums df); [congruence | reflexivity]. }
  assert (Hdec : (forall r, In r (rows df) -> Date r = None)
                 \/ (exists r, In r (rows df) /\ Date r <> None)).
  { apply undated_or_dated. }
  split; [| split].
  - intros Hall. rewrite (first_match_fire _ _ _ _ (Hnone Hall)). reflexivity.
  - intros Hex. destruct (Hsome Hex) as [Hdaily Hrule].
    split; [assumption |]. rewrite (first_match_fire _ _ _ _ Hrule). reflexivity.
  - destruct Hdec as [Hall | Hex].
    + rewrite (first_match_fire _ _ _ _ (Hnone Hall)). discriminate.
    + destruct (Hsome Hex) as [_ Hrule].
      rewrite (first_match_fire _ _ _ _ Hrule). discriminate.
Qed.


(** *** A category named in the query: when the rule answers *)

Definition category_sentence (df : Frame) (c : string) : string :=
  "You spent ₹"
  ++ fmt2 (sum (map fillna0 (map Amount (filter (category_is (PyStr.lower c)) (rows df)))))
  ++ " on " ++ PyStr.lower c ++ ".".

Lemma rule_category_answers (df : Frame) (low : string) :
  has_Category df = true ->
  (forall c, In (Some c) (map Category (rows df)) -> PyStr.lower c <> "") ->
  (exists c, In (Some c) (map Category (rows df))
             /\ PyStr.contains (PyStr.lower c) low = true) ->
  exists c, In (Some c) (map Category (rows df))
            /\ PyStr.contains (PyStr.lower c) low = true
            /\ rule_category (df, low) = Some (Ok (category_sentence df c)).
Proof.
  intros Hc Hne (c0 & Hin0 & Hsub0). unfold rule_category. rewrite Hc.
  destruct (find _ (known_cats df)) as [cat |] eqn:F.
  - apply find_some in F. destruct F as [Hin Hsub].
    apply In_known_cats in Hin. destruct Hin as (c & Hin & ->).
    exists c. split; [assumption |]. split; [assumption |].
    assert (Hemp : PyStr.is_empty (PyStr.lower c) = false).
    { pose proof (Hne c Hin) as Hn.
      destruct (PyStr.lower c); [congruence | reflexivity]. }
    rewrite Hemp. reflexivity.
  - exfalso.
    assert (Hin : In (PyStr.lower c0) (known_cats df))
      by (apply In_known_cats; eauto).
    apply (find_none _ _ F) in Hin. congruence.
Qed.

(** X7. When control reaches the category rule on a frame with a
    [Category] column whose labels are not empty, and some label occurs in
    the query (in any letter case), the answer is the total of one such
    label: the amounts, missing ones as 0, of exactly the rows whose label
    equals it up to letter case.  When all labels that occur agree up to
    letter case the answer does not depend on the iteration order of the set. *)
Theorem category_query_is_answered (w : World) (df : Frame) (query : string) :
  load_data_outcome w = Ok (Some df) ->
  empty df = false ->
  has_Amount df = true ->
  has_Category df = true ->
  silent_before 6 df (PyStr.lower query) ->
  (forall c, In (Some c) (map Category (rows df)) -> PyStr.lower c <> "") ->
  (exists c, In (Some c) (map Category (rows df))
             /\ PyStr.contains (PyStr.lower c) (PyStr.lower query) = true) ->
  (exists c, In (Some c) (map Category (rows df))
             /\ PyStr.contains (PyStr.lower c) (PyStr.lower query) = true
             /\ returned (_rule_based_answer w query) = Ok (category_sentence df c))
  /\ (forall c0,
        (forall c, In (Some c) (map Category (rows df)) ->
                   PyStr.contains (PyStr.lower c) (PyStr.lower query) = true ->
                   PyStr.lower c = PyStr.lower c0) ->
        returned (_rule_based_answer w query) = Ok (category_sentence df c0)).
Proof.
  intros Hload He Ha Hc Hs Hne Hex.
  rewrite (answer_loaded_usable _ _ _ Hload He Ha), (reach 6 _ _ Hs).
  change (skipn 6 rules)
    with (rule_category
            :: [rule_compare; rule_monthly_total; rule_spend_in;
                rule_between; rule_summarize; rule_top_category]).
  destruct (rule_category_answers df (PyStr.lower query) Hc Hne Hex)
    as (c & Hin & Hsub & Hrule).
  rewrite (first_match_fire _ _ _ _ Hrule). simpl caught. split.
  - exists c. auto.
  - intros c0 Hsame. unfold category_sentence.
    rewrite (Hsame c Hin Hsub). reflexivity.
Qed.

(** *** Expenses between two dates *)

(** [t1 <= t2], field by field. *)
Definition ts_le (t1 t2 : Timestamp) : Prop :=
  (ts_year t1 < ts_year t2
   \/ (ts_year t1 = ts_year t2
       /\ (ts_month t1 < ts_month t2
           \/ (ts_month t1 = ts_month t2
               /\ (ts_day t1 < ts_day t2
                   \/ (ts_day t1 = ts_day t2 /\ ts_nanos t1 <= ts_nanos t2))))))%Z.

Lemma ts_leb_spec (t1 t2 : Timestamp) : ts_leb t1 t2 = true <-> ts_le t1 t2.
Proof.
  unfold ts_leb, ts_le.
  destruct (Z.compare_spec (ts_year t1) (ts_year t2));
    destruct (Z.compare_spec (ts_month t1) (ts_month t2));
    destruct (Z.compare_spec (ts_day t1) (ts_day t2));
    rewrite ?Z.leb_le; split; intros; try lia; try discriminate; try reflexivity.
Qed.

Lemma ts_leb_refl (t : Timestamp) : ts_leb t t = true.
Proof. apply ts_leb_spec. unfold ts_le. lia. Qed.

Lemma ts_leb_trans (t1 t2 t3 : Timestamp) :
  ts_leb t1 t2 = true -> ts_leb t2 t3 = true -> ts_leb t1 t3 = true.
Proof. rewrite !ts_leb_spec. unfold ts_le. lia. Qed.

Lemma in_range_dated (start stop : Timestamp) (rs : list (Row float)) :
  filter (in_range start stop)
         (filter (fun r => match Date r with Some _ => true | None => false end) rs)
  = filter (in_range start stop) rs.
Proof.
  induction rs as [| r rs IH]; simpl; [reflexivity |].
  unfold in_range at 2. destruct (Date r) eqn:E; simpl.
  - unfold in_range at 1. rewrite E, IH. reflexivity.
  - assumption.
Qed.

Definition between_sentence (start stop : Timestamp) (total : float) : string :=
  "Total between " ++ str_date start ++ " and " ++ str_date stop
  ++ ": ₹" ++ fmt2 total ++ ".".

(** X8. When control reaches the date-range rule, the frame has a parsed
    date, the pattern matches and both dates parse, the answer is the sum
    of the amounts (missing ones as 0) of the rows dated within the range.
    The range is closed at both ends, and a range whose start is after its
    end selects nothing: the total printed is 0.00. *)
Theorem between_is_a_closed_range (w : World) (df : Frame) (query : string)
        (m : list string) (start stop : Timestamp) :
  load_data_outcome w = Ok (Some df) ->
  empty df = false ->
  has_Amount df = true ->
  has_Date df = true ->
  (exists r, In r (rows df) /\ Date r <> None) ->
  silent_before 10 df (PyStr.lower query) ->
  Re.search Re.expenses_between (PyStr.lower query) = Some m ->
  to_datetime (Re.group 1 m) = Some start ->
  to_datetime (Re.group 2 m) = Some stop ->
  returned (_rule_based_answer w query)
  = Ok (between_sentence start stop
          (sum (map fillna0 (map Amount (filter (in_range start stop) (rows df))))))
  /\ (forall r, In r (rows df) -> ts_leb start stop = true ->
                Date r = Some start \/ Date r = Some stop ->
                In r (filter (in_range start stop) (rows df)))
  /\ (forall r t, In r (filter (in_range start stop) (rows df)) -> Date r = Some t ->
                  ts_leb start t = true /\ ts_leb t stop = true)
  /\ (ts_leb start stop = false ->
      returned (_rule_based_answer w query)
      = Ok ("Total between " ++ str_date start ++ " and " ++ str_date stop
            ++ ": ₹0.00.")).
Proof.
  intros Hload He Ha Hd Hdated Hs Hm Hstart Hstop.
  assert (E : returned (_rule_based_answer w query)
              = Ok (between_sentence start stop
                      (sum (map fillna0
                              (map Amount (filter (in_range start stop) (rows df))))))).
  { rewrite (answer_loaded_usable _ _ _ Hload He Ha), (reach 10 _ _ Hs).
    change (skipn 10 rules) with (rule_between :: [rule_summarize; rule_top_category]).
    erewrite first_match_fire; cycle 1.
    { unfold rule_between. rewrite Hd, Hm. cbv zeta.
      rewrite (dated_not_empty df Ha Hdated), Hstart, Hstop.
      unfold amount_total, dated, select. simpl rows.
      rewrite in_range_dated. reflexivity. }
    reflexivity. }
  split; [exact E |]. split; [| split].
  - intros r Hr Hle [Hdate | Hdate]; apply filter_In; (split; [assumption |]);
      unfold in_range; rewrite Hdate.
    + rewrite ts_leb_refl, Hle. reflexivity.
    + rewrite Hle, ts_leb_refl. reflexivity.
  - intros r t Hr Hdate. apply filter_In in Hr. destruct Hr as [_ Hr].
    unfold in_range in Hr. rewrite Hdate in Hr. apply andb_prop in Hr. exact Hr.
  - intros Hrev. rewrite E.
    rewrite filter_nothing.
    + simpl. unfold between_sentence. rewrite sum_nil, fmt2_zero. reflexivity.
    + intros r _. unfold in_range. destruct (Date r) as [t |]; [| reflexivity].
      destruct (ts_leb start t) eqn:E1; [| reflexivity].
      destruct (ts_leb t stop) eqn:E2; [| reflexivity].
      rewrite (ts_leb_trans _ _ _ E1 E2) in Hrev. discriminate.
Qed.


(** *** Top category *)

(** The rows whose label, title-cased, is [k]. *)
Definition titled (k : string) (r : Row float) : bool :=
  match Category r with
  | Some c => String.eqb k (PyStr.title c)
  | None => false
  end.

(** The sum of a group of [groupby(category_series.str.title())]: NaN
    amounts are skipped. *)
Definition title_total (df : Frame) (k : string) : float :=
  sum (filter notna (map Amount (filter (titled k) (rows df)))).

Definition title_pairs (rs : list (Row float)) : list (string * float) :=
  flat_map (fun r => match Category r with
                     | Some c => [(PyStr.title c, Amount r)]
                     | None => []
                     end) rs.

Lemma In_insert_key {K} (leb : K -> K -> bool) (x k : K) (l : list K) :
  In x (insert_key leb k l) -> x = k \/ In x l.
Proof.
  induction l as [| k' l IH]; simpl.
  - intros [H | []]; auto.
  - destruct (leb k k'); simpl.
    + intros [H | [H | H]]; auto.
    + intros [H | H]; auto. destruct (IH H); auto.
Qed.

Lemma In_sort_keys {K} (leb : K -> K -> bool) (x : K) (l : list K) :
  In x (sort_keys leb l) -> In x l.
Proof.
  induction l as [| k l IH]; simpl; [trivial |].
  intros H. apply In_insert_key in H. destruct H as [-> | H]; auto.
Qed.

Lemma In_distinct {K} (eqb : K -> K -> bool) (x : K) (l : list K) :
  In x (distinct eqb l) -> In x l.
Proof.
  induction l as [| k l IH]; simpl; [trivial |].
  intros [H | H]; auto. apply filter_In in H. right. apply IH, H.
Qed.

Lemma title_pairs_keys (rs : list (Row float)) (k : string) :
  In k (map fst (title_pairs rs)) ->
  exists c, In (Some c) (map Category rs) /\ k = PyStr.title c.
Proof.
  induction rs as [| r rs IH]; simpl; [intros [] |].
  unfold title_pairs. simpl. fold (title_pairs rs).
  rewrite map_app, in_app_iff. intros [H | H].
  - destruct (Category r) as [c |]; simpl in H; [| destruct H].
    destruct H as [<- | []]. exists c. auto.
  - destruct (IH H) as (c & Hc & ->). exists c. auto.
Qed.

Lemma title_pairs_group (rs : list (Row float)) (k : string) :
  map snd (filter (fun kv => String.eqb k (fst kv)) (title_pairs rs))
  = map Amount (filter (titled k) rs).
Proof.
  induction rs as [| r rs IH]; simpl; [reflexivity |].
  unfold title_pairs. simpl. fold (title_pairs rs).
  rewrite filter_app, map_app, IH. unfold titled at 2.
  destruct (Category r) as [c |]; simpl; [| reflexivity].
  destruct (String.eqb k (PyStr.title c)); reflexivity.
Qed.

Lemma title_pairs_not_nil (rs : list (Row float)) :
  (exists r, In r rs /\ Category r <> None) -> title_pairs rs <> [].
Proof.
  intros (r & Hr & Hc) E.
  destruct (Category r) as [c |] eqn:Ec; [| congruence].
  assert (Hin : In (PyStr.title c, Amount r) (title_pairs rs)).
  { unfold title_pairs. apply in_flat_map. exists r. split; [assumption |].
    rewrite Ec. left. reflexivity. }
  rewrite E in Hin. destruct Hin.
Qed.

Lemma some_label (rs : list (Row float)) :
  (exists r, In r rs /\ Category r <> None) -> existsb has_text rs = true.
Proof.
  intros (r & Hr & Hc). apply existsb_exists. exists r. split; [assumption |].
  unfold has_text. destruct (Category r); congruence.
Qed.

(** X9. When control reaches the top-category rule and the query asks for
    the top or highest category, and sorting a series only permutes it:
    without a [Category] column the answer says the column is missing;
    with a column that holds no text it is the error text of the [.str]
    accessor; with a labelled row it names a label of the frame in title
    case, with the sum of the amounts (NaN skipped) of the rows whose
    label has the same title-cased form. *)
Theorem top_category_cases (w : World) (df : Frame) (query : string) :
  load_data_outcome w = Ok (Some df) ->
  empty df = false ->
  has_Amount df = true ->
  silent_before 12 df (PyStr.lower query) ->
  asks_top_category (PyStr.lower query) = true ->
  (forall l, Permutation (sort_values_desc l) l) ->
  (has_Category df = false ->
   returned (_rule_based_answer w query)
   = Ok "Couldn't find the 'Category' column in your data.")
  /\ (has_Category df = true ->
      (forall r, In r (rows df) -> Category r = None) ->
      returned (_rule_based_answer w query)
      = Ok ("Error processing query: " ++ str_accessor_error))
  /\ (has_Category df = true ->
      (exists r, In r (rows df) /\ Category r <> None) ->
      exists c, In (Some c) (map Category (rows df))
                /\ returned (_rule_based_answer w query)
                   = Ok ("Top category: " ++ PyStr.title c ++ " with ₹"
                         ++ fmt2 (title_total df (PyStr.title c)) ++ ".")).
Proof.
  intros Hload He Ha Hs Hq Hperm.
  rewrite (answer_loaded_usable _ _ _ Hload He Ha), (reach 12 _ _ Hs).
  change (skipn 12 rules) with [rule_top_category].
  cbn [first_match]. unfold rule_top_category. rewrite Hq.
  fold (title_pairs (rows df)).
  split; [| split].
  - intros ->. reflexivity.
  - intros -> Hnone. destruct (no_labels _ Hnone) as [_ ->]. reflexivity.
  - intros -> Hsome. rewrite (some_label _ Hsome). simpl negb. cbv iota.
    pose proof (group_sums_not_nil String.leb String.eqb _ (title_pairs_not_nil _ Hsome))
      as Hg.
    destruct (sort_values_desc (group_sums String.leb String.eqb (title_pairs (rows df))))
      as [| [k v] rest] eqn:E.
    + exfalso. apply Hg. apply Permutation_nil. rewrite <- E. apply Hperm.
    + assert (Hin : In (k, v) (group_sums String.leb String.eqb (title_pairs (rows df)))).
      { apply (Permutation_in _ (Hperm _)). rewrite E. left. reflexivity. }
      unfold group_sums in Hin. apply in_map_iff in Hin.
      destruct Hin as (k' & Hkv & Hk'). injection Hkv as <- <-.
      apply In_sort_keys, In_distinct, title_pairs_keys in Hk'.
      destruct Hk' as (c & Hc & ->).
      exists c. split; [assumption |].
      rewrite title_pairs_group. reflexivity.
Qed.

End Dispatch.

(** ** Further properties of the entry point and of the LLM path *)

Section EntryPoint.

Context {U : Unicode} {P : Pandas}.

Import QueryHandler.

Local Abbreviation Frame := (DataFrame float).

(** The context [_load_context] returns. *)
Definition context_of (w : World) : Context :=
  match load_data_outcome w with
  | Ok df => match context_from df with
             | Ok context => context
             | Raise _ => empty_context
             end
  | Raise _ => empty_context
  end.

Lemma load_context_run (w : World) :
  _load_context w = (Ok (context_of w), [CallLoadData]).
Proof.
  unfold _load_context, context_of, load_data, try_except, bind, emit, lift, ret.
  destruct (load_data_outcome w) as [df | e]; simpl; [| reflexivity].
  destruct (context_from df); reflexivity.
Qed.

(** [bool(api_key)] for the key [_get_openai_key] returns *)
Definition configured_key (w : World) : option string :=
  match _get_openai_key w with
  | Some k => if PyStr.is_empty k then None else Some k
  | None => None
  end.

Lemma llm_answer_without_key (w : World) (query : string) (context : Context) :
  configured_key w = None ->
  _llm_answer w query context = (Ok not_configured, []).
Proof.
  unfold configured_key, _llm_answer. destruct (_get_openai_key w) as [k |]; [| reflexivity].
  destruct (PyStr.is_empty k); [reflexivity | discriminate].
Qed.

(** What the [try] of [_llm_answer] returns for the key [k]. *)
Definition llm_text (w : World) (k query : string) (context : Context) : string :=
  match openai_client w k with
  | ClientImportError => not_installed
  | ClientError msg => "AI response error: " ++ msg
  | Client =>
      match json_dumps w context with
      | Raise msg => "AI response error: " ++ msg
      | Ok context_str =>
          match chat w k (user_message context_str query) with
          | Content text => PyStr.strip text
          | ImportError => not_installed
          | CallError msg => "AI response error: " ++ msg
          end
      end
  end.

Lemma llm_answer_with_key (w : World) (k query : string) (context : Context) :
  configured_key w = Some k ->
  _llm_answer w query context = (Ok (llm_text w k query context), [CallOpenAI]).
Proof.
  unfold configured_key, _llm_answer, llm_text.
  destruct (_get_openai_key w) as [k' |]; [| discriminate].
  destruct (PyStr.is_empty k') eqn:E; [discriminate |]. intros H. injection H as ->.
  unfold bind, emit, ret. destruct (openai_client w k); try reflexivity.
  destruct (json_dumps w context); try reflexivity.
  destruct (chat w k _); reflexivity.
Qed.

(** The statements of [handle_query] after [context = _load_context()]. *)
Definition after_context (w : World) (query : string) : M string :=
  ai_answer <- _llm_answer w query (context_of w) ;;
  if is_failure_answer ai_answer then _rule_based_answer w query
  else ret ai_answer.

Lemma handle_query_run (w : World) (user_input : option string) :
  PyStr.is_empty (query_of user_input) = false ->
  handle_query w user_input
  = (fst (after_context w (query_of user_input)),
     CallLoadData :: snd (after_context w (query_of user_input))).
Proof.
  intros Hq. unfold handle_query. fold (query_of user_input). rewrite Hq.
  rewrite load_context_run. unfold bind at 1. fold (after_context w (query_of user_input)).
  destruct (after_context w (query_of user_input)) as [r t]. reflexivity.
Qed.

Lemma rule_based_trace (w : World) (query : string) :
  snd (_rule_based_answer w query) = [CallRuleBased; CallLoadData].
Proof. rewrite rule_based_run. reflexivity. Qed.

Lemma rule_based_pair (w : World) (query : string) :
  _rule_based_answer w query
  = (returned (_rule_based_answer w query), [CallRuleBased; CallLoadData]).
Proof. rewrite rule_based_run. reflexivity. Qed.

Lemma rule_based_returns (w : World) (query : string) :
  exists s, _rule_based_answer w query = (Ok s, [CallRuleBased; CallLoadData]).
Proof. rewrite rule_based_run. eauto. Qed.

Lemma falls_back (w : World) (user_input : option string) (k : string) :
  PyStr.is_empty (query_of user_input) = false ->
  configured_key w = Some k ->
  is_failure_answer (llm_text w k (query_of user_input) (context_of w)) = true ->
  handle_query w user_input
  = (returned (_rule_based_answer w (query_of user_input)),
     [CallLoadData; CallOpenAI; CallRuleBased; CallLoadData]).
Proof.
  intros Hq Hkey Hf.
  rewrite (handle_query_run _ _ Hq). unfold after_context.
  rewrite (llm_answer_with_key _ _ _ _ Hkey). unfold bind. rewrite Hf.
  rewrite rule_based_pair. reflexivity.
Qed.

(** *** Without a key *)

(** X10. When the environment variable is unset or empty and the secrets
    hold no non-empty key (or reading them fails), [handle_query] answers a
    non-blank query exactly as [_rule_based_answer] does; the OpenAI client
    is never used, and the data is loaded twice, once for the context and
    once by the rules. *)
Theorem without_key_the_rules_answer (w : World) (user_input : option string) :
  PyStr.is_empty (query_of user_input) = false ->
  env_key w = None \/ env_key w = Some "" ->
  (forall k, secrets_key w = Ok (Some k) -> k = "") ->
  handle_query w user_input
  = (returned (_rule_based_answer w (query_of user_input)),
     [CallLoadData; CallRuleBased; CallLoadData]).
Proof.
  intros Hq Henv Hsec.
  assert (Hkey : configured_key w = None).
  { unfold configured_key, _get_openai_key.
    assert (Hs : match match secrets_key w with Ok k' => k' | Raise _ => None end with
                 | Some k => if PyStr.is_empty k then None else Some k
                 | None => None
                 end = None).
    { destruct (secrets_key w) as [[k |] | e]; try reflexivity.
      rewrite (Hsec k eq_refl). reflexivity. }
    destruct Henv as [-> | ->]; simpl; exact Hs. }
  rewrite (handle_query_run _ _ Hq). unfold after_context.
  rewrite (llm_answer_without_key _ _ _ Hkey). unfold bind.
  change (is_failure_answer not_configured) with true. cbv iota.
  rewrite rule_based_pair. reflexivity.
Qed.

(** *** With a key *)

(** X11. With a key configured, when the client cannot be imported or
    built, when [json.dumps] raises on the context, or when the call
    raises, whatever the message, [handle_query] returns the answer of
    [_rule_based_answer]: one attempt on OpenAI, then the rules. *)
Theorem failed_call_falls_back (w : World) (user_input : option string) (k : string) :
  PyStr.is_empty (query_of user_input) = false ->
  configured_key w = Some k ->
  openai_client w k = ClientImportError
  \/ (exists msg, openai_client w k = ClientError msg)
  \/ (openai_client w k = Client
      /\ ((exists msg, json_dumps w (context_of w) = Raise msg)
          \/ (exists context_str,
                 json_dumps w (context_of w) = Ok context_str
                 /\ (chat w k (user_message context_str (query_of user_input))
                     = ImportError
                     \/ exists msg,
                          chat w k (user_message context_str (query_of user_input))
                          = CallError msg)))) ->
  handle_query w user_input
  = (returned (_rule_based_answer w (query_of user_input)),
     [CallLoadData; CallOpenAI; CallRuleBased; CallLoadData]).
Proof.
  intros Hq Hkey Hfail. apply (falls_back w user_input k Hq Hkey).
  unfold llm_text.
  destruct Hfail as [-> | [(msg & ->) | (-> & [(msg & ->) | (s & -> & [-> | (msg & ->)])])]];
    reflexivity.
Qed.

(** X12. With a key configured and a client, when [json.dumps] returns and
    the model replies, a reply that does not begin with one of the three
    failure prefixes is returned stripped of surrounding whitespace; the
    rules are not entered and the data is loaded once. *)
Theorem model_reply_comes_back_stripped (w : World) (user_input : option string)
        (k context_str text : string) :
  PyStr.is_empty (query_of user_input) = false ->
  configured_key w = Some k ->
  openai_client w k = Client ->
  json_dumps w (context_of w) = Ok context_str ->
  chat w k (user_message context_str (query_of user_input)) = Content text ->
  is_failure_answer (PyStr.strip text) = false ->
  handle_query w user_input = (Ok (PyStr.strip text), [CallLoadData; CallOpenAI]).
Proof.
  intros Hq Hkey Hclient Hjson Hreply Hok.
  rewrite (handle_query_run _ _ Hq). unfold after_context.
  rewrite (llm_answer_with_key _ _ _ _ Hkey). unfold llm_text, bind.
  rewrite Hclient, Hjson, Hreply, Hok. reflexivity.
Qed.

(** The world [w] with another model behind the client. *)
Definition with_chat (w : World) (model : string -> string -> llm_outcome) : World :=
  mkWorld (load_data_outcome w) (env_key w) (secrets_key w) (openai_client w)
          (json_text w) (json_error w) model.

(** X20. With a key configured, on loaded data that has rows and the
    [Date], [Category] and [Amount] columns, the model is never asked: the
    context holds the timestamps of the first rows, [json.dumps] raises,
    and [handle_query] returns the answer of the rules, whatever the model
    would have replied. *)
Theorem loaded_rows_silence_the_model (w : World) (user_input : option string)
        (k : string) (df : Frame) :
  PyStr.is_empty (query_of user_input) = false ->
  configured_key w = Some k ->
  load_data_outcome w = Ok (Some df) ->
  empty df = false ->
  has_Date df = true ->
  has_Category df = true ->
  has_Amount df = true ->
  handle_query w user_input
  = (returned (_rule_based_answer w (query_of user_input)),
     [CallLoadData; CallOpenAI; CallRuleBased; CallLoadData])
  /\ forall model, handle_query (with_chat w model) user_input = handle_query w user_input.
Proof.
  intros Hq Hkey Hload He Hd Hc Ha.
  assert (Hjson : forall w', load_data_outcome w' = Ok (Some df) ->
            json_dumps w' (context_of w') = Raise (json_error w' (context_of w'))).
  { intros w' Hl. unfold context_of. rewrite Hl. unfold context_from.
    rewrite He, Ha, Hc. cbn [negb]. cbv iota. unfold json_dumps.
    cbn [rows_preview preview_has_Date head rows]. rewrite Hd.
    pose proof (usable_rows df (conj He Ha)) as Hr.
    destruct (rows df); [congruence | reflexivity]. }
  assert (Hfail : forall w', load_data_outcome w' = Ok (Some df) ->
            is_failure_answer (llm_text w' k (query_of user_input) (context_of w')) = true).
  { intros w' Hl. unfold llm_text. rewrite (Hjson w' Hl).
    destruct (openai_client w' k); reflexivity. }
  pose proof (falls_back w user_input k Hq Hkey (Hfail w Hload)) as E.
  split; [exact E |].
  intros model. rewrite E.
  rewrite (falls_back (with_chat w model) user_input k Hq Hkey
             (Hfail (with_chat w model) Hload)).
  rewrite !rule_based_run. reflexivity.
Qed.

(** X13. [handle_query] never raises, whatever the loader and the client
    do, and the calls it makes follow one of four patterns: none (blank
    input); data then OpenAI; data, rules, data (no key); data, OpenAI,
    rules, data.  So OpenAI is tried at most once and the rules at most
    once per query. *)
Theorem handle_query_returns (w : World) (user_input : option string) :
  exists s t,
    handle_query w user_input = (Ok s, t)
    /\ (t = []
        \/ t = [CallLoadData; CallOpenAI]
        \/ t = [CallLoadData; CallRuleBased; CallLoadData]
        \/ t = [CallLoadData; CallOpenAI; CallRuleBased; CallLoadData]).
Proof.
  destruct (PyStr.is_empty (query_of user_input)) eqn:Hq.
  - exists "Please enter a question.", []. split; [| auto].
    unfold handle_query. fold (query_of user_input). rewrite Hq. reflexivity.
  - rewrite (handle_query_run _ _ Hq). unfold after_context.
    destruct (rule_based_returns w (query_of user_input)) as (s & Hs).
    destruct (configured_key w) as [k |] eqn:Hkey.
    + rewrite (llm_answer_with_key _ _ _ _ Hkey). unfold bind.
      destruct (is_failure_answer (llm_text w k (query_of user_input) (context_of w))).
      * rewrite Hs. simpl. eauto 10.
      * simpl. eauto 10.
    + rewrite (llm_answer_without_key _ _ _ Hkey). unfold bind.
      change (is_failure_answer not_configured) with true. cbv iota.
      rewrite Hs. simpl. eauto 10.
Qed.


(** *** The context sent to the model *)

(** X14. [_load_context] never raises and loads the data once.  The
    context holds at most five categories and at most ten rows, the first
    rows of the frame; its total is the amount that "total spent" reports.
    When the loader raises, gives no rows, or the frame lacks the [Amount]
    or the [Category] column, the context is the empty one. *)
Theorem context_is_bounded (w : World) :
  _load_context w = (Ok (context_of w), [CallLoadData])
  /\ length (top_categories (context_of w)) <= 5
  /\ length (rows_preview (context_of w)) <= 10
  /\ (forall df,
        load_data_outcome w = Ok (Some df) ->
        empty df = false -> has_Amount df = true -> has_Category df = true ->
        total_spent (context_of w) = sum (map fillna0 (map Amount (rows df)))
        /\ rows_preview (context_of w) = firstn 10 (rows df)
        /\ returned (_rule_based_answer w "total spent")
           = Ok ("You've spent a total of ₹" ++ fmt2 (total_spent (context_of w)) ++ "."))
  /\ ((exists msg, load_data_outcome w = Raise msg) -> context_of w = empty_context)
  /\ (forall df, load_data_outcome w = Ok df -> no_rows df = true ->
                 context_of w = empty_context)
  /\ (forall df, load_data_outcome w = Ok (Some df) ->
                 has_Amount df = false \/ has_Category df = false ->
                 context_of w = empty_context).
Proof.
  split; [apply load_context_run |].
  assert (B : length (top_categories (context_of w)) <= 5
              /\ length (rows_preview (context_of w)) <= 10).
  { unfold context_of.
    destruct (load_data_outcome w) as [[df |] | e]; [| cbn; lia | cbn; lia].
    unfold context_from.
    destruct (empty df); [cbn; lia |].
    destruct (has_Amount df); cbn [negb]; [| cbn; lia].
    destruct (has_Category df); cbn [negb]; [| cbn; lia].
    cbn [top_categories rows_preview]. unfold head. cbn [rows].
    split; apply firstn_le_length. }
  destruct B as [B1 B2].
  split; [exact B1 |]. split; [exact B2 |]. split; [| split; [| split]].
  - intros df Hload He Ha Hc.
    assert (E : context_of w
                = mkContext (amount_total (rows df))
                    (firstn 5
                       (sort_values_desc
                          (group_sums String.leb String.eqb
                             (flat_map (fun r => match Category r with
                                                 | Some c => [(c, Amount r)]
                                                 | None => []
                                                 end) (rows df)))))
                    (rows (head 10 df)) (has_Date df)).
    { unfold context_of. rewrite Hload. unfold context_from.
      rewrite He, Ha, Hc. reflexivity. }
    rewrite E. cbn [total_spent rows_preview]. repeat split.
    rewrite (rule_based_loaded _ _ _ Hload).
    rewrite total_rule_answers; [reflexivity | split; assumption | reflexivity].
  - intros (msg & Hm). unfold context_of. rewrite Hm. reflexivity.
  - intros df Hload Hn. unfold context_of. rewrite Hload.
    destruct df as [d |]; simpl in *; [rewrite Hn |]; reflexivity.
  - intros df Hload Hmiss. unfold context_of. rewrite Hload. unfold context_from.
    destruct (empty df); [reflexivity |].
    destruct Hmiss as [-> | Hc]; [reflexivity |].
    destruct (has_Amount df); simpl; [rewrite Hc |]; reflexivity.
Qed.

(** *** The health check *)

(** [test_ai_connectivity]; [ping] is the chat completion for the
    health-check messages, by key. *)
Definition test_ai_connectivity (w : World) (ping : string -> llm_outcome) : M string :=
  match _get_openai_key w with
  | None => ret "AI disabled: OPENAI_API_KEY not set."
  | Some api_key =>
      if PyStr.is_empty api_key then ret "AI disabled: OPENAI_API_KEY not set."
      else
        emit CallOpenAI ;;;
        match ping api_key with
        | Content text =>
            let content := PyStr.lower (PyStr.strip text) in
            if PyStr.contains "pong" content then ret "AI OK: connectivity verified."
            else ret ("AI reachable but unexpected reply: " ++ content)
        | ImportError => ret "AI error: 'openai' package not installed."
        | CallError msg => ret ("AI error: " ++ msg)
        end
  end.

(** X15. The health check never raises; without a key it reports that AI
    is disabled and does not use the client; and it reports "AI OK:
    connectivity verified." exactly when a key is configured and the reply,
    stripped and lower-cased, contains "pong". *)
Theorem health_check_verdict (w : World) (ping : string -> llm_outcome) :
  (exists s t, test_ai_connectivity w ping = (Ok s, t))
  /\ (configured_key w = None ->
      test_ai_connectivity w ping = (Ok "AI disabled: OPENAI_API_KEY not set.", []))
  /\ (returned (test_ai_connectivity w ping) = Ok "AI OK: connectivity verified."
      <-> exists k text,
            configured_key w = Some k
            /\ ping k = Content text
            /\ PyStr.contains "pong" (PyStr.lower (PyStr.strip text)) = true).
Proof.
  split; [| split; [| split]].
  - unfold test_ai_connectivity, bind, emit, ret.
    destruct (_get_openai_key w) as [k |]; [| eauto].
    destruct (PyStr.is_empty k); [eauto |].
    destruct (ping k) as [text | | msg]; cbv zeta; simpl; eauto.
    destruct (PyStr.contains "pong" (PyStr.lower (PyStr.strip text))); eauto.
  - unfold test_ai_connectivity, configured_key.
    destruct (_get_openai_key w) as [k |]; [| reflexivity].
    destruct (PyStr.is_empty k); [reflexivity | discriminate].
  - unfold test_ai_connectivity, configured_key, returned, bind, emit, ret.
    destruct (_get_openai_key w) as [k |]; [| discriminate].
    destruct (PyStr.is_empty k); [discriminate |].
    destruct (ping k) as [text | | msg] eqn:Hp; cbv zeta; simpl; try discriminate.
    destruct (PyStr.contains "pong" (PyStr.lower (PyStr.strip text))) eqn:Hc;
      simpl; [| discriminate].
    intros _. exists k, text. auto.
  - intros (k & text & Hk & Hp & Hc).
    unfold test_ai_connectivity, returned, bind, emit, ret.
    unfold configured_key in Hk.
    destruct (_get_openai_key w) as [k' |]; [| discriminate].
    destruct (PyStr.is_empty k'); [discriminate |]. injection Hk as ->.
    rewrite Hp. cbv zeta. rewrite Hc. reflexivity.
Qed.


End EntryPoint.

(** ** The loader: [utils/helpers.py]

    [load_data] reads up to three CSV files, merges what it could read,
    drops duplicates, parses the dates and sorts by date.  The file system
    is a record of what exists and what [pd.read_csv] returns; the frame
    operations that work on whole columns are in the class [PandasFrames]. *)

Module Helpers.

Section RawData.

Variable float : Type.

(** A record as [pd.read_csv] returns it: the date is still text. *)
Record RawRow := mkRawRow {
  raw_Date : option string;
  raw_Category : option string;
  raw_Amount : float;
  raw_Note : option string
}.

Record RawFrame := mkRaw {
  raw_has_Date : bool;
  raw_has_Category : bool;
  raw_has_Amount : bool;
  raw_has_Note : bool;
  raw_other_columns : list string;
  raw_rows : list RawRow
}.

(** [df.empty] *)
Definition raw_empty (df : RawFrame) : bool :=
  match raw_rows df with [] => true | _ => false end
  || (negb (raw_has_Date df) && negb (raw_has_Category df) && negb (raw_has_Amount df)
      && negb (raw_has_Note df)
      && match raw_other_columns df with [] => true | _ => false end).

End RawData.

Arguments mkRawRow {float}.
Arguments raw_Date {float}.
Arguments raw_Category {float}.
Arguments raw_Amount {float}.
Arguments raw_Note {float}.
Arguments mkRaw {float}.
Arguments raw_has_Date {float}.
Arguments raw_has_Category {float}.
Arguments raw_has_Amount {float}.
Arguments raw_has_Note {float}.
Arguments raw_other_columns {float}.
Arguments raw_rows {float}.
Arguments raw_empty {float}.

(** What [load_data] uses of pandas on whole frames. *)
Class PandasFrames {P : Pandas} := {
  (** [float("nan")], the filler of [pd.concat] for a missing column *)
  nan : float;
  (** equality of two [Amount] cells for [drop_duplicates] *)
  same_value : float -> float -> bool;
  (** [pd.to_datetime(column, errors="coerce")] *)
  to_datetime_column : list (option string) -> list (option Timestamp);
  (** [df.sort_values("Date")] on the rows *)
  sort_values_Date : list (Row float) -> list (Row float);
  (** [str(e)] of the [KeyError] of [drop_duplicates] for missing columns *)
  key_error : list string -> string;

  isna_nan : isna nan = true;
  to_datetime_column_length : forall l, length (to_datetime_column l) = length l;
  sort_values_Date_perm : forall l, Permutation (sort_values_Date l) l;
  sort_values_Date_ordered : forall l, load_ordered (sort_values_Date l)
}.

Section WithPandas.

Context {P : Pandas} {F : PandasFrames}.

(** The files [load_data] looks at. *)
Record Files := mkFiles {
  DATA_PATH : string;
  reports_path : string;
  data_expenses_path : string;
  (** [os.path.exists], which answers [False] for a file it cannot examine *)
  os_path_exists : string -> bool;
  (** [Path.exists], which raises for a file it cannot examine (as in a
      directory that may not be searched) *)
  Path_exists : string -> result bool;
  (** [pd.read_csv]: the frame, or the exception *)
  read_csv : string -> result (RawFrame float)
}.

Variable fs : Files.

Definition Source : Type := list (RawFrame float) * list string.

Definition nothing : Source := ([], []).

(** One [try: read ... except Exception as e: st.warning(...)] block, for
    a file that exists: the frames appended to [all_data] and the warnings
    shown. *)
Definition read_source (path what : string) (prepare : RawFrame float -> RawFrame float)
  : Source :=
  match read_csv fs path with
  | Ok data => if raw_empty data then nothing else ([prepare data], [])
  | Raise e => ([], ["Could not load " ++ what ++ ": " ++ e])
  end.

(** [if 'Note' not in reports_data.columns: reports_data['Note'] = ''] *)
Definition add_Note (df : RawFrame float) : RawFrame float :=
  if raw_has_Note df then df
  else mkRaw (raw_has_Date df) (raw_has_Category df) (raw_has_Amount df) true
             (raw_other_columns df)
             (map (fun r => mkRawRow (raw_Date r) (raw_Category r) (raw_Amount r) (Some ""))
                  (raw_rows df)).

(** # 1. [if os.path.exists(DATA_PATH):] *)
Definition main_source : Source :=
  if os_path_exists fs (DATA_PATH fs)
  then read_source (DATA_PATH fs) "main data" (fun d => d)
  else nothing.

(** # 2. [if reports_path.exists():] *)
Definition reports_source : result Source :=
  match Path_exists fs (reports_path fs) with
  | Ok true => Ok (read_source (reports_path fs) "reports data" add_Note)
  | Ok false => Ok nothing
  | Raise e => Raise e
  end.

(** # 3. [if data_expenses_path.exists() and str(data_expenses_path) != DATA_PATH:] *)
Definition data_expenses_source : result Source :=
  match Path_exists fs (data_expenses_path fs) with
  | Ok true =>
      Ok (if String.eqb (data_expenses_path fs) (DATA_PATH fs) then nothing
          else read_source (data_expenses_path fs) "data/expenses.csv" (fun d => d))
  | Ok false => Ok nothing
  | Raise e => Raise e
  end.

(** [all_data] after the three blocks, or the exception of [Path.exists] *)
Definition all_data : result (list (RawFrame float)) :=
  match reports_source with
  | Ok reports =>
      match data_expenses_source with
      | Ok data_expenses =>
          Ok (fst main_source ++ fst reports ++ fst data_expenses)%list
      | Raise e => Raise e
      end
  | Raise e => Raise e
  end.

(** the [st.warning] messages shown, in order *)
Definition warnings : list string :=
  (snd main_source
   ++ match reports_source with
      | Ok reports =>
          snd reports
          ++ match data_expenses_source with
             | Ok data_expenses => snd data_expenses
             | Raise _ => []
             end
      | Raise _ => []
      end)%list.

(** The rows of a frame as [pd.concat] sees them: NaN in the columns the
    frame does not have. *)
Definition filled_rows (df : RawFrame float) : list (RawRow float) :=
  map (fun r => mkRawRow (if raw_has_Date df then raw_Date r else None)
                         (if raw_has_Category df then raw_Category r else None)
                         (if raw_has_Amount df then raw_Amount r else nan)
                         (if raw_has_Note df then raw_Note r else None))
      (raw_rows df).

(** [pd.concat(all_data, ignore_index=True)] *)
Definition concat (frames : list (RawFrame float)) : RawFrame float :=
  mkRaw (existsb raw_has_Date frames) (existsb raw_has_Category frames)
        (existsb raw_has_Amount frames) (existsb raw_has_Note frames)
        (nodup string_dec (flat_map raw_other_columns frames))
        (flat_map filled_rows frames).

Definition same_text (a b : option string) : bool :=
  match a, b with
  | Some x, Some y => String.eqb x y
  | None, None => true
  | _, _ => false
  end.

(** Two rows agree on [Date], [Category] and [Amount]. *)
Definition same_key (a b : RawRow float) : bool :=
  same_text (raw_Date a) (raw_Date b)
  && same_text (raw_Category a) (raw_Category b)
  && same_value (raw_Amount a) (raw_Amount b).

Definition missing_key_columns (df : RawFrame float) : list string :=
  ((if raw_has_Date df then [] else ["Date"])
   ++ (if raw_has_Category df then [] else ["Category"])
   ++ (if raw_has_Amount df then [] else ["Amount"]))%list.

(** [df.drop_duplicates(subset=['Date', 'Category', 'Amount'], keep='first')] *)
Definition drop_duplicates (df : RawFrame float) : result (RawFrame float) :=
  match missing_key_columns df with
  | [] => Ok (mkRaw (raw_has_Date df) (raw_has_Category df) (raw_has_Amount df)
                    (raw_has_Note df) (raw_other_columns df)
                    (distinct same_key (raw_rows df)))
  | missing => Raise (key_error missing)
  end.

(** [df['Date'] = pd.to_datetime(df['Date'], errors='coerce')] on the rows *)
Definition parse_dates (rs : list (RawRow float)) : list (Row float) :=
  map (fun rd => mkRow (snd rd) (raw_Category (fst rd)) (raw_Amount (fst rd))
                       (raw_Note (fst rd)))
      (combine rs (to_datetime_column (map raw_Date rs))).

Definition empty_frame : DataFrame float := mkFrame true true true true [] [].

(** # Merge all data *)
Definition merge (frames : list (RawFrame float)) : result (DataFrame float) :=
  match frames with
  | [] => Ok empty_frame
  | _ =>
      match drop_duplicates (concat frames) with
      | Ok combined =>
          Ok (mkFrame true (raw_has_Category combined) (raw_has_Amount combined)
                      (raw_has_Note combined) (raw_other_columns combined)
                      (sort_values_Date (parse_dates (raw_rows combined))))
      | Raise e => Raise e
      end
  end.

(** [load_data]: the frame or the exception. *)
Definition load_data : result (DataFrame float) :=
  match all_data with
  | Ok frames => merge frames
  | Raise e => Raise e
  end.

End WithPandas.

End Helpers.

(** ** Properties of the loader *)

Section Loader.

Context {U : Unicode} {P : Pandas} {F : Helpers.PandasFrames}.

Import QueryHandler Helpers.

Local Abbreviation Frame := (DataFrame float).



Lemma read_source_frames (fs : Files) (path what : string) prepare (df : RawFrame float) :
  (forall d, raw_empty d = false -> raw_empty (prepare d) = false) ->
  In df (fst (read_source fs path what prepare)) -> raw_empty df = false.
Proof.
  intros Hp. unfold read_source.
  destruct (read_csv fs path) as [data | e]; [| intros []].
  destruct (raw_empty data) eqn:E; [intros [] |].
  intros [<- | []]. apply Hp, E.
Qed.


Lemma add_Note_not_empty (d : RawFrame float) :
  raw_empty d = false -> raw_empty (add_Note d) = false.
Proof.
  unfold add_Note. destruct (raw_has_Note d) eqn:E; [trivial |].
  unfold raw_empty. simpl. rewrite andb_false_r. simpl. rewrite orb_false_r.
  destruct (raw_rows d); simpl; [discriminate | reflexivity].
Qed.

Lemma all_data_not_empty (fs : Files) (frames : list (RawFrame float))
      (df : RawFrame float) :
  all_data fs = Ok frames -> In df frames -> raw_empty df = false.
Proof.
  unfold all_data, main_source, reports_source, data_expenses_source.
  destruct (Path_exists fs (reports_path fs)) as [b1 | e1]; [| discriminate].
  destruct (Path_exists fs (data_expenses_path fs)) as [b2 | e2];
    [| destruct b1; discriminate].
  intros H Hin.
  assert (E : frames
              = (fst (if os_path_exists fs (DATA_PATH fs)
                      then read_source fs (DATA_PATH fs) "main data" (fun d => d)
                      else nothing)
                 ++ fst (if b1 then read_source fs (reports_path fs) "reports data" add_Note
                         else nothing)
                 ++ fst (if b2
                         then if String.eqb (data_expenses_path fs) (DATA_PATH fs)
                              then nothing
                              else read_source fs (data_expenses_path fs)
                                               "data/expenses.csv" (fun d => d)
                         else nothing))%list).
  { destruct b1, b2; injection H as <-; reflexivity. }
  rewrite E in Hin. rewrite !in_app_iff in Hin. destruct Hin as [Hin | [Hin | Hin]].
  - destruct (os_path_exists fs (DATA_PATH fs)); [| destruct Hin].
    apply (read_source_frames _ _ _ _ _ (fun d Hd => Hd) Hin).
  - destruct b1; [| destruct Hin].
    apply (read_source_frames _ _ _ _ _ add_Note_not_empty Hin).
  - destruct b2; [| destruct Hin].
    destruct (String.eqb _ _); [destruct Hin |].
    apply (read_source_frames _ _ _ _ _ (fun d Hd => Hd) Hin).
Qed.

Lemma raw_empty_rows (df : RawFrame float) : raw_empty df = false -> raw_rows df <> [].
Proof. unfold raw_empty. destruct (raw_rows df); [discriminate | discriminate]. Qed.

Lemma concat_rows_not_nil (frames : list (RawFrame float)) :
  frames <> [] ->
  (forall df, In df frames -> raw_empty df = false) ->
  raw_rows (concat frames) <> [].
Proof.
  destruct frames as [| d frames]; [congruence |]. intros _ H.
  pose proof (raw_empty_rows d (H d (or_introl eq_refl))) as Hd.
  unfold concat. simpl. unfold filled_rows at 1.
  destruct (raw_rows d); [congruence | discriminate].
Qed.

Lemma distinct_not_nil {K} (eqb : K -> K -> bool) (l : list K) :
  l <> [] -> distinct eqb l <> [].
Proof. destruct l; [congruence | discriminate]. Qed.

Lemma distinct_length {K} (eqb : K -> K -> bool) (l : list K) :
  length (distinct eqb l) <= length l.
Proof.
  induction l as [| a l IH]; simpl; [lia |].
  pose proof (filter_length_le (fun b => negb (eqb a b)) (distinct eqb l)). lia.
Qed.

Lemma parse_dates_length (rs : list (RawRow float)) :
  length (parse_dates rs) = length rs.
Proof.
  unfold parse_dates.
  rewrite length_map, length_combine, to_datetime_column_length, length_map. lia.
Qed.

(** The three outcomes of the merge of frames that have rows. *)
Lemma merge_cases (frames : list (RawFrame float)) :
  (forall df, In df frames -> raw_empty df = false) ->
  (frames = [] /\ merge frames = Ok empty_frame)
  \/ (frames <> []
      /\ missing_key_columns (concat frames) <> []
      /\ merge frames = Raise (key_error (missing_key_columns (concat frames))))
  \/ (frames <> []
      /\ exists df,
           merge frames = Ok df
           /\ has_Date df = true /\ has_Category df = true /\ has_Amount df = true
           /\ empty df = false
           /\ 1 <= length (rows df) <= length (raw_rows (concat frames))).
Proof.
  intros Hne. unfold merge. destruct frames as [| d ds] eqn:E; [left; auto |].
  right. unfold drop_duplicates.
  assert (Hn : raw_rows (concat (d :: ds)) <> [])
    by (apply concat_rows_not_nil; [discriminate | exact Hne]).
  destruct (missing_key_columns (concat (d :: ds))) as [| c cs] eqn:M.
  - right. split; [discriminate |]. eexists. split; [reflexivity |].
    unfold missing_key_columns in M.
    destruct (raw_has_Date (concat (d :: ds))) eqn:Hd; [| discriminate].
    destruct (raw_has_Category (concat (d :: ds))) eqn:Hc; [| discriminate].
    destruct (raw_has_Amount (concat (d :: ds))) eqn:Ha; [| discriminate].
    cbn [has_Date has_Category has_Amount raw_has_Category raw_has_Amount].
    assert (Hl : 1 <= length (sort_values_Date
                                (parse_dates
                                   (distinct same_key (raw_rows (concat (d :: ds))))))).
    { rewrite (Permutation_length (sort_values_Date_perm _)), parse_dates_length.
      pose proof (distinct_not_nil same_key _ Hn) as Hdn.
      destruct (distinct same_key (raw_rows (concat (d :: ds)))); [congruence | simpl; lia]. }
    repeat split.
    + unfold empty, no_columns. cbn [rows has_Date has_Category has_Amount has_Note raw_rows].
      simpl negb. simpl andb. rewrite orb_false_r.
      destruct (sort_values_Date _); [simpl in Hl; lia | reflexivity].
    + exact Hl.
    + cbn [rows raw_rows].
      rewrite (Permutation_length (sort_values_Date_perm _)), parse_dates_length.
      apply distinct_length.
  - left. split; [discriminate |]. split; [discriminate | reflexivity].
Qed.

(** The rows of the sources, as many as [pd.concat] stacks. *)
Definition source_rows (fs : Files) : nat :=
  match all_data fs with
  | Ok frames => length (raw_rows (concat frames))
  | Raise _ => 0
  end.

(** [Path.exists] raises [e] on one of the two paths it is asked about. *)
Definition exists_raises (fs : Files) (e : string) : Prop :=
  Path_exists fs (reports_path fs) = Raise e
  \/ ((exists b, Path_exists fs (reports_path fs) = Ok b)
      /\ Path_exists fs (data_expenses_path fs) = Raise e).

Lemma all_data_cases (fs : Files) :
  (exists e, exists_raises fs e /\ all_data fs = Raise e)
  \/ (exists frames,
         all_data fs = Ok frames
         /\ (exists b, Path_exists fs (reports_path fs) = Ok b)
         /\ (exists b, Path_exists fs (data_expenses_path fs) = Ok b)).
Proof.
  unfold all_data, exists_raises, reports_source, data_expenses_source.
  destruct (Path_exists fs (reports_path fs)) as [b1 | e1]; [| left; eauto].
  destruct (Path_exists fs (data_expenses_path fs)) as [b2 | e2].
  - right. destruct b1, b2; eauto 6.
  - left. exists e2. destruct b1; eauto 6.
Qed.

Lemma load_data_cases (fs : Files) :
  (exists e, exists_raises fs e /\ load_data fs = Raise e)
  \/ (all_data fs = Ok [] /\ load_data fs = Ok empty_frame)
  \/ (exists frames,
         all_data fs = Ok frames
         /\ frames <> []
         /\ missing_key_columns (concat frames) <> []
         /\ load_data fs = Raise (key_error (missing_key_columns (concat frames))))
  \/ (exists frames df,
         all_data fs = Ok frames
         /\ frames <> []
         /\ load_data fs = Ok df
         /\ has_Date df = true /\ has_Category df = true /\ has_Amount df = true
         /\ empty df = false
         /\ 1 <= length (rows df) <= source_rows fs).
Proof.
  unfold load_data, source_rows.
  destruct (all_data_cases fs) as [(e & He & E) | (frames & E & _)].
  - left. exists e. rewrite E. auto.
  - right. rewrite E.
    destruct (merge_cases frames (fun df => all_data_not_empty fs frames df E))
      as [[-> M] | [(Hn & Hm & M) | (Hn & df & M & H)]].
    + left. auto.
    + right. left. exists frames. auto.
    + right. right. exists frames, df. auto.
Qed.

(** X16. [load_data] has four outcomes.  When [Path.exists] raises on the
    reports file or on [data/expenses.csv], which it asks about outside
    any [try], that exception is raised.  Otherwise: with no frame to merge
    it returns the empty frame with the columns Date, Category, Amount,
    Note; when the merged data lacks one of Date, Category, Amount it
    raises the [KeyError] of [drop_duplicates]; and else it returns a frame
    that has these three columns and at least one row, and no more rows
    than the sources together. *)
Theorem load_data_outcomes (fs : Files) :
  (exists e, exists_raises fs e /\ load_data fs = Raise e)
  \/ (all_data fs = Ok [] /\ load_data fs = Ok empty_frame)
  \/ (exists frames,
         all_data fs = Ok frames
         /\ frames <> []
         /\ missing_key_columns (concat frames) <> []
         /\ load_data fs = Raise (key_error (missing_key_columns (concat frames))))
  \/ (exists frames df,
         all_data fs = Ok frames
         /\ frames <> []
         /\ load_data fs = Ok df
         /\ has_Date df = true /\ has_Category df = true /\ has_Amount df = true
         /\ empty df = false
         /\ 1 <= length (rows df) <= source_rows fs).
Proof. exact (load_data_cases fs). Qed.

Lemma loaded_columns (fs : Files) (df : Frame) :
  load_data fs = Ok df ->
  has_Date df = true /\ has_Category df = true /\ has_Amount df = true.
Proof.
  intros H.
  destruct (load_data_cases fs)
    as [(e & _ & E) | [[_ E] | [(fr & _ & _ & _ & E) | (fr & d & _ & _ & E & Hc)]]];
    rewrite E in H; try discriminate; injection H as <-.
  - repeat split.
  - tauto.
Qed.

Lemma loaded_order (fs : Files) (df : Frame) :
  load_data fs = Ok df -> load_ordered (rows df).
Proof.
  unfold load_data, merge. destruct (all_data fs) as [frames | e]; [| discriminate].
  destruct frames.
  - intros H. injection H as <-. constructor.
  - destruct (drop_duplicates _); [| discriminate].
    intros H. injection H as <-. apply sort_values_Date_ordered.
Qed.

(** What [load_data()] gives the handler. *)
Definition loader_outcome (fs : Files) : result (option Frame) :=
  match load_data fs with
  | Ok df => Ok (Some df)
  | Raise e => Raise e
  end.

(** X17. With [load_data] as its loader the rule-based responder has four
    behaviours, for every query: the error text with the exception of
    [Path.exists]; the sentence for missing data, when no file contributed
    a frame; the error text with the [KeyError] of the merge; or the
    answer of the rules on a frame that has the Date, Category and Amount
    columns.  The guard on a missing [Amount] column is never the one that
    answers. *)
Theorem answers_on_loaded_data (fs : Files) (w : World) (query : string) :
  load_data_outcome w = loader_outcome fs ->
  (exists e,
      exists_raises fs e
      /\ returned (_rule_based_answer w query) = Ok ("Error processing query: " ++ e))
  \/ (all_data fs = Ok []
      /\ returned (_rule_based_answer w query)
         = Ok "No expense data available yet. Add some expenses first.")
  \/ (exists frames missing,
         all_data fs = Ok frames
         /\ frames <> []
         /\ missing <> []
         /\ returned (_rule_based_answer w query)
            = Ok ("Error processing query: " ++ key_error missing))
  \/ (exists frames df,
         all_data fs = Ok frames
         /\ frames <> []
         /\ load_data fs = Ok df
         /\ has_Date df = true /\ has_Category df = true /\ has_Amount df = true
         /\ returned (_rule_based_answer w query)
            = Ok (caught match first_match rules (df, PyStr.lower query) with
                         | Some r => r
                         | None => Ok not_understood
                         end)).
Proof.
  intros Hw. unfold loader_outcome in Hw.
  destruct (load_data_cases fs)
    as [(e & He & E) | [[Hn E] | [(fr & Hf & Hn & Hm & E)
                                 | (fr & df & Hf & Hn & E & Hd & Hc & Ha & He & _)]]];
    rewrite E in Hw.
  - left. exists e. split; [assumption |]. rewrite rule_based_run, Hw. reflexivity.
  - right. left. split; [assumption |].
    rewrite (rule_based_loaded _ _ _ Hw). reflexivity.
  - right. right. left. exists fr. eexists. split; [assumption |].
    split; [assumption |]. split; [exact Hm |].
    rewrite rule_based_run, Hw. reflexivity.
  - right. right. right. exists fr, df. repeat split; try assumption.
    apply (answer_loaded_usable _ _ _ Hw He Ha).
Qed.





(** X19. [load_data] leaves the rows in ascending order of date with the
    undated rows last.  So on loaded data in which every date parsed, the
    table of the last-N rule holds the [n] chronologically-latest rows,
    for the clamped count [n]. *)
Theorem loaded_last_n_are_latest (fs : Files) (w : World) (df : Frame)
        (query : string) (m : list string) (count : N) :
  load_data fs = Ok df ->
  load_data_outcome w = Ok (Some df) ->
  empty df = false ->
  (forall r, In r (rows df) -> Date r <> None) ->
  asks_total (PyStr.lower query) = false ->
  Re.search Re.last_n_expenses (PyStr.lower query) = Some m ->
  PyStr.int (Re.group 1 m) = Ok count ->
  load_ordered (rows df)
  /\ returned (_rule_based_answer w query)
     = Ok (to_string (preview_cols (tail (clamp count) df)))
  /\ rows (tail (clamp count) df) = chronologically_latest (clamp count) (rows df).
Proof.
  intros Hl Hw He Hdated T S I.
  destruct (loaded_columns fs df Hl) as (_ & _ & Ha).
  pose proof (loaded_order fs df Hl) as Ho.
  split; [exact Ho |]. split.
  - rewrite (rule_based_loaded _ _ _ Hw).
    rewrite (last_n_rule_answers df query m count (conj He Ha) T S I). reflexivity.
  - unfold chronologically_latest, by_date.
    rewrite (sort_keys_ordered _ _ (load_ordered_dated _ Ho Hdated)). reflexivity.
Qed.

End Loader.

(** ** A reference implementation of the frame operations *)

Module RefLoader.

Import Ref Helpers.

Definition same_amount (x y : amount) : bool :=
  match x, y with
  | Some a, Some b => (a =? b)%Z
  | None, None => true
  | _, _ => false
  end.

Definition parse_cell (c : option string) : option Timestamp :=
  match c with
  | Some text => r_to_datetime text
  | None => None
  end.

Definition sort_rows (rs : list (Row amount)) : list (Row amount) :=
  sort_keys load_order_leb rs.

Fixpoint join_quoted (l : list string) : string :=
  match l with
  | [] => ""
  | [c] => "'" ++ c ++ "'"
  | c :: l' => "'" ++ c ++ "', " ++ join_quoted l'
  end.

Definition r_key_error (missing : list string) : string :=
  "Index([" ++ join_quoted missing ++ "], dtype='object')".

Lemma insert_key_perm {K} (leb : K -> K -> bool) (k : K) (l : list K) :
  Permutation (insert_key leb k l) (k :: l).
Proof.
  induction l as [| a l IH]; simpl; [reflexivity |].
  destruct (leb k a); [reflexivity |].
  rewrite IH. apply perm_swap.
Qed.

Lemma sort_keys_perm {K} (leb : K -> K -> bool) (l : list K) :
  Permutation (sort_keys leb l) l.
Proof.
  induction l as [| a l IH]; simpl; [reflexivity |].
  rewrite insert_key_perm. constructor. exact IH.
Qed.

Lemma insert_key_sorted {K} (leb : K -> K -> bool) (k : K) (l : list K) :
  (forall a b, leb a b = false -> leb b a = true) ->
  Sorted (fun a b => leb a b = true) l ->
  Sorted (fun a b => leb a b = true) (insert_key leb k l).
Proof.
  intros Htot. induction 1 as [| a l HS IH Hd]; simpl.
  - repeat constructor.
  - destruct (leb k a) eqn:E.
    + constructor; [constructor; assumption | constructor; exact E].
    + constructor; [exact IH |].
      destruct Hd as [| b l Hab]; simpl.
      * constructor. apply Htot, E.
      * destruct (leb k b); constructor; [apply Htot, E | exact Hab].
Qed.

Lemma sort_keys_sorted {K} (leb : K -> K -> bool) (l : list K) :
  (forall a b, leb a b = false -> leb b a = true) ->
  Sorted (fun a b => leb a b = true) (sort_keys leb l).
Proof.
  intros Htot. induction l as [| a l IH]; simpl; [constructor |].
  apply insert_key_sorted; assumption.
Qed.

Lemma ts_leb_total (t1 t2 : Timestamp) : ts_leb t1 t2 = false -> ts_leb t2 t1 = true.
Proof.
  intros H. apply ts_leb_spec.
  assert (Hn : ~ ts_le t1 t2) by (rewrite <- ts_leb_spec; congruence).
  unfold ts_le in *. lia.
Qed.

Lemma load_order_total (a b : Row amount) :
  load_order_leb a b = false -> load_order_leb b a = true.
Proof.
  unfold load_order_leb. destruct (Date a), (Date b); try discriminate; auto.
  apply ts_leb_total.
Qed.

Lemma insert_desc_perm (kv : string * amount) (l : list (string * amount)) :
  Permutation (insert_desc kv l) (kv :: l).
Proof.
  induction l as [| a l IH]; simpl; [reflexivity |].
  destruct (a_lt (snd kv) (snd a)); [| reflexivity].
  rewrite IH. apply perm_swap.
Qed.

Lemma r_sort_values_desc_perm (l : list (string * amount)) :
  Permutation (r_sort_values_desc l) l.
Proof.
  unfold r_sort_values_desc. induction l as [| a l IH]; simpl; [reflexivity |].
  rewrite insert_desc_perm. constructor. exact IH.
Qed.

#[export] Instance RefFrames : PandasFrames := {|
  nan := (None : @float RefPandas);
  same_value := same_amount;
  to_datetime_column := map parse_cell;
  sort_values_Date := sort_rows;
  key_error := r_key_error;
  isna_nan := eq_refl;
  to_datetime_column_length := fun l => length_map parse_cell l;
  sort_values_Date_perm := sort_keys_perm load_order_leb;
  sort_values_Date_ordered := fun l => sort_keys_sorted load_order_leb l load_order_total
|}.

Definition raw (d c : string) (a : Z) (n : string) : RawRow amount :=
  mkRawRow (Some d) (Some c) (rupees a) (Some n).

(** The main file holds three records, one of them twice; the reports file
    exists but cannot be read; [data/expenses.csv] is the main file. *)
Definition demo_files : Files :=
  mkFiles "data/expenses.csv" "reports/expenses_summary.csv" "data/expenses.csv"
          (fun _ => true) (fun _ => Ok true)
          (fun path =>
             if String.eqb path "data/expenses.csv" then
               Ok (mkRaw true true true true []
                         [ raw "2025-01-03" "Food" 50 "";
                           raw "2025-01-01" "Food" 100 "";
                           raw "2025-01-02" "Travel" 150 "cab";
                           raw "2025-01-01" "Food" 100 "again" ])
             else Raise "No columns to parse from file").

(** No file exists. *)
Definition no_files : Files :=
  mkFiles "data/expenses.csv" "reports/expenses_summary.csv" "data/expenses.csv"
          (fun _ => false) (fun _ => Ok false)
          (fun _ => Raise "No such file or directory").

(** The main file has no [Category] column. *)
Definition no_category_file : Files :=
  mkFiles "data/expenses.csv" "reports/expenses_summary.csv" "data/expenses.csv"
          (fun path => String.eqb path "data/expenses.csv")
          (fun path => Ok (String.eqb path "data/expenses.csv"))
          (fun _ => Ok (mkRaw true false true false []
                              [mkRawRow (Some "2025-01-01") None (rupees 10) None])).

(** The files of [demo_files], with a [reports] directory that may not be
    searched. *)
Definition locked_reports : Files :=
  mkFiles "data/expenses.csv" "reports/expenses_summary.csv" "data/expenses.csv"
          (fun _ => true)
          (fun path =>
             if String.eqb path "reports/expenses_summary.csv"
             then Raise "[Errno 13] Permission denied: 'reports/expenses_summary.csv'"
             else Ok true)
          (read_csv demo_files).

(** What [load_data] makes of [demo_files]. *)
Definition demo_frame : DataFrame amount :=
  frame [ expense (day 2025 1 1) "Food" 100 "";
          expense (day 2025 1 2) "Travel" 150 "cab";
          expense (day 2025 1 3) "Food" 50 "" ].

(** A world that loads from [fs], without a key and with a key. *)
Definition world_on (fs : Files) : QueryHandler.World :=
  QueryHandler.mkWorld
    match load_data fs with Ok df => Ok (Some df) | Raise e => Raise e end
    None (Ok None) (fun _ => QueryHandler.ClientImportError)
    r_json_text r_json_error (fun _ _ => QueryHandler.ImportError).

Definition online_on (fs : Files) (reply : QueryHandler.llm_outcome)
  : QueryHandler.World :=
  QueryHandler.mkWorld
    match load_data fs with Ok df => Ok (Some df) | Raise e => Raise e end
    (Some "sk-test") (Ok None) (fun _ => QueryHandler.Client)
    r_json_text r_json_error (fun _ _ => reply).

End RefLoader.

Section LoaderEvaluation.

Import Ref QueryHandler Helpers RefLoader.

Example demo_files_loaded :
  load_data demo_files = Ok demo_frame
  /\ warnings demo_files = ["Could not load reports data: No columns to parse from file"].
Proof. split; reflexivity. Qed.

Example missing_column_evaluated :
  returned (_rule_based_answer (world_on no_category_file) "total spent")
  = Ok "Error processing query: Index(['Category'], dtype='object')".
Proof. reflexivity. Qed.

(** [Path.exists] raises outside any [try]: [load_data] raises, the rules
    answer with the error text, and the context is the empty one. *)
Example locked_directory_evaluated :
  load_data locked_reports
  = Raise "[Errno 13] Permission denied: 'reports/expenses_summary.csv'"
  /\ returned (_rule_based_answer (world_on locked_reports) "total spent")
     = Ok "Error processing query: [Errno 13] Permission denied: 'reports/expenses_summary.csv'"
  /\ context_of (world_on locked_reports) = empty_context.
Proof. repeat split; reflexivity. Qed.

End LoaderEvaluation.

(** ** The further theorems at concrete inputs *)

Section MoreWitnesses.

Import Ref QueryHandler Helpers RefLoader Examples.

Lemma total_phrase_wins_witness :
  returned (_rule_based_answer (offline food_and_travel) "How much did I spend on Food?")
  = Ok ("You've spent a total of ₹"
        ++ fmt2 (sum (map fillna0 (map Amount (rows (frame food_and_travel))))) ++ ".").
Proof.
  exact (total_phrase_wins (offline food_and_travel) (frame food_and_travel)
                           "How much did I spend on Food?"
                           eq_refl eq_refl eq_refl eq_refl).
Defined.

Lemma last_n_table_is_bounded_witness :
  exists n,
    n = Nat.max 1 (Nat.min (N.to_nat 0) 50)
    /\ returned (_rule_based_answer (offline ties) "Last 0 expenses, please")
       = Ok (to_string (preview_cols (tail n (frame ties))))
    /\ (exists before, rows (frame ties) = (before ++ rows (tail n (frame ties)))%list)
    /\ length (rows (tail n (frame ties))) = Nat.min n (length (rows (frame ties)))
    /\ 1 <= length (rows (tail n (frame ties))) <= 50.
Proof.
  exact (last_n_table_is_bounded (offline ties) (frame ties) "Last 0 expenses, please"
                                 ["0"] 0 eq_refl eq_refl eq_refl eq_refl eq_refl eq_refl).
Defined.

Lemma average_daily_spend_cases_witness :
  daily_sums (frame with_undated) <> []
  /\ returned (_rule_based_answer (offline with_undated) "What is my average daily spend?")
     = Ok ("Average daily spend: ₹"
           ++ fmt2 (mean (map snd (daily_sums (frame with_undated)))) ++ ".").
Proof.
  refine (proj1 (proj2 (average_daily_spend_cases
                          (offline with_undated) (frame with_undated)
                          "What is my average daily spend?"
                          eq_refl eq_refl eq_refl eq_refl eq_refl eq_refl)) _).
  exists jan1. split; [left; reflexivity | discriminate].
Defined.

Lemma category_query_is_answered_witness :
  returned (_rule_based_answer (offline food_and_travel) "FOOD expenses")
  = Ok (category_sentence (frame food_and_travel) "Food").
Proof.
  refine (proj2 (category_query_is_answered
                   (offline food_and_travel) (frame food_and_travel) "FOOD expenses"
                   eq_refl eq_refl eq_refl eq_refl eq_refl _ _) "Food" _).
  - intros c [H | [H | []]]; injection H as <-; discriminate.
  - exists "Food". split; [left; reflexivity | reflexivity].
  - intros c [H | [H | []]]; injection H as <-; [reflexivity | discriminate].
Defined.

Lemma between_is_a_closed_range_witness :
  returned (_rule_based_answer (offline ties)
                               "expenses between 2025-01-02 and 2025-01-03")
  = Ok (between_sentence (mkTimestamp 2025 1 2 0) (mkTimestamp 2025 1 3 0)
          (sum (map fillna0
                  (map Amount
                       (filter (in_range (mkTimestamp 2025 1 2 0) (mkTimestamp 2025 1 3 0))
                               (rows (frame ties))))))).
Proof.
  refine (proj1 (between_is_a_closed_range
                   (offline ties) (frame ties)
                   "expenses between 2025-01-02 and 2025-01-03"
                   ["2025-01-02"; "2025-01-03"]
                   (mkTimestamp 2025 1 2 0) (mkTimestamp 2025 1 3 0)
                   eq_refl eq_refl eq_refl eq_refl _ eq_refl eq_refl eq_refl eq_refl)).
  exists (expense (day 2025 1 1) "Food" 40 ""). split; [left; reflexivity | discriminate].
Defined.

Lemma top_category_cases_witness :
  (exists c, In (Some c) (map Category (rows (frame food_and_travel)))
             /\ returned (_rule_based_answer (offline food_and_travel)
                                             "Which is my top category?")
                = Ok ("Top category: " ++ PyStr.title c ++ " with ₹"
                      ++ fmt2 (title_total (frame food_and_travel) (PyStr.title c))
                      ++ "."))
  /\ returned (_rule_based_answer (offline unlabelled) "Which is my top category?")
     = Ok ("Error processing query: " ++ str_accessor_error).
Proof.
  split.
  - refine (proj2 (proj2 (top_category_cases
                            (offline food_and_travel) (frame food_and_travel)
                            "Which is my top category?"
                            eq_refl eq_refl eq_refl eq_refl eq_refl
                            r_sort_values_desc_perm)) eq_refl _).
    exists food. split; [left; reflexivity | discriminate].
  - refine (proj1 (proj2 (top_category_cases
                            (offline unlabelled) (frame unlabelled)
                            "Which is my top category?"
                            eq_refl eq_refl eq_refl eq_refl eq_refl
                            r_sort_values_desc_perm)) eq_refl _).
    intros r [<- | [<- | []]]; reflexivity.
Defined.

Lemma without_key_the_rules_answer_witness :
  handle_query (offline food_and_travel) (Some " total spent ")
  = (returned (_rule_based_answer (offline food_and_travel)
                                  (query_of (Some " total spent "))),
     [CallLoadData; CallRuleBased; CallLoadData]).
Proof.
  refine (without_key_the_rules_answer (offline food_and_travel) (Some " total spent ")
                                       eq_refl (or_introl eq_refl) _).
  intros k H. discriminate.
Defined.

Lemma failed_call_falls_back_witness :
  handle_query (online [] (CallError "timed out")) (Some "total spent")
  = (returned (_rule_based_answer (online [] (CallError "timed out"))
                                  (query_of (Some "total spent"))),
     [CallLoadData; CallOpenAI; CallRuleBased; CallLoadData]).
Proof.
  refine (failed_call_falls_back (online [] (CallError "timed out"))
                                 (Some "total spent") "sk-test" eq_refl eq_refl _).
  right. right. split; [reflexivity |]. right.
  eexists. split; [reflexivity |]. right. exists "timed out". reflexivity.
Defined.

Lemma model_reply_comes_back_stripped_witness :
  handle_query (online [] (Content " You have no expenses yet. "))
               (Some "how much?")
  = (Ok "You have no expenses yet.", [CallLoadData; CallOpenAI]).
Proof.
  exact (model_reply_comes_back_stripped
           (online [] (Content " You have no expenses yet. "))
           (Some "how much?") "sk-test" _ " You have no expenses yet. "
           eq_refl eq_refl eq_refl eq_refl eq_refl eq_refl).
Defined.

Lemma loaded_rows_silence_the_model_witness :
  handle_query (online_on demo_files (Content "250")) (Some "total spent")
  = (Ok "You've spent a total of ₹300.00.",
     [CallLoadData; CallOpenAI; CallRuleBased; CallLoadData])
  /\ forall model,
       handle_query (with_chat (online_on demo_files (Content "250")) model)
                    (Some "total spent")
       = handle_query (online_on demo_files (Content "250")) (Some "total spent").
Proof.
  exact (loaded_rows_silence_the_model
           (online_on demo_files (Content "250")) (Some "total spent") "sk-test"
           demo_frame eq_refl eq_refl eq_refl eq_refl eq_refl eq_refl eq_refl).
Defined.

Lemma answers_on_loaded_data_witness :
  (exists e,
      exists_raises demo_files e
      /\ returned (_rule_based_answer (world_on demo_files) "largest expense")
         = Ok ("Error processing query: " ++ e))
  \/ (all_data demo_files = Ok []
      /\ returned (_rule_based_answer (world_on demo_files) "largest expense")
         = Ok "No expense data available yet. Add some expenses first.")
  \/ (exists frames missing,
         all_data demo_files = Ok frames
         /\ frames <> []
         /\ missing <> []
         /\ returned (_rule_based_answer (world_on demo_files) "largest expense")
            = Ok ("Error processing query: " ++ key_error missing))
  \/ (exists frames df,
         all_data demo_files = Ok frames
         /\ frames <> []
         /\ load_data demo_files = Ok df
         /\ has_Date df = true /\ has_Category df = true /\ has_Amount df = true
         /\ returned (_rule_based_answer (world_on demo_files) "largest expense")
            = Ok (caught match first_match rules (df, PyStr.lower "largest expense") with
                         | Some r => r
                         | None => Ok not_understood
                         end)).
Proof.
  exact (answers_on_loaded_data demo_files (world_on demo_files) "largest expense" eq_refl).
Defined.

Lemma loaded_last_n_are_latest_witness :
  load_ordered (rows demo_frame)
  /\ returned (_rule_based_answer (world_on demo_files) "last 2 expenses")
     = Ok (to_string (preview_cols (tail 2 demo_frame)))
  /\ rows (tail 2 demo_frame) = chronologically_latest 2 (rows demo_frame).
Proof.
  refine (loaded_last_n_are_latest demo_files (world_on demo_files)
                                   demo_frame "last 2 expenses" ["2"] 2
                                   _ eq_refl eq_refl _ eq_refl eq_refl eq_refl).
  - reflexivity.
  - intros r [<- | [<- | [<- | []]]]; discriminate.
Defined.

End MoreWitnesses.
